(** * The emotion-conversation analytics backend, embedded and checked

    A shallow embedding of the emotion scoring service
    (services/emotionAIService.js), the conversation analytics service
    (services/conversationAnalyticsService.js), the emotion-conversation
    routes and the Mongoose schemas they write to, followed by the
    properties of the specification that concern them.

    Conventions of the embedding:
    - a JavaScript Number is an exact rational extended with NaN and the two
      infinities; negative zero is identified with zero.  The code computes
      in double precision: a statement about sums, means and comparisons of
      scores takes whole-number scores or whole-number bounds, for which
      rounding to the nearest double changes neither the comparison nor the
      bound;
    - what the text-generation provider replies is an input of each
      operation that calls it;
    - the current time ([new Date()], [Date.now()]) is an input of each
      operation that reads it; the process runs in a time zone without
      daylight saving, so that a calendar day of [setDate] is 24 hours;
    - a collection is the list of its documents in insertion order, and the
      database answers every query;
    - text is ASCII: a character is a byte, and the length of a string is
      its number of bytes. *)

From Stdlib Require Import List String Ascii Bool ZArith QArith Qround Lia Lqa.
From Stdlib Require Import Sorted Permutation.
Import ListNotations.

Set Warnings "-register-all".

Local Open Scope string_scope.
Local Open Scope list_scope.

(** ** The JavaScript values the services compute with *)

Module Js.

Inductive number :=
| NaN
| NegInf
| Fin (q : Q)
| PosInf.

Definition int (z : Z) : number := Fin (inject_Z z).

(** [a < b]; every comparison with NaN is false. *)
Definition ltb (a b : number) : bool :=
  match a, b with
  | NaN, _ | _, NaN => false
  | NegInf, NegInf => false
  | NegInf, _ => true
  | Fin _, NegInf => false
  | Fin x, Fin y => negb (Qle_bool y x)
  | Fin _, PosInf => true
  | PosInf, _ => false
  end.

Definition gtb (a b : number) : bool := ltb b a.

(** [a === b] on Numbers. *)
Definition eqb (a b : number) : bool :=
  match a, b with
  | Fin x, Fin y => Qeq_bool x y
  | NegInf, NegInf | PosInf, PosInf => true
  | _, _ => false
  end.

(** [Math.min(a, b)] and [Math.max(a, b)]: NaN as soon as one argument
    is NaN. *)
Definition min (a b : number) : number :=
  match a, b with
  | NaN, _ | _, NaN => NaN
  | _, _ => if ltb b a then b else a
  end.

Definition max (a b : number) : number :=
  match a, b with
  | NaN, _ | _, NaN => NaN
  | _, _ => if ltb a b then b else a
  end.

Definition add (a b : number) : number :=
  match a, b with
  | NaN, _ | _, NaN => NaN
  | PosInf, NegInf | NegInf, PosInf => NaN
  | PosInf, _ | _, PosInf => PosInf
  | NegInf, _ | _, NegInf => NegInf
  | Fin x, Fin y => Fin (x + y)
  end.

Definition sub (a b : number) : number :=
  match a, b with
  | NaN, _ | _, NaN => NaN
  | PosInf, PosInf | NegInf, NegInf => NaN
  | PosInf, _ | _, NegInf => PosInf
  | NegInf, _ | _, PosInf => NegInf
  | Fin x, Fin y => Fin (x - y)
  end.

(** [a / n] for a list length [n]. *)
Definition divn (a : number) (n : nat) : number :=
  match a, n with
  | NaN, _ => NaN
  | PosInf, _ => PosInf
  | NegInf, _ => NegInf
  | Fin x, O =>
      if Qeq_bool x 0 then NaN
      else if Qle_bool x 0 then NegInf else PosInf
  | Fin x, S _ => Fin (x / inject_Z (Z.of_nat n))
  end.

(** Truthiness of a Number: NaN and zero are falsy. *)
Definition truthy_number (n : number) : bool :=
  match n with
  | NaN => false
  | Fin q => negb (Qeq_bool q 0)
  | NegInf | PosInf => true
  end.

(** [n || d] on Numbers. *)
Definition number_or (n d : number) : number :=
  if truthy_number n then n else d.

(** A value as the runtime hands it over once a reply is parsed, or as a
    property read yields it.  How a string or an array converts to a
    Number (ToPrimitive, StringToNumber) is the runtime's business: such a
    value carries the Number it converts to. *)
Inductive value :=
| VUndefined
| VNull
| VBool (b : bool)
| VNum (n : number)
| VStr (s : string) (asNumber : number)
| VArr (items : list value) (asNumber : number)
| VObj (fields : list (string * value)).

(** String and array literals of the source. *)
Definition str (s : string) : value := VStr s NaN.
Definition emptyArray : value := VArr [] (int 0).

Definition truthy (v : value) : bool :=
  match v with
  | VUndefined | VNull => false
  | VBool b => b
  | VNum n => truthy_number n
  | VStr s _ => negb (s =? "")
  | VArr _ _ | VObj _ => true
  end.

(** [x || d]. *)
Definition or (x d : value) : value := if truthy x then x else d.

(** The own property [k] of a parsed object; a key given twice keeps its
    last value. *)
Fixpoint own (k : string) (fields : list (string * value)) : option value :=
  match fields with
  | [] => None
  | (k', v) :: rest =>
      match own k rest with
      | Some w => Some w
      | None => if k' =? k then Some v else None
      end
  end.

(** ToNumber.  A parsed object converts through [toString]; when the reply
    gave it a key of that name the method is not callable any more and the
    conversion throws a TypeError ([None]), otherwise the text it yields
    is not numeric. *)
Definition ToNumber (v : value) : option number :=
  match v with
  | VUndefined => Some NaN
  | VNull => Some (int 0)
  | VBool b => Some (if b then int 1 else int 0)
  | VNum n => Some n
  | VStr _ n => Some n
  | VArr _ n => Some n
  | VObj fields =>
      match own "toString" fields with
      | Some _ => None
      | None => Some NaN
      end
  end.

(** [v.k].  Reading a property of [null] or [undefined] throws a
    TypeError ([None]); a primitive or an array has none of the
    properties the services read. *)
Definition get (v : value) (k : string) : option value :=
  match v with
  | VUndefined | VNull => None
  | VObj fields =>
      match own k fields with
      | Some w => Some w
      | None => Some VUndefined
      end
  | _ => Some VUndefined
  end.

(** [v?.k]. *)
Definition getOpt (v : value) (k : string) : value :=
  match get v k with
  | Some w => w
  | None => VUndefined
  end.

(** [a * b]; an infinity times zero is NaN. *)
Definition sign (q : Q) : Z :=
  if Qeq_bool q 0 then 0%Z else if Qle_bool q 0 then (-1)%Z else 1%Z.

Definition signed (s : Z) : number :=
  match s with
  | Z0 => NaN
  | Zpos _ => PosInf
  | Zneg _ => NegInf
  end.

Definition mul (a b : number) : number :=
  match a, b with
  | NaN, _ | _, NaN => NaN
  | Fin x, Fin y => Fin (x * y)
  | Fin x, PosInf | PosInf, Fin x => signed (sign x)
  | Fin x, NegInf | NegInf, Fin x => signed (- sign x)
  | PosInf, PosInf | NegInf, NegInf => PosInf
  | PosInf, NegInf | NegInf, PosInf => NegInf
  end.

(** [Math.floor(a)], [Math.ceil(a)] and [isNaN(a)]. *)
Definition floor (a : number) : number :=
  match a with
  | Fin q => Fin (inject_Z (Qfloor q))
  | _ => a
  end.

Definition ceil (a : number) : number :=
  match a with
  | Fin q => Fin (inject_Z (Qceiling q))
  | _ => a
  end.

Definition isNaN (a : number) : bool :=
  match a with
  | NaN => true
  | _ => false
  end.

End Js.

(** What came of one call to the provider followed by [JSON.parse] of the
    reply's content.  A response whose content is [null] parses:
    [JSON.parse(null)] is [null], that is [Parsed VNull]. *)
Inductive completion :=
| CallFailed                    (* rejected, or no choice in the response *)
| Unparsable (content : string) (* [JSON.parse] threw *)
| Parsed (v : Js.value).

(** A [try { ... } catch { return fallback }] block whose body either yields
    a value or throws. *)
Definition tryCatch {A} (body : option A) (fallback : A) : A :=
  match body with
  | Some a => a
  | None => fallback
  end.

Notation "x <- e ;; k" :=
  (match e with Some x => k | None => None end)
  (at level 61, e at next level, right associativity).

(** ** services/emotionAIService.js *)

Module EmotionAIService.
Import Js.

Record EmotionAnalysis := {
  primaryEmotion : value;
  intensity : number;
  confidence : number;
  triggers : value;
  context : value;
  needs : value;
  sentiment : number
}.

Record OverallEmotion := {
  dominantEmotion : value;
  averageIntensity : number;
  emotionalState : value;
  wellBeingScore : number;
  stressLevel : number;
  energyLevel : number;
  satisfaction : number
}.

Record Insights := {
  emotionalPatterns : value;
  concerns : value;
  positiveFactors : value;
  recommendations : value;
  keyTopics : value
}.

(** [Math.max(lo, Math.min(hi, v || d))]. *)
Definition clamp (lo hi : number) (v d : value) : option number :=
  n <- ToNumber (or v d) ;;
  Some (max lo (min hi n)).

Definition emotionFallback (context : value) : EmotionAnalysis :=
  {| primaryEmotion := str "neutral";
     intensity := int 5;
     confidence := Fin (3 # 10);
     triggers := emptyArray;
     context := context;
     needs := emptyArray;
     sentiment := int 0 |}.

Definition analyzeEmotion (reply : completion) (text : string)
    (context : value) : EmotionAnalysis :=
  tryCatch
    match reply with
    | Parsed analysis =>
        a_primaryEmotion <- get analysis "primaryEmotion" ;;
        a_intensity <- get analysis "intensity" ;;
        a_confidence <- get analysis "confidence" ;;
        a_triggers <- get analysis "triggers" ;;
        a_context <- get analysis "context" ;;
        a_needs <- get analysis "needs" ;;
        a_sentiment <- get analysis "sentiment" ;;
        r_intensity <- clamp (int 1) (int 10) a_intensity (VNum (int 5)) ;;
        r_confidence <-
          clamp (int 0) (int 1) a_confidence (VNum (Fin (1 # 2))) ;;
        r_sentiment <- clamp (int (-1)) (int 1) a_sentiment (VNum (int 0)) ;;
        Some {| primaryEmotion := or a_primaryEmotion (str "neutral");
                intensity := r_intensity;
                confidence := r_confidence;
                triggers := or a_triggers emptyArray;
                context := or a_context context;
                needs := or a_needs emptyArray;
                sentiment := r_sentiment |}
    | _ => None
    end
    (emotionFallback context).

Definition overallFallback : OverallEmotion :=
  {| dominantEmotion := str "neutral";
     averageIntensity := int 5;
     emotionalState := str "balanced";
     wellBeingScore := int 5;
     stressLevel := int 5;
     energyLevel := int 5;
     satisfaction := int 5 |}.

(** The conversation only feeds the prompt; the reply is what decides. *)
Definition analyzeOverallEmotion (reply : completion)
    (allResponses : string) : OverallEmotion :=
  let score v := clamp (int 1) (int 10) v (VNum (int 5)) in
  tryCatch
    match reply with
    | Parsed analysis =>
        a_dominantEmotion <- get analysis "dominantEmotion" ;;
        a_averageIntensity <- get analysis "averageIntensity" ;;
        a_emotionalState <- get analysis "emotionalState" ;;
        a_wellBeingScore <- get analysis "wellBeingScore" ;;
        a_stressLevel <- get analysis "stressLevel" ;;
        a_energyLevel <- get analysis "energyLevel" ;;
        a_satisfaction <- get analysis "satisfaction" ;;
        r_averageIntensity <- score a_averageIntensity ;;
        r_wellBeingScore <- score a_wellBeingScore ;;
        r_stressLevel <- score a_stressLevel ;;
        r_energyLevel <- score a_energyLevel ;;
        r_satisfaction <- score a_satisfaction ;;
        Some {| dominantEmotion := or a_dominantEmotion (str "neutral");
                averageIntensity := r_averageIntensity;
                emotionalState := or a_emotionalState (str "balanced");
                wellBeingScore := r_wellBeingScore;
                stressLevel := r_stressLevel;
                energyLevel := r_energyLevel;
                satisfaction := r_satisfaction |}
    | _ => None
    end
    overallFallback.

Definition insightsFallback : Insights :=
  {| emotionalPatterns := emptyArray;
     concerns := emptyArray;
     positiveFactors := emptyArray;
     recommendations := emptyArray;
     keyTopics := emptyArray |}.

Definition generateEmotionalInsights (reply : completion)
    (allResponses : string) : Insights :=
  tryCatch
    match reply with
    | Parsed insights =>
        i_emotionalPatterns <- get insights "emotionalPatterns" ;;
        i_concerns <- get insights "concerns" ;;
        i_positiveFactors <- get insights "positiveFactors" ;;
        i_recommendations <- get insights "recommendations" ;;
        i_keyTopics <- get insights "keyTopics" ;;
        Some {| emotionalPatterns := or i_emotionalPatterns emptyArray;
                concerns := or i_concerns emptyArray;
                positiveFactors := or i_positiveFactors emptyArray;
                recommendations := or i_recommendations emptyArray;
                keyTopics := or i_keyTopics emptyArray |}
    | _ => None
    end
    insightsFallback.

End EmotionAIService.

(** ** The documents (models/) *)

Definition ObjectId := N.

(** A [Date]: its time value in milliseconds and the local calendar fields
    the services read from it. *)
Record Date := {
  getTime : Z;
  getHours : Z;
  getDay : Z;
  getMonth : Z
}.

(** The time values of a Date lie within 8.64e15 milliseconds of the
    epoch.  A Date built from a time value beyond them, or from a text that
    is no date, is an Invalid Date, which a query and a Date path refuse
    with a CastError ([None]); in a [Date] below, a time value out of the
    range stands for it. *)
Definition maxTime : Z := 8640000000000000.

Definition timeClip (t : Z) : option Z :=
  if (Z.abs t <=? maxTime)%Z then Some t else None.

Definition isDate (t : Z) : bool :=
  match timeClip t with
  | Some _ => true
  | None => false
  end.

Inductive ConversationType := daily | weekly | monthly | custom.

(** models/EmotionConversation.js *)
Module EmotionConversation.
Import Js.

Inductive Status := in_progress | completed | abandoned.

Definition Status_eqb (a b : Status) : bool :=
  match a, b with
  | in_progress, in_progress | completed, completed
  | abandoned, abandoned => true
  | _, _ => false
  end.

Record EmotionAnalysis := {
  primaryEmotion : string;
  intensity : number;
  confidence : number;
  triggers : list string;
  context : string;
  needs : list string;
  sentiment : number
}.

Record Question := {
  questionId : string;
  questionText : string;
  userResponse : string;
  emotionAnalysis : EmotionAnalysis;
  timestamp : Date
}.

Record OverallEmotion := {
  dominantEmotion : string;
  averageIntensity : number;
  emotionalState : string;
  wellBeingScore : number;
  stressLevel : number;
  energyLevel : number;
  satisfaction : number
}.

Record Insights := {
  emotionalPatterns : list string;
  concerns : list string;
  positiveFactors : list string;
  recommendations : list string;
  keyTopics : list string
}.

(** [overallEmotion] and [insights] are unset until the conversation is
    completed. *)
Record t := {
  _id : ObjectId;
  tenantId : ObjectId;
  userId : ObjectId;
  sessionId : string;
  conversationType : ConversationType;
  questions : list Question;
  overallEmotion : option OverallEmotion;
  insights : option Insights;
  status : Status;
  createdAt : Date;
  completedAt : option Date
}.

(** The [min]/[max] validators of a Number path; a NaN is refused by the
    cast before them. *)
Definition between (lo hi : Z) (n : number) : bool :=
  match n with
  | Fin q => Qle_bool (inject_Z lo) q && Qle_bool q (inject_Z hi)
  | _ => false
  end.

Definition validEmotionAnalysis (a : EmotionAnalysis) : bool :=
  negb (primaryEmotion a =? "")
  && between 1 10 (intensity a)
  && between 0 1 (confidence a)
  && between (-1) 1 (sentiment a).

Definition validQuestion (q : Question) : bool :=
  negb (questionId q =? "") && negb (questionText q =? "")
  && negb (userResponse q =? "")
  && validEmotionAnalysis (emotionAnalysis q).

Definition validOverallEmotion (o : OverallEmotion) : bool :=
  between 1 10 (averageIntensity o)
  && between 1 10 (wellBeingScore o)
  && between 1 10 (stressLevel o)
  && between 1 10 (energyLevel o)
  && between 1 10 (satisfaction o).

(** What [save] validates. *)
Definition valid (c : t) : bool :=
  negb (sessionId c =? "")
  && forallb validQuestion (questions c)
  && match overallEmotion c with
     | Some o => validOverallEmotion o
     | None => true
     end.

End EmotionConversation.

(** models/EmotionAnalytics.js, the paths the completion route fills. *)
Module EmotionAnalytics.
Import Js.

Record EmotionalMetrics := {
  moodScore : number;
  stressLevel : number;
  energyLevel : number;
  satisfaction : number;
  engagement : number;
  wellBeing : number
}.

Record t := {
  _id : ObjectId;
  tenantId : ObjectId;
  userId : ObjectId;
  date : Date;
  emotionalMetrics : EmotionalMetrics;
  emotionalInsights : EmotionConversation.Insights;
  conversationId : ObjectId
}.

Definition valid (a : t) : bool :=
  let m := emotionalMetrics a in
  let ok := EmotionConversation.between 1 10 in
  ok (moodScore m) && ok (stressLevel m) && ok (energyLevel m)
  && ok (satisfaction m) && ok (engagement m) && ok (wellBeing m).

End EmotionAnalytics.

(** models/UserProfile.js, the paths the analytics service reads. *)
Module UserProfile.
Import Js.

Record EmotionalBaseline := {
  mood : option number;
  stress : option number;
  energy : option number;
  satisfaction : option number
}.

Record t := {
  userId : ObjectId;
  tenantId : ObjectId;
  baselineMetrics : option EmotionalBaseline
}.

End UserProfile.

(** models/ConversationAnalytics.js: the data the service hands to
    [new ConversationAnalytics(...)].  The [interactionAnalysis] and
    [comparativeAnalytics] blocks (placeholder figures, a square root) are
    left out of the embedding: nothing below reads them, and they hold
    constants and figures that are numbers whenever the metrics are, which
    the schema takes. *)
Module ConversationAnalytics.
Import Js.

Record Metrics := {
  totalMessages : number;
  userMessages : number;
  aiMessages : number;
  conversationDuration : number;
  averageResponseTime : number;
  sentimentScore : number;
  emotionalIntensity : number;
  wellBeingScore : number;
  stressLevel : number;
  energyLevel : number;
  satisfactionLevel : number
}.

(** An entry of [dominantEmotions], [emotionalTriggers] or
    [emotionalNeeds]: the counted name, how often it was seen, and the
    constant the service attaches (intensity, impact or priority). *)
Record Counted := {
  name : string;
  occurrences : Z;
  weight : number
}.

Record EmotionalInsights := {
  dominantEmotions : list Counted;
  emotionalTriggers : list Counted;
  emotionalNeeds : list Counted;
  moodPatterns : list string
}.

Record Topic := {
  topic : string;
  frequency : Z;
  sentiment : number;
  keywords : list string
}.

Record QualityMetrics := {
  engagement : number;
  openness : number;
  trust : number;
  satisfaction : number;
  helpfulness : value
}.

Record Recommendation := {
  type : string;
  priority : string;
  description : string;
  actionable : bool
}.

Record ContextualAnalysis := {
  timeOfDay : string;
  dayOfWeek : option string;
  season : string;
  externalEvents : list string;
  workload : number;
  weather : string;
  location : string;
  device : string;
  impactOnMood : number;
  environmentalStressors : list string;
  environmentalSupports : list string
}.

Record ProgressIndicators := {
  emotionalGrowth : number;
  stressManagement : number;
  selfAwareness : number;
  copingStrategies : number
}.

Record BaselineComparison := {
  moodVsBaseline : number;
  stressVsBaseline : number;
  energyVsBaseline : number;
  satisfactionVsBaseline : number
}.

Record TrendAnalysis := {
  shortTermTrend : string;
  mediumTermTrend : string;
  longTermTrend : string;
  volatilityIndex : number
}.

Record HistoricalAnalysis := {
  previousMood : number;
  trendDirection : string;
  recurringThemes : list string;
  progressIndicators : ProgressIndicators;
  baselineComparison : BaselineComparison;
  trendAnalysis : TrendAnalysis
}.

Record GivenRecommendation := {
  givenType : string;
  givenDescription : string;
  givenPriority : string;
  givenAt : Date
}.

Record ActionTracking := {
  recommendationsGiven : list GivenRecommendation;
  actionsTaken : list string;
  followUpRequired : bool;
  followUpDate : Z;
  interventionHistory : list string
}.

Record t := {
  _id : ObjectId;
  tenantId : ObjectId;
  userId : ObjectId;
  conversationId : ObjectId;
  date : Date;
  conversationType : ConversationType;
  metrics : Metrics;
  emotionalInsights : EmotionalInsights;
  topics : list Topic;
  qualityMetrics : QualityMetrics;
  aiPerformance : value;
  recommendations : list Recommendation;
  conversationSummary : value;
  contextualAnalysis : ContextualAnalysis;
  historicalAnalysis : HistoricalAnalysis;
  predictiveInsights : value;
  actionTracking : ActionTracking
}.

(** What [new ConversationAnalytics(...)] and [save()] cast and validate
    in the process, before anything is written, of the paths the service
    fills itself:
    - a Number path refuses a NaN;
    - a Date path refuses an Invalid Date;
    - [recommendations] and [actionTracking.recommendationsGiven] are
      declared as [[{ type: String, ... }]], where the key [type] names
      the type of the element: each is an array of String, and the objects
      the service puts in are no String. *)
Definition isNumber (n : number) : bool := negb (isNaN n).

Definition validMetrics (m : Metrics) : bool :=
  isNumber (totalMessages m) && isNumber (userMessages m)
  && isNumber (aiMessages m) && isNumber (conversationDuration m)
  && isNumber (averageResponseTime m) && isNumber (sentimentScore m)
  && isNumber (emotionalIntensity m) && isNumber (wellBeingScore m)
  && isNumber (stressLevel m) && isNumber (energyLevel m)
  && isNumber (satisfactionLevel m).

Definition validEmotionalInsights (e : EmotionalInsights) : bool :=
  forallb (fun c => isNumber (weight c)) (dominantEmotions e)
  && forallb (fun c => isNumber (weight c)) (emotionalTriggers e)
  && forallb (fun c => isNumber (weight c)) (emotionalNeeds e).

Definition validQualityMetrics (q : QualityMetrics) : bool :=
  isNumber (engagement q) && isNumber (openness q) && isNumber (trust q)
  && isNumber (satisfaction q).

Definition validContextualAnalysis (c : ContextualAnalysis) : bool :=
  isNumber (workload c) && isNumber (impactOnMood c).

Definition validHistoricalAnalysis (h : HistoricalAnalysis) : bool :=
  isNumber (previousMood h)
  && isNumber (emotionalGrowth (progressIndicators h))
  && isNumber (stressManagement (progressIndicators h))
  && isNumber (selfAwareness (progressIndicators h))
  && isNumber (copingStrategies (progressIndicators h))
  && isNumber (moodVsBaseline (baselineComparison h))
  && isNumber (stressVsBaseline (baselineComparison h))
  && isNumber (energyVsBaseline (baselineComparison h))
  && isNumber (satisfactionVsBaseline (baselineComparison h))
  && isNumber (volatilityIndex (trendAnalysis h)).

Definition isEmpty {A} (l : list A) : bool :=
  match l with
  | [] => true
  | _ :: _ => false
  end.

Definition validActionTracking (a : ActionTracking) : bool :=
  isEmpty (recommendationsGiven a) && isDate (followUpDate a).

Definition valid (a : t) : bool :=
  isDate (getTime (date a))
  && validMetrics (metrics a)
  && validEmotionalInsights (emotionalInsights a)
  && forallb (fun t => isNumber (sentiment t)) (topics a)
  && validQualityMetrics (qualityMetrics a)
  && isEmpty (recommendations a)
  && validContextualAnalysis (contextualAnalysis a)
  && validHistoricalAnalysis (historicalAnalysis a)
  && validActionTracking (actionTracking a).

(** Mongoose's casts of what the provider gave: whether a value is taken
    for a Number path, and for the [aiPerformance], [conversationSummary]
    and [predictiveInsights] blocks.  They are parameters of the
    embedding. *)
Record Casts := {
  takesNumber : value -> bool;
  takesAiPerformance : value -> bool;
  takesSummary : value -> bool;
  takesPredictiveInsights : value -> bool
}.

Definition validProvided (casts : Casts) (a : t) : bool :=
  takesNumber casts (helpfulness (qualityMetrics a))
  && takesAiPerformance casts (aiPerformance a)
  && takesSummary casts (conversationSummary a)
  && takesPredictiveInsights casts (predictiveInsights a).

End ConversationAnalytics.

(** The collections. *)
Record Db := {
  conversations : list EmotionConversation.t;
  emotionAnalytics : list EmotionAnalytics.t;
  conversationAnalytics : list ConversationAnalytics.t;
  userProfiles : list UserProfile.t
}.

(** ** Arrays and objects used as counters *)

(** The property names an empty object inherits from [Object.prototype]:
    read before they are written they are no [undefined], so that
    [(counts[k] || 0) + n] is a text and no count ([__proto__] is not even
    written). *)
Definition inheritedNames : list string :=
  [ "constructor"; "__proto__"; "hasOwnProperty"; "isPrototypeOf";
    "propertyIsEnumerable"; "toLocaleString"; "toString"; "valueOf";
    "__defineGetter__"; "__defineSetter__"; "__lookupGetter__";
    "__lookupSetter__" ].

Definition isDigit (c : ascii) : bool :=
  let n := nat_of_ascii c in (48 <=? n)%nat && (n <=? 57)%nat.

Fixpoint allDigits (s : string) : bool :=
  match s with
  | EmptyString => true
  | String c rest => isDigit c && allDigits rest
  end.

(** A name an object counts as the list below does: none it inherits, and
    no text of digits, which [Object.entries] lists before the other keys
    whenever they were written. *)
Definition plainName (k : string) : bool :=
  negb (existsb (String.eqb k) inheritedNames)
  && ((k =? "") || negb (allDigits k)).

(** [counts[k] = (counts[k] || 0) + n] on an object, for keys that are
    plain names ([plainName]): they are listed in the order they were first
    written, the order [Object.entries] follows. *)
Fixpoint bump (k : string) (n : Z) (counts : list (string * Z))
    : list (string * Z) :=
  match counts with
  | [] => [(k, n)]
  | (k', c) :: rest =>
      if k' =? k then (k', (c + n)%Z) :: rest else (k', c) :: bump k n rest
  end.

(** [xs.sort((a, b) => key(b) - key(a))]: decreasing keys, equal keys in
    their former order. *)
Fixpoint insertDesc {A} (key : A -> Z) (x : A) (sorted : list A) : list A :=
  match sorted with
  | [] => [x]
  | y :: rest =>
      if (key y <=? key x)%Z then x :: y :: rest
      else y :: insertDesc key x rest
  end.

Definition sortDesc {A} (key : A -> Z) (xs : list A) : list A :=
  fold_right (insertDesc key) [] xs.

(** [xs.reduce((a, b) => a + b, 0)]. *)
Definition sum (xs : list Js.number) : Js.number :=
  fold_left Js.add xs (Js.int 0).

(** [xs.length > 0 ? sum(xs) / xs.length : otherwise]. *)
Definition average (xs : list Js.number) (otherwise : Js.number) : Js.number :=
  match xs with
  | [] => otherwise
  | _ => Js.divn (sum xs) (List.length xs)
  end.

(** [s.toLowerCase()] on ASCII text. *)
Definition lowerAscii (c : ascii) : ascii :=
  let n := nat_of_ascii c in
  if (65 <=? n)%nat && (n <=? 90)%nat then ascii_of_nat (n + 32) else c.

Fixpoint toLowerCase (s : string) : string :=
  match s with
  | EmptyString => EmptyString
  | String c rest => String (lowerAscii c) (toLowerCase rest)
  end.

(** [s.includes(k)]. *)
Fixpoint includes (s k : string) : bool :=
  prefix k s
  || match s with
     | EmptyString => false
     | String _ rest => includes rest k
     end.

(** ** services/conversationAnalyticsService.js *)

Module ConversationAnalyticsService.
Import Js.
Module EC := EmotionConversation.
Module CA := ConversationAnalytics.

Inductive Sender := ai | user.

Definition isUser (s : Sender) : bool :=
  match s with user => true | ai => false end.

Record Message := {
  sender : Sender;  (* the [type] property *)
  content : string;
  timestamp : Date;
  emotionAnalysis : option EC.EmotionAnalysis
}.

Record ConversationData := {
  messages : list Message;
  totalDuration : number;
  responseTimes : list number;
  conversationType : ConversationType;
  overallEmotion : option EC.OverallEmotion;
  insights : option EC.Insights
}.

(** [(new Date(b) - new Date(a)) / 1000]. *)
Definition secondsBetween (a b : Date) : number :=
  divn (Fin (inject_Z (getTime b - getTime a))) 1000.

Fixpoint responseTimesAfter (prev : EC.Question) (qs : list EC.Question)
    : list number :=
  match qs with
  | [] => []
  | q :: rest =>
      secondsBetween (EC.timestamp prev) (EC.timestamp q)
      :: responseTimesAfter q rest
  end.

Definition extractConversationData (conversation : EC.t) : ConversationData :=
  {| messages :=
       flat_map
         (fun question =>
            [ {| sender := ai;
                 content := EC.questionText question;
                 timestamp := EC.timestamp question;
                 emotionAnalysis := None |};
              {| sender := user;
                 content := EC.userResponse question;
                 timestamp := EC.timestamp question;
                 emotionAnalysis := Some (EC.emotionAnalysis question) |} ])
         (EC.questions conversation);
     totalDuration := int 0;
     responseTimes :=
       match EC.questions conversation with
       | [] => []
       | first :: rest => responseTimesAfter first rest
       end;
     conversationType := EC.conversationType conversation;
     overallEmotion := EC.overallEmotion conversation;
     insights := EC.insights conversation |}.

Definition getDefaultInsights : value :=
  VObj
    [ ("emotionalPatterns", emptyArray);
      ("triggers", emptyArray);
      ("needs", emptyArray);
      ("concerns", emptyArray);
      ("positiveAspects", emptyArray);
      ("aiPerformance",
        VObj [ ("empathy", VNum (int 7));
               ("relevance", VNum (int 7));
               ("questionQuality", VNum (int 7));
               ("contextualAwareness", VNum (int 7)) ]);
      ("summary",
        VObj [ ("keyPoints", emptyArray);
               ("concerns", emptyArray);
               ("positiveAspects", emptyArray);
               ("areasForImprovement", emptyArray) ]);
      ("recommendations", emptyArray) ].

(** The parsed reply is returned as it is. *)
Definition generateAIInsights (reply : completion)
    (conversationData : ConversationData) : value :=
  tryCatch
    match reply with
    | Parsed v => Some v
    | _ => None
    end
    getDefaultInsights.

(** [x?.f || d] and [x?.f > k], [x?.f < k] on an optional block. *)
Definition fieldOr {A} (x : option A) (f : A -> number) (d : number) : number :=
  match x with
  | Some a => number_or (f a) d
  | None => d
  end.

Definition fieldGt {A} (x : option A) (f : A -> number) (k : number) : bool :=
  match x with
  | Some a => gtb (f a) k
  | None => false
  end.

Definition fieldLt {A} (x : option A) (f : A -> number) (k : number) : bool :=
  match x with
  | Some a => ltb (f a) k
  | None => false
  end.

Definition ofNat (n : nat) : number := int (Z.of_nat n).

Definition calculateMetrics (conversationData : ConversationData)
    : CA.Metrics :=
  let userMessages := filter (fun m => isUser (sender m))
                        (messages conversationData) in
  let aiMessages := filter (fun m => negb (isUser (sender m)))
                      (messages conversationData) in
  let sentimentScores :=
    filter (fun score => negb (eqb score (int 0)))
      (map (fun m => fieldOr (emotionAnalysis m) EC.sentiment (int 0))
         userMessages) in
  let intensities :=
    filter (fun intensity => negb (eqb intensity (int 5)))
      (map (fun m => fieldOr (emotionAnalysis m) EC.intensity (int 5))
         userMessages) in
  let oe := overallEmotion conversationData in
  {| CA.totalMessages := ofNat (List.length (messages conversationData));
     CA.userMessages := ofNat (List.length userMessages);
     CA.aiMessages := ofNat (List.length aiMessages);
     CA.conversationDuration := totalDuration conversationData;
     CA.averageResponseTime :=
       average (responseTimes conversationData) (int 0);
     CA.sentimentScore := average sentimentScores (int 0);
     CA.emotionalIntensity := average intensities (int 5);
     CA.wellBeingScore := fieldOr oe EC.wellBeingScore (int 5);
     CA.stressLevel := fieldOr oe EC.stressLevel (int 5);
     CA.energyLevel := fieldOr oe EC.energyLevel (int 5);
     CA.satisfactionLevel := fieldOr oe EC.satisfaction (int 5) |}.

Definition counted (entries : list (string * Z)) : list CA.Counted :=
  map (fun e => {| CA.name := fst e;
                   CA.occurrences := snd e;
                   CA.weight := int 5 |})
    entries.

Definition top5 (entries : list (string * Z)) : list CA.Counted :=
  firstn 5 (sortDesc CA.occurrences (counted entries)).

Definition analyzeEmotionalContent (conversationData : ConversationData)
    : CA.EmotionalInsights :=
  let analyses :=
    flat_map
      (fun m =>
         match emotionAnalysis m with
         | Some analysis => if isUser (sender m) then [analysis] else []
         | None => []
         end)
      (messages conversationData) in
  let countAll (names : EC.EmotionAnalysis -> list string) :=
    fold_left
      (fun counts analysis =>
         fold_left (fun counts n => bump n 1 counts) (names analysis) counts)
      analyses [] in
  {| CA.dominantEmotions :=
       top5 (countAll (fun analysis =>
                         if EC.primaryEmotion analysis =? "" then []
                         else [EC.primaryEmotion analysis]));
     CA.emotionalTriggers := top5 (countAll EC.triggers);
     CA.emotionalNeeds := top5 (countAll EC.needs);
     CA.moodPatterns := [] |}.

Definition topicKeywords : list (string * list string) :=
  [ ("work", ["work"; "job"; "office"; "meeting"; "project"; "deadline";
              "manager"; "colleague"]);
    ("stress", ["stress"; "stressed"; "overwhelmed"; "pressure"; "anxiety";
                "worried"]);
    ("relationships", ["relationship"; "family"; "friend"; "partner"; "team";
                       "social"]);
    ("health", ["health"; "sick"; "tired"; "energy"; "sleep"; "exercise";
                "wellness"]);
    ("goals", ["goal"; "future"; "career"; "plan"; "dream"; "aspiration";
               "ambition"]) ].

Definition keywordsOf (topic : string) : list string :=
  match find (fun entry => fst entry =? topic) topicKeywords with
  | Some entry => snd entry
  | None => []
  end.

(** The first of the two methods named [analyzeTopics] (keyword matching
    over the user's messages).  The class body declares a second method of
    the same name further down, which replaces this one: no call reaches
    it. *)
Definition analyzeTopics_shadowed (conversationData : ConversationData)
    : list CA.Topic :=
  let userMessages := filter (fun m => isUser (sender m))
                        (messages conversationData) in
  let topics :=
    fold_left
      (fun topics msg =>
         let content := toLowerCase (content msg) in
         fold_left
           (fun topics entry =>
              let matches := filter (includes content) (snd entry) in
              if (0 <? List.length matches)%nat
              then bump (fst entry) (Z.of_nat (List.length matches)) topics
              else topics)
           topicKeywords topics)
      userMessages [] in
  sortDesc CA.frequency
    (map (fun e => {| CA.topic := fst e;
                      CA.frequency := snd e;
                      CA.sentiment := int 0;
                      CA.keywords := keywordsOf (fst e) |})
       topics).

(** What the second [analyzeTopics] reads of an item: its [topics]
    property, when it has one. *)
Class HasTopics (A : Type) := topicsOf : A -> option (list CA.Topic).

#[global] Instance analytics_topics : HasTopics CA.t :=
  fun a => Some (CA.topics a).

(** [extractConversationData] builds no [topics] property. *)
#[global] Instance conversationData_topics : HasTopics ConversationData :=
  fun _ => None.

(** One topic merged into the object that gathers them by name, for names
    that are plain ([plainName]). *)
Fixpoint mergeTopic (t : CA.Topic) (topics : list CA.Topic) : list CA.Topic :=
  match topics with
  | [] =>
      [ {| CA.topic := CA.topic t;
           CA.frequency := (0 + CA.frequency t)%Z;
           CA.sentiment := add (int 0) (CA.sentiment t);
           CA.keywords := CA.keywords t |} ]
  | e :: rest =>
      if CA.topic e =? CA.topic t
      then {| CA.topic := CA.topic e;
              CA.frequency := (CA.frequency e + CA.frequency t)%Z;
              CA.sentiment := add (CA.sentiment e) (CA.sentiment t);
              CA.keywords := CA.keywords e |} :: rest
      else e :: mergeTopic t rest
  end.

(** The method [analyzeTopics] in force: it sums the [topics] of analytics
    records.  Its argument is an array ([inr]) or a single item ([inl]). *)
Definition analyzeTopics {A} `{HasTopics A} (analytics : A + list A)
    : list CA.Topic :=
  let analyticsArray :=
    match analytics with
    | inl item => [item]
    | inr items => items
    end in
  let topics :=
    fold_left
      (fun topics analyticsItem =>
         match topicsOf analyticsItem with
         | Some ts => fold_left (fun topics t => mergeTopic t topics) ts topics
         | None => topics
         end)
      analyticsArray [] in
  let averaged :=
    if (0 <? List.length topics)%nat
    then map (fun t => {| CA.topic := CA.topic t;
                          CA.frequency := CA.frequency t;
                          CA.sentiment :=
                            divn (CA.sentiment t) (List.length analyticsArray);
                          CA.keywords := CA.keywords t |})
           topics
    else topics in
  firstn 10 (sortDesc CA.frequency averaged).

(** Throws a TypeError ([None]) when [aiInsights] is [null]. *)
Definition calculateQualityMetrics (conversationData : ConversationData)
    (aiInsights : value) : option CA.QualityMetrics :=
  let userMessages := filter (fun m => isUser (sender m))
                        (messages conversationData) in
  let avgMessageLength :=
    average (map (fun m => ofNat (String.length (content m))) userMessages)
      (int 0) in
  aiPerformance <- get aiInsights "aiPerformance" ;;
  Some {| CA.engagement := min (int 10) (max (int 1) (divn avgMessageLength 10));
          CA.openness :=
            min (int 10) (max (int 1) (ofNat (List.length userMessages * 2)));
          CA.trust := int 7;
          CA.satisfaction :=
            fieldOr (overallEmotion conversationData) EC.satisfaction (int 5);
          CA.helpfulness :=
            or (getOpt aiPerformance "helpfulness") (VNum (int 7)) |}.

Definition generateRecommendations (conversationData : ConversationData)
    (aiInsights : value) : list CA.Recommendation :=
  let oe := overallEmotion conversationData in
  (if fieldGt oe EC.stressLevel (int 7)
   then [ {| CA.type := "emotional_support";
             CA.priority := "high";
             CA.description :=
               "High stress levels detected. Consider stress management techniques.";
             CA.actionable := true |} ]
   else [])
  ++ (if fieldLt oe EC.wellBeingScore (int 4)
      then [ {| CA.type := "personal_development";
                CA.priority := "high";
                CA.description :=
                  "Low well-being score. Focus on self-care and positive activities.";
                CA.actionable := true |} ]
      else [])
  ++ (let topics := analyzeTopics (inl conversationData) in
      if existsb (fun t => (CA.topic t =? "work") && (3 <? CA.frequency t)%Z)
           topics
      then [ {| CA.type := "workplace_improvement";
                CA.priority := "medium";
                CA.description :=
                  "Work-related concerns identified. Consider workplace support resources.";
                CA.actionable := true |} ]
      else []).

(** *** The dashboard rollup *)

Record Overview := {
  totalConversations : number;
  avgWellBeing : number;
  avgStress : number;
  avgSatisfaction : number;
  avgEngagement : number
}.

Record TimePoint := {
  pointDate : Date;
  wellBeing : number;
  stress : number;
  satisfaction : number
}.

Record RecommendationCount := {
  countedType : string;
  countedPriority : option string;
  count : Z
}.

Record Dashboard := {
  overview : Overview;
  emotionalTrends : list (string * Z);
  topTopics : list (string * Z);
  recommendations : list RecommendationCount;
  timeRange : list TimePoint
}.

Definition getEmptyAnalytics : Dashboard :=
  {| overview := {| totalConversations := int 0;
                    avgWellBeing := int 0;
                    avgStress := int 0;
                    avgSatisfaction := int 0;
                    avgEngagement := int 0 |};
     emotionalTrends := [];
     topTopics := [];
     recommendations := [];
     timeRange := [] |}.

Record AverageMetrics := {
  meanWellBeingScore : number;
  meanStressLevel : number;
  meanSatisfactionLevel : number;
  meanEngagement : number
}.

Definition calculateAverageMetrics (analytics : list CA.t) : AverageMetrics :=
  let total (f : CA.t -> number) :=
    fold_left (fun acc curr => add acc (f curr)) analytics (int 0) in
  let n := List.length analytics in
  {| meanWellBeingScore :=
       divn (total (fun a => CA.wellBeingScore (CA.metrics a))) n;
     meanStressLevel :=
       divn (total (fun a => CA.stressLevel (CA.metrics a))) n;
     meanSatisfactionLevel :=
       divn (total (fun a => CA.satisfactionLevel (CA.metrics a))) n;
     meanEngagement :=
       divn (total (fun a => CA.engagement (CA.qualityMetrics a))) n |}.

Definition calculateEmotionalTrends (analytics : list CA.t)
    : list (string * Z) :=
  let emotions :=
    fold_left
      (fun emotions a =>
         fold_left
           (fun emotions e => bump (CA.name e) (CA.occurrences e) emotions)
           (CA.dominantEmotions (CA.emotionalInsights a)) emotions)
      analytics [] in
  firstn 5 (sortDesc snd emotions).

Definition calculateTopTopics (analytics : list CA.t) : list (string * Z) :=
  let topics :=
    fold_left
      (fun topics a =>
         fold_left (fun topics t => bump (CA.topic t) (CA.frequency t) topics)
           (CA.topics a) topics)
      analytics [] in
  firstn 5 (sortDesc snd topics).

(** [s.split(sep)] for a one-character separator. *)
Fixpoint split (sep : ascii) (s : string) : list string :=
  match s with
  | EmptyString => [EmptyString]
  | String c rest =>
      match split sep rest with
      | [] => [String c EmptyString]
      | segment :: segments =>
          if Ascii.eqb c sep then EmptyString :: segment :: segments
          else String c segment :: segments
      end
  end.

Definition aggregateRecommendations (analytics : list CA.t)
    : list RecommendationCount :=
  let recommendations :=
    fold_left
      (fun counts a =>
         fold_left
           (fun counts rec =>
              bump (CA.type rec ++ "-" ++ CA.priority rec) 1 counts)
           (CA.recommendations a) counts)
      analytics [] in
  sortDesc count
    (map (fun e =>
            let parts := split "-"%char (fst e) in
            {| countedType := hd "" parts;
               countedPriority := nth_error parts 1;
               count := snd e |})
       recommendations).

Definition aggregateAnalytics (analytics : list CA.t) : Dashboard :=
  if (List.length analytics =? 0)%nat then getEmptyAnalytics
  else
    let avgMetrics := calculateAverageMetrics analytics in
    {| overview :=
         {| totalConversations := ofNat (List.length analytics);
            avgWellBeing := meanWellBeingScore avgMetrics;
            avgStress := meanStressLevel avgMetrics;
            avgSatisfaction := meanSatisfactionLevel avgMetrics;
            avgEngagement := meanEngagement avgMetrics |};
       emotionalTrends := calculateEmotionalTrends analytics;
       topTopics := calculateTopTopics analytics;
       recommendations := aggregateRecommendations analytics;
       timeRange :=
         map (fun a => {| pointDate := CA.date a;
                          wellBeing := CA.wellBeingScore (CA.metrics a);
                          stress := CA.stressLevel (CA.metrics a);
                          satisfaction := CA.satisfactionLevel (CA.metrics a) |})
           analytics |}.

(** The [timeRange] argument: the text of a day count such as ['30d'] once
    [parseInt] has read it ([None] when it read NaN), or an object with the
    two dates the route built from the texts of the query. *)
Inductive TimeRange :=
| LastDays (days : option Z)
| Between (startDate endDate : Date).

Definition msPerDay : Z := 24 * 60 * 60 * 1000.

(** [ConversationAnalytics.find({ tenantId, date: ... }).sort({ date: -1 })]:
    the time values a stored date must lie between. *)
Definition findByTenant (tenantId : ObjectId) (from : Z) (to : option Z)
    (db : Db) : list CA.t :=
  sortDesc (fun a => getTime (CA.date a))
    (filter
       (fun a =>
          (CA.tenantId a =? tenantId)%N
          && (from <=? getTime (CA.date a))%Z
          && match to with
             | Some e => (getTime (CA.date a) <=? e)%Z
             | None => true
             end)
       (conversationAnalytics db)).

(** [startDate.setDate(startDate.getDate() - days)] is taken to move the
    time value back by whole days of 24 hours.  A day count that is NaN, or
    one that takes the start date out of the range of a Date, makes the
    start date invalid, and the query throws ([None]) on an Invalid
    Date. *)
Definition getDashboardAnalytics (now : Date) (db : Db) (tenantId : ObjectId)
    (timeRange : TimeRange) : option Dashboard :=
  match timeRange with
  | Between startDate endDate =>
      from <- timeClip (getTime startDate) ;;
      to <- timeClip (getTime endDate) ;;
      Some (aggregateAnalytics (findByTenant tenantId from (Some to) db))
  | LastDays (Some days) =>
      from <- timeClip (getTime now - days * msPerDay) ;;
      Some (aggregateAnalytics (findByTenant tenantId from None db))
  | LastDays None => None
  end.

(** *** Contextual factors *)

Record ContextualFactors := {
  givenExternalEvents : option (list string);
  givenWorkload : option number;
  givenWeather : option string;
  givenLocation : option string;
  givenDevice : option string
}.

(** The empty object [{}]. *)
Definition noContextualFactors : ContextualFactors :=
  {| givenExternalEvents := None;
     givenWorkload := None;
     givenWeather := None;
     givenLocation := None;
     givenDevice := None |}.

Definition getTimeOfDay (date : Date) : string :=
  let hour := getHours date in
  if (hour <? 6)%Z then "night"
  else if (hour <? 12)%Z then "morning"
  else if (hour <? 18)%Z then "afternoon"
  else "evening".

Definition getDayOfWeek (date : Date) : option string :=
  let days := ["sunday"; "monday"; "tuesday"; "wednesday"; "thursday";
               "friday"; "saturday"] in
  if (getDay date <? 0)%Z then None
  else nth_error days (Z.to_nat (getDay date)).

Definition getSeason (date : Date) : string :=
  let month := getMonth date in
  if (month <? 3)%Z then "spring"
  else if (month <? 6)%Z then "summer"
  else if (month <? 9)%Z then "autumn"
  else "winter".

Definition equals (x : option string) (s : string) : bool :=
  match x with
  | Some y => y =? s
  | None => false
  end.

Definition highWorkload (contextualFactors : ContextualFactors) : bool :=
  match givenWorkload contextualFactors with
  | Some w => gtb w (int 7)
  | None => false
  end.

Definition calculateEnvironmentalImpact (contextualFactors : ContextualFactors)
    : number :=
  let impact := int 0 in
  let impact := if highWorkload contextualFactors
                then sub impact (int 2) else impact in
  let impact := if equals (givenWeather contextualFactors) "sunny"
                then add impact (int 1) else impact in
  let impact := if equals (givenLocation contextualFactors) "home"
                then add impact (int 1) else impact in
  max (int (-5)) (min (int 5) impact).

Definition identifyEnvironmentalStressors
    (contextualFactors : ContextualFactors) : list string :=
  (if highWorkload contextualFactors then ["high_workload"] else [])
  ++ (if equals (givenWeather contextualFactors) "stormy"
      then ["bad_weather"] else [])
  ++ (if equals (givenLocation contextualFactors) "office"
      then ["work_environment"] else []).

Definition identifyEnvironmentalSupports
    (contextualFactors : ContextualFactors) : list string :=
  (if equals (givenWeather contextualFactors) "sunny" then ["good_weather"] else [])
  ++ (if equals (givenLocation contextualFactors) "home"
      then ["comfortable_environment"] else []).

Definition textOr (x : option string) (d : string) : string :=
  match x with
  | Some s => if s =? "" then d else s
  | None => d
  end.

(** The conversation schema declares no [contextualFactors] path, so
    [conversation.contextualFactors || {}] is the empty object; the clock
    read is [new Date()], the moment of the analysis. *)
Definition analyzeContextualFactors (now : Date) (conversation : EC.t)
    : CA.ContextualAnalysis :=
  let contextualFactors := noContextualFactors in
  {| CA.timeOfDay := getTimeOfDay now;
     CA.dayOfWeek := getDayOfWeek now;
     CA.season := getSeason now;
     CA.externalEvents :=
       match givenExternalEvents contextualFactors with
       | Some events => events
       | None => []
       end;
     CA.workload :=
       match givenWorkload contextualFactors with
       | Some w => number_or w (int 5)
       | None => int 5
       end;
     CA.weather := textOr (givenWeather contextualFactors) "unknown";
     CA.location := textOr (givenLocation contextualFactors) "unknown";
     CA.device := textOr (givenDevice contextualFactors) "unknown";
     CA.impactOnMood := calculateEnvironmentalImpact contextualFactors;
     CA.environmentalStressors :=
       identifyEnvironmentalStressors contextualFactors;
     CA.environmentalSupports :=
       identifyEnvironmentalSupports contextualFactors |}.

(** *** Historical context *)

Definition wellBeingOr5 (c : EC.t) : number :=
  fieldOr (EC.overallEmotion c) EC.wellBeingScore (int 5).

Definition calculatePreviousMood (recentConversations : list EC.t) : number :=
  match recentConversations with
  | [] => int 5
  | lastConversation :: _ => wellBeingOr5 lastConversation
  end.

Definition calculateTrendDirection (recentConversations : list EC.t)
    : string :=
  if (List.length recentConversations <? 2)%nat then "stable"
  else
    let recent := firstn 3 recentConversations in
    let older := firstn 3 (skipn 3 recentConversations) in
    if (List.length recent =? 0)%nat || (List.length older =? 0)%nat
    then "stable"
    else
      let recentAvg :=
        divn (fold_left (fun sum c => add sum (wellBeingOr5 c)) recent (int 0))
          (List.length recent) in
      let olderAvg :=
        divn (fold_left (fun sum c => add sum (wellBeingOr5 c)) older (int 0))
          (List.length older) in
      if gtb recentAvg (add olderAvg (Fin (1 # 2))) then "improving"
      else if ltb recentAvg (sub olderAvg (Fin (1 # 2))) then "declining"
      else "stable".

Definition identifyRecurringThemes (recentConversations : list EC.t)
    : list string :=
  let themes :=
    fold_left
      (fun themes conv =>
         match EC.insights conv with
         | Some i =>
             fold_left (fun themes t => bump t 1 themes) (EC.keyTopics i) themes
         | None => themes
         end)
      recentConversations [] in
  map fst (filter (fun e => (1 <? snd e)%Z) themes).

Definition calculateProgressIndicators (recentConversations : list EC.t)
    : CA.ProgressIndicators :=
  {| CA.emotionalGrowth := int 6;
     CA.stressManagement := int 7;
     CA.selfAwareness := int 6;
     CA.copingStrategies := int 5 |}.

(** [a - b] where either side may be [undefined]. *)
Definition minus (a b : option number) : number :=
  match a, b with
  | Some x, Some y => sub x y
  | _, _ => NaN
  end.

Definition calculateBaselineComparison (conversationData : ConversationData)
    (userProfile : option UserProfile.t) : CA.BaselineComparison :=
  match userProfile with
  | Some {| UserProfile.baselineMetrics := Some baseline |} =>
      let oe := overallEmotion conversationData in
      {| CA.moodVsBaseline :=
           minus (option_map EC.wellBeingScore oe) (UserProfile.mood baseline);
         CA.stressVsBaseline :=
           minus (option_map EC.stressLevel oe) (UserProfile.stress baseline);
         CA.energyVsBaseline :=
           minus (option_map EC.energyLevel oe) (UserProfile.energy baseline);
         CA.satisfactionVsBaseline :=
           minus (option_map EC.satisfaction oe)
             (UserProfile.satisfaction baseline) |}
  | _ =>
      {| CA.moodVsBaseline := int 0;
         CA.stressVsBaseline := int 0;
         CA.energyVsBaseline := int 0;
         CA.satisfactionVsBaseline := int 0 |}
  end.

Definition analyzeTrends (recentConversations : list EC.t) : CA.TrendAnalysis :=
  {| CA.shortTermTrend := "stable";
     CA.mediumTermTrend := "improving";
     CA.longTermTrend := "stable";
     CA.volatilityIndex := int 3 |}.

(** [EmotionConversation.find({ userId, tenantId, createdAt: { $gte: since } })
    .sort({ createdAt: -1 })]. *)
Definition findRecentConversations (userId tenantId : ObjectId) (since : Z)
    (db : Db) : list EC.t :=
  sortDesc (fun c => getTime (EC.createdAt c))
    (filter
       (fun c =>
          (EC.userId c =? userId)%N && (EC.tenantId c =? tenantId)%N
          && (since <=? getTime (EC.createdAt c))%Z)
       (conversations db)).

(** [UserProfile.findOne({ userId, tenantId })]. *)
Definition findUserProfile (userId tenantId : ObjectId) (db : Db)
    : option UserProfile.t :=
  find
    (fun p =>
       (UserProfile.userId p =? userId)%N
       && (UserProfile.tenantId p =? tenantId)%N)
    (userProfiles db).

Definition getDefaultHistoricalAnalysis : CA.HistoricalAnalysis :=
  {| CA.previousMood := int 5;
     CA.trendDirection := "stable";
     CA.recurringThemes := [];
     CA.progressIndicators :=
       {| CA.emotionalGrowth := int 5;
          CA.stressManagement := int 5;
          CA.selfAwareness := int 5;
          CA.copingStrategies := int 5 |};
     CA.baselineComparison :=
       {| CA.moodVsBaseline := int 0;
          CA.stressVsBaseline := int 0;
          CA.energyVsBaseline := int 0;
          CA.satisfactionVsBaseline := int 0 |};
     CA.trendAnalysis :=
       {| CA.shortTermTrend := "stable";
          CA.mediumTermTrend := "stable";
          CA.longTermTrend := "stable";
          CA.volatilityIndex := int 5 |} |}.

(** The query of the last 90 days throws when the date 90 days back is
    out of the range of a Date; the [catch] answers with the default. *)
Definition analyzeHistoricalContext (now : Date) (db : Db)
    (userId tenantId : ObjectId) (conversationData : ConversationData)
    : CA.HistoricalAnalysis :=
  tryCatch
    (let userProfile := findUserProfile userId tenantId db in
     since <- timeClip (getTime now - 90 * msPerDay) ;;
     let recentConversations :=
       findRecentConversations userId tenantId since db in
     Some {| CA.previousMood := calculatePreviousMood recentConversations;
             CA.trendDirection := calculateTrendDirection recentConversations;
             CA.recurringThemes := identifyRecurringThemes recentConversations;
             CA.progressIndicators :=
               calculateProgressIndicators recentConversations;
             CA.baselineComparison :=
               calculateBaselineComparison conversationData userProfile;
             CA.trendAnalysis := analyzeTrends recentConversations |})
    getDefaultHistoricalAnalysis.

(** *** Predictive insights and action tracking *)

Definition getDefaultPredictiveInsights : value :=
  VObj
    [ ("riskFactors", emptyArray);
      ("improvementAreas", emptyArray);
      ("successIndicators", emptyArray);
      ("interventionRecommendations", emptyArray);
      ("predictedOutcomes",
        VObj [ ("nextWeekMood", VNum (int 5));
               ("nextWeekStress", VNum (int 5));
               ("nextWeekEnergy", VNum (int 5));
               ("confidence", VNum (Fin (1 # 2))) ]);
      ("earlyWarningSignals", emptyArray);
      ("opportunityAreas", emptyArray) ].

(** The parsed reply is returned as it is. *)
Definition generatePredictiveInsights (reply : completion)
    (conversationData : ConversationData)
    (historicalAnalysis : CA.HistoricalAnalysis) : value :=
  tryCatch
    match reply with
    | Parsed v => Some v
    | _ => None
    end
    getDefaultPredictiveInsights.

Definition initializeActionTracking (now : Date)
    (recommendations : list CA.Recommendation) : CA.ActionTracking :=
  {| CA.recommendationsGiven :=
       map (fun rec => {| CA.givenType := CA.type rec;
                          CA.givenDescription := CA.description rec;
                          CA.givenPriority := CA.priority rec;
                          CA.givenAt := now |})
         recommendations;
     CA.actionsTaken := [];
     CA.followUpRequired :=
       existsb (fun rec => CA.priority rec =? "high") recommendations;
     CA.followUpDate := (getTime now + 7 * msPerDay)%Z;
     CA.interventionHistory := [] |}.

(** *** The per-conversation pipeline *)

(** What one run of [analyzeConversation] meets outside the process: the
    clock, the identifier given to the new document, the provider's two
    replies, and whether the database takes the write of a document that
    passed the schema. *)
Record World := {
  now : Date;
  freshId : ObjectId;
  insightsReply : completion;
  predictiveReply : completion;
  saveAccepted : bool
}.

Inductive Failure :=
| ConversationNotFound
| TypeError
| ValidationError
| SaveRejected.

Inductive Outcome (A : Type) :=
| Returned (a : A)
| Thrown (e : Failure).

Arguments Returned {A} a.
Arguments Thrown {A} e.

(** [EmotionConversation.findById(conversationId)]. *)
Definition findById (conversationId : ObjectId) (db : Db) : option EC.t :=
  find (fun c => (EC._id c =? conversationId)%N) (conversations db).

Definition insertAnalytics (analytics : CA.t) (db : Db) : Db :=
  {| conversations := conversations db;
     emotionAnalytics := emotionAnalytics db;
     conversationAnalytics := conversationAnalytics db ++ [analytics];
     userProfiles := userProfiles db |}.

(** The record and the database after the write, or the error thrown on to
    the caller.  [save()] validates the document in the process and
    rejects it before any write.  The interaction and comparative blocks
    of the document are left out: their numbers are constants, guarded
    against NaN or the ones checked with the metrics, and their lists are
    lists of texts, so that the schema takes them whenever it takes the
    rest. *)
Definition analyzeConversation (casts : CA.Casts) (w : World) (db : Db)
    (conversationId tenantId userId : ObjectId) : Outcome (CA.t * Db) :=
  match findById conversationId db with
  | None => Thrown ConversationNotFound
  | Some conversation =>
      let conversationData := extractConversationData conversation in
      let aiInsights := generateAIInsights (insightsReply w) conversationData in
      let metrics := calculateMetrics conversationData in
      let emotionalInsights := analyzeEmotionalContent conversationData in
      let topics := analyzeTopics (inl conversationData) in
      match calculateQualityMetrics conversationData aiInsights with
      | None => Thrown TypeError
      | Some qualityMetrics =>
          let recommendations :=
            generateRecommendations conversationData aiInsights in
          let contextualAnalysis :=
            analyzeContextualFactors (now w) conversation in
          let historicalAnalysis :=
            analyzeHistoricalContext (now w) db userId tenantId
              conversationData in
          let predictiveInsights :=
            generatePredictiveInsights (predictiveReply w) conversationData
              historicalAnalysis in
          let actionTracking :=
            initializeActionTracking (now w) recommendations in
          let analytics :=
            {| CA._id := freshId w;
               CA.tenantId := tenantId;
               CA.userId := userId;
               CA.conversationId := conversationId;
               CA.date := now w;
               CA.conversationType := EC.conversationType conversation;
               CA.metrics := metrics;
               CA.emotionalInsights := emotionalInsights;
               CA.topics := topics;
               CA.qualityMetrics := qualityMetrics;
               CA.aiPerformance := getOpt aiInsights "aiPerformance";
               CA.recommendations := recommendations;
               CA.conversationSummary := getOpt aiInsights "summary";
               CA.contextualAnalysis := contextualAnalysis;
               CA.historicalAnalysis := historicalAnalysis;
               CA.predictiveInsights := predictiveInsights;
               CA.actionTracking := actionTracking |} in
          if CA.valid analytics && CA.validProvided casts analytics then
            if saveAccepted w
            then Returned (analytics, insertAnalytics analytics db)
            else Thrown SaveRejected
          else Thrown ValidationError
      end
  end.

(** *** Interaction patterns

    The helpers of [analyzeInteractionPatterns].  The response-length
    variance takes a square root and is left out, and with it the block
    that gathers the helpers. *)

Definition determineConversationFlow (questions : list Message) : string :=
  if (List.length questions <? 3)%nat then "linear"
  else if (8 <? List.length questions)%nat then "adaptive"
  else "branching".

(** A message carries no [questionType]. *)
Definition extractQuestionTypes (questions : list Message) : list string :=
  map (fun _ => "open_ended") questions.

Definition calculateAverageResponseLength (responses : list Message) : number :=
  average (map (fun r => ofNat (String.length (content r))) responses) (int 0).

(** How many of the responses have an intensity above [k]. *)
Definition countAbove (k : Z) (responses : list Message) : nat :=
  List.length
    (filter (fun r => fieldGt (emotionAnalysis r) EC.intensity (int k))
       responses).

Definition calculateComplexityScore (responses : list Message) : number :=
  if (List.length responses =? 0)%nat then int 5
  else
    let avgLength := calculateAverageResponseLength responses in
    let emotionalDepth :=
      divn (ofNat (countAbove 7 responses)) (List.length responses) in
    let score :=
      min (int 10) (add (divn avgLength 50) (mul emotionalDepth (int 5))) in
    if isNaN score then int 5 else score.

Definition calculateEmotionalDepth (responses : list Message) : number :=
  if (List.length responses =? 0)%nat then int 5
  else
    let depth :=
      mul (divn (ofNat (countAbove 5 responses)) (List.length responses))
        (int 10) in
    if isNaN depth then int 5 else depth.

Definition calculateAverageResponseTime (conversationData : ConversationData)
    : number :=
  average (responseTimes conversationData) (int 0).

Definition calculatePauseFrequency (conversationData : ConversationData)
    : number :=
  mul (ofNat (List.length (responseTimes conversationData))) (Fin (3 # 10)).

Definition calculateInterruptionCount (conversationData : ConversationData)
    : number :=
  floor (mul (ofNat (List.length (responseTimes conversationData)))
           (Fin (1 # 10))).

Definition calculateHesitationCount (conversationData : ConversationData)
    : number :=
  floor (mul (ofNat (List.length (responseTimes conversationData)))
           (Fin (2 # 10))).

Definition calculateEngagementScore (conversationData : ConversationData)
    : number :=
  let responseTime := calculateAverageResponseTime conversationData in
  let messageCount := List.length (messages conversationData) in
  let duration := totalDuration conversationData in
  let score := int 5 in
  let score := if ltb responseTime (int 30) then add score (int 2) else score in
  let score := if (5 <? messageCount)%nat then add score (int 2) else score in
  let score := if gtb duration (int 300) then add score (int 1) else score in
  min (int 10) (max (int 1) score).

Definition calculateClarityScore (conversationData : ConversationData)
    : number := int 7.

Definition calculateDepthScore (conversationData : ConversationData)
    : number := int 6.

Definition calculateOpennessScore (conversationData : ConversationData)
    : number := int 7.

Definition calculateTrustScore (conversationData : ConversationData)
    : number := int 6.

Definition calculateOverallEffectiveness (conversationData : ConversationData)
    : number :=
  let clarity := calculateClarityScore conversationData in
  let depth := calculateDepthScore conversationData in
  let openness := calculateOpennessScore conversationData in
  let trust := calculateTrustScore conversationData in
  divn (add (add (add clarity depth) openness) trust) 4.

End ConversationAnalyticsService.

(** ** services/emotionAIService.js, the patterns of a user over time *)

Module EmotionPatterns.
Import Js.
Module EC := EmotionConversation.

Record TrendPoint := {
  pointDate : Date;
  mood : option number;
  stress : option number;
  energy : option number
}.

Record Patterns := {
  dominantEmotions : list (string * Z);
  emotionalTrends : list TrendPoint;
  emotionalTriggers : list (string * Z);
  emotionalNeeds : list (string * Z)
}.

Definition noPatterns : Patterns :=
  {| dominantEmotions := [];
     emotionalTrends := [];
     emotionalTriggers := [];
     emotionalNeeds := [] |}.

(** [EmotionConversation.find({ userId, createdAt: { $gte: since },
    status: 'completed' }).sort({ createdAt: 1 })]. *)
Definition findCompletedSince (userId : ObjectId) (since : Z) (db : Db)
    : list EC.t :=
  sortDesc (fun c => (- getTime (EC.createdAt c))%Z)
    (filter
       (fun c =>
          (EC.userId c =? userId)%N
          && (since <=? getTime (EC.createdAt c))%Z
          && EC.Status_eqb (EC.status c) EC.completed)
       (conversations db)).

(** [names.reduce((acc, n) => { acc[n] = (acc[n] || 0) + 1; return acc }, {})],
    for names that are plain ([plainName]). *)
Definition tally (names : list string) : list (string * Z) :=
  fold_left (fun acc n => bump n 1 acc) names [].

(** [Object.entries(counts).sort(([, a], [, b]) => b - a).slice(0, 5)]. *)
Definition topFive (counts : list (string * Z)) : list (string * Z) :=
  firstn 5 (sortDesc snd counts).

(** The dominant emotion of a conversation as a key of the counter; an
    unset one reads [undefined]. *)
Definition dominantEmotionKey (c : EC.t) : string :=
  match EC.overallEmotion c with
  | Some o => EC.dominantEmotion o
  | None => "undefined"
  end.

(** The user identifier is [None] when the text given is no identifier,
    the day count [None] when [parseInt] read NaN; the start date is
    invalid when the day count takes it out of the range of a Date: the
    query then throws and the [catch] answers with the empty patterns. *)
Definition trackEmotionalPatterns (now : Date) (db : Db)
    (userId : option ObjectId) (days : option Z) : Patterns :=
  tryCatch
    match userId, days with
    | Some userId, Some days =>
        since <- timeClip (getTime now - days * (24 * 60 * 60 * 1000)) ;;
        let conversations := findCompletedSince userId since db in
        if (List.length conversations =? 0)%nat then Some noPatterns
        else
          Some
            {| dominantEmotions :=
                 topFive (tally (map dominantEmotionKey conversations));
               emotionalTrends :=
                 map (fun conv =>
                        {| pointDate := EC.createdAt conv;
                           mood := option_map EC.wellBeingScore
                                     (EC.overallEmotion conv);
                           stress := option_map EC.stressLevel
                                       (EC.overallEmotion conv);
                           energy := option_map EC.energyLevel
                                       (EC.overallEmotion conv) |})
                   conversations;
               emotionalTriggers :=
                 topFive
                   (tally
                      (flat_map
                         (fun conv =>
                            flat_map
                              (fun q => EC.triggers (EC.emotionAnalysis q))
                              (EC.questions conv))
                         conversations));
               emotionalNeeds :=
                 topFive
                   (tally
                      (flat_map
                         (fun conv =>
                            flat_map (fun q => EC.needs (EC.emotionAnalysis q))
                              (EC.questions conv))
                         conversations)) |}
    | _, _ => None
    end
    noPatterns.

End EmotionPatterns.

(** ** The emotion-conversation routes (start, respond, complete) *)

Module EmotionConversationRoutes.
Import Js.
Module EC := EmotionConversation.
Module AI := EmotionAIService.

(** [req.tenant._id] and [req.user._id], set by [authenticateToken]. *)
Record Caller := {
  tenant : ObjectId;
  user : ObjectId
}.

(** Request bodies; a field that is absent reads as the empty text. *)
Record StartBody := {
  conversationType : string;
  questions : value
}.

Record RespondBody := {
  questionId : string;
  questionText : string;
  userResponse : string
}.

Inductive Response :=
| Started (sessionId : string) (conversationId : ObjectId)        (* 201 *)
| Recorded (emotionAnalysis : AI.EmotionAnalysis) (questionCount : nat)
| Completed (overallEmotion : AI.OverallEmotion) (insights : AI.Insights)
    (analyticsId : ObjectId)
| ValidationError                                                 (* 400 *)
| NotFound                                                        (* 404 *)
| InternalServerError.                                            (* 500 *)

Definition parseConversationType (s : string) : option ConversationType :=
  if s =? "daily" then Some daily
  else if s =? "weekly" then Some weekly
  else if s =? "monthly" then Some monthly
  else if s =? "custom" then Some custom
  else None.

Definition isArrayOrAbsent (v : value) : bool :=
  match v with
  | VUndefined | VArr _ _ => true
  | _ => false
  end.

(** [{ sessionId, tenantId, userId, status: 'in_progress' }]. *)
Definition inProgressFor (caller : Caller) (sessionId : string) (c : EC.t)
    : bool :=
  (EC.sessionId c =? sessionId)
  && (EC.tenantId c =? tenant caller)%N
  && (EC.userId c =? user caller)%N
  && EC.Status_eqb (EC.status c) EC.in_progress.

(** [save] of the document [findOne] returned: it takes the place of the
    first document the filter selects. *)
Fixpoint replaceFirst {A} (p : A -> bool) (x : A) (l : list A) : list A :=
  match l with
  | [] => []
  | y :: rest => if p y then x :: rest else y :: replaceFirst p x rest
  end.

Definition withConversations (cs : list EC.t) (db : Db) : Db :=
  {| conversations := cs;
     emotionAnalytics := emotionAnalytics db;
     conversationAnalytics := conversationAnalytics db;
     userProfiles := userProfiles db |}.

Definition insertEmotionAnalytics (a : EmotionAnalytics.t) (db : Db) : Db :=
  {| conversations := conversations db;
     emotionAnalytics := emotionAnalytics db ++ [a];
     conversationAnalytics := conversationAnalytics db;
     userProfiles := userProfiles db |}.

Section Handlers.

(** Mongoose's cast of a value written to a String path and to a path that
    is an array of String; [None] is a CastError. *)
Variable castString : value -> option string.
Variable castStrings : value -> option (list string).

Definition castEmotionAnalysis (a : AI.EmotionAnalysis)
    : option EC.EmotionAnalysis :=
  c_primaryEmotion <- castString (AI.primaryEmotion a) ;;
  c_triggers <- castStrings (AI.triggers a) ;;
  c_context <- castString (AI.context a) ;;
  c_needs <- castStrings (AI.needs a) ;;
  Some {| EC.primaryEmotion := c_primaryEmotion;
          EC.intensity := AI.intensity a;
          EC.confidence := AI.confidence a;
          EC.triggers := c_triggers;
          EC.context := c_context;
          EC.needs := c_needs;
          EC.sentiment := AI.sentiment a |}.

Definition castOverallEmotion (o : AI.OverallEmotion)
    : option EC.OverallEmotion :=
  c_dominantEmotion <- castString (AI.dominantEmotion o) ;;
  c_emotionalState <- castString (AI.emotionalState o) ;;
  Some {| EC.dominantEmotion := c_dominantEmotion;
          EC.averageIntensity := AI.averageIntensity o;
          EC.emotionalState := c_emotionalState;
          EC.wellBeingScore := AI.wellBeingScore o;
          EC.stressLevel := AI.stressLevel o;
          EC.energyLevel := AI.energyLevel o;
          EC.satisfaction := AI.satisfaction o |}.

Definition castInsights (i : AI.Insights) : option EC.Insights :=
  c_emotionalPatterns <- castStrings (AI.emotionalPatterns i) ;;
  c_concerns <- castStrings (AI.concerns i) ;;
  c_positiveFactors <- castStrings (AI.positiveFactors i) ;;
  c_recommendations <- castStrings (AI.recommendations i) ;;
  c_keyTopics <- castStrings (AI.keyTopics i) ;;
  Some {| EC.emotionalPatterns := c_emotionalPatterns;
          EC.concerns := c_concerns;
          EC.positiveFactors := c_positiveFactors;
          EC.recommendations := c_recommendations;
          EC.keyTopics := c_keyTopics |}.

(** POST /start.  The session identifier has a unique index.  The list of
    questions sent back with the identifiers is left out. *)
Definition start (now : Date) (uuid : string) (freshId : ObjectId)
    (caller : Caller) (body : StartBody) (db : Db) : Response * Db :=
  match parseConversationType (conversationType body) with
  | Some type =>
      if isArrayOrAbsent (questions body) then
        let conversation :=
          {| EC._id := freshId;
             EC.tenantId := tenant caller;
             EC.userId := user caller;
             EC.sessionId := uuid;
             EC.conversationType := type;
             EC.questions := [];
             EC.overallEmotion := None;
             EC.insights := None;
             EC.status := EC.in_progress;
             EC.createdAt := now;
             EC.completedAt := None |} in
        if EC.valid conversation
           && negb (existsb (fun c => EC.sessionId c =? uuid) (conversations db))
        then (Started uuid freshId,
              withConversations (conversations db ++ [conversation]) db)
        else (InternalServerError, db)
      else (ValidationError, db)
  | None => (ValidationError, db)
  end.

(** POST /:sessionId/respond. *)
Definition respond (now : Date) (reply : completion) (caller : Caller)
    (sessionId : string) (body : RespondBody) (db : Db) : Response * Db :=
  if (questionId body =? "") || (questionText body =? "")
     || (userResponse body =? "")
  then (ValidationError, db)
  else
    match find (inProgressFor caller sessionId) (conversations db) with
    | None => (NotFound, db)
    | Some conversation =>
        let emotionAnalysis :=
          AI.analyzeEmotion reply (userResponse body) (str "workplace") in
        match castEmotionAnalysis emotionAnalysis with
        | None => (InternalServerError, db)
        | Some stored =>
            let question :=
              {| EC.questionId := questionId body;
                 EC.questionText := questionText body;
                 EC.userResponse := userResponse body;
                 EC.emotionAnalysis := stored;
                 EC.timestamp := now |} in
            let conversation' :=
              {| EC._id := EC._id conversation;
                 EC.tenantId := EC.tenantId conversation;
                 EC.userId := EC.userId conversation;
                 EC.sessionId := EC.sessionId conversation;
                 EC.conversationType := EC.conversationType conversation;
                 EC.questions := EC.questions conversation ++ [question];
                 EC.overallEmotion := EC.overallEmotion conversation;
                 EC.insights := EC.insights conversation;
                 EC.status := EC.status conversation;
                 EC.createdAt := EC.createdAt conversation;
                 EC.completedAt := EC.completedAt conversation |} in
            if EC.valid conversation'
            then (Recorded emotionAnalysis
                    (List.length (EC.questions conversation')),
                  withConversations
                    (replaceFirst (inProgressFor caller sessionId)
                       conversation' (conversations db))
                    db)
            else (InternalServerError, db)
        end
    end.

(** POST /:sessionId/complete.  The conversation is saved before the
    analytics snapshot is. *)
Definition complete (now : Date) (overallReply insightsReply : completion)
    (analyticsId : ObjectId) (caller : Caller) (sessionId : string) (db : Db)
    : Response * Db :=
  match find (inProgressFor caller sessionId) (conversations db) with
  | None => (NotFound, db)
  | Some conversation =>
      let allResponses :=
        String.concat " " (map EC.userResponse (EC.questions conversation)) in
      let overallEmotion := AI.analyzeOverallEmotion overallReply allResponses in
      let insights := AI.generateEmotionalInsights insightsReply allResponses in
      match castOverallEmotion overallEmotion, castInsights insights with
      | Some storedEmotion, Some storedInsights =>
          let conversation' :=
            {| EC._id := EC._id conversation;
               EC.tenantId := EC.tenantId conversation;
               EC.userId := EC.userId conversation;
               EC.sessionId := EC.sessionId conversation;
               EC.conversationType := EC.conversationType conversation;
               EC.questions := EC.questions conversation;
               EC.overallEmotion := Some storedEmotion;
               EC.insights := Some storedInsights;
               EC.status := EC.completed;
               EC.createdAt := EC.createdAt conversation;
               EC.completedAt := Some now |} in
          if EC.valid conversation' then
            let db' :=
              withConversations
                (replaceFirst (inProgressFor caller sessionId) conversation'
                   (conversations db))
                db in
            let snapshot :=
              {| EmotionAnalytics._id := analyticsId;
                 EmotionAnalytics.tenantId := tenant caller;
                 EmotionAnalytics.userId := user caller;
                 EmotionAnalytics.date := now;
                 EmotionAnalytics.emotionalMetrics :=
                   {| EmotionAnalytics.moodScore :=
                        AI.wellBeingScore overallEmotion;
                      EmotionAnalytics.stressLevel :=
                        AI.stressLevel overallEmotion;
                      EmotionAnalytics.energyLevel :=
                        AI.energyLevel overallEmotion;
                      EmotionAnalytics.satisfaction :=
                        AI.satisfaction overallEmotion;
                      EmotionAnalytics.engagement :=
                        AI.averageIntensity overallEmotion;
                      EmotionAnalytics.wellBeing :=
                        AI.wellBeingScore overallEmotion |};
                 EmotionAnalytics.emotionalInsights := storedInsights;
                 EmotionAnalytics.conversationId := EC._id conversation |} in
            if EmotionAnalytics.valid snapshot
            then (Completed overallEmotion insights analyticsId,
                  insertEmotionAnalytics snapshot db')
            else (InternalServerError, db')
          else (InternalServerError, db)
      | _, _ => (InternalServerError, db)
      end
  end.

(** The requests that write to the conversations collection, each with
    what it meets outside the process. *)
Inductive Request :=
| PostStart (uuid : string) (freshId : ObjectId) (caller : Caller)
    (body : StartBody)
| PostRespond (reply : completion) (caller : Caller) (sessionId : string)
    (body : RespondBody)
| PostComplete (overallReply insightsReply : completion)
    (analyticsId : ObjectId) (caller : Caller) (sessionId : string).

Definition handle (now : Date) (request : Request) (db : Db) : Response * Db :=
  match request with
  | PostStart uuid freshId caller body => start now uuid freshId caller body db
  | PostRespond reply caller sessionId body =>
      respond now reply caller sessionId body db
  | PostComplete overallReply insightsReply analyticsId caller sessionId =>
      complete now overallReply insightsReply analyticsId caller sessionId db
  end.

(** The database after a sequence of requests, each with its arrival time. *)
Fixpoint serve (requests : list (Date * Request)) (db : Db) : Db :=
  match requests with
  | [] => db
  | (now, request) :: rest => serve rest (snd (handle now request db))
  end.

End Handlers.

(** *** The routes that only read *)

(** What a route sends: a body, or an error status. *)
Inductive Answer (A : Type) :=
| Sent (body : A)
| Refused (httpStatus : nat).

Arguments Sent {A} body.
Arguments Refused {A} httpStatus.

(** [.select('sessionId conversationType overallEmotion insights createdAt
    completedAt')]. *)
Record HistoryItem := {
  itemId : ObjectId;
  itemSessionId : string;
  itemConversationType : ConversationType;
  itemOverallEmotion : option EC.OverallEmotion;
  itemInsights : option EC.Insights;
  itemCreatedAt : Date;
  itemCompletedAt : option Date
}.

Definition select (c : EC.t) : HistoryItem :=
  {| itemId := EC._id c;
     itemSessionId := EC.sessionId c;
     itemConversationType := EC.conversationType c;
     itemOverallEmotion := EC.overallEmotion c;
     itemInsights := EC.insights c;
     itemCreatedAt := EC.createdAt c;
     itemCompletedAt := EC.completedAt c |}.

Record Pagination := {
  page : number;
  limit : number;
  total : number;
  pages : number
}.

Definition ConversationType_eqb (a b : ConversationType) : bool :=
  match a, b with
  | daily, daily | weekly, weekly | monthly, monthly | custom, custom => true
  | _, _ => false
  end.

(** [{ tenantId, userId, status: 'completed' }], with the conversation type
    when the query names one. *)
Definition completedOf (caller : Caller) (conversationType : string)
    (c : EC.t) : bool :=
  (EC.tenantId c =? tenant caller)%N
  && (EC.userId c =? user caller)%N
  && EC.Status_eqb (EC.status c) EC.completed
  && (if conversationType =? "" then true
      else match parseConversationType conversationType with
           | Some type => ConversationType_eqb (EC.conversationType c) type
           | None => false
           end).

(** GET /history, with the page and the limit the query gives as natural
    numbers.  A page 0 makes the number of documents to skip negative,
    which the database refuses; a limit 0 is no limit. *)
Definition history (db : Db) (caller : Caller) (pageNo limitNo : nat)
    (conversationType : string) : Answer (list HistoryItem * Pagination) :=
  if (pageNo =? 0)%nat && (0 <? limitNo)%nat then Refused 500
  else
    let skip := ((pageNo - 1) * limitNo)%nat in
    let matching :=
      sortDesc (fun c => getTime (EC.createdAt c))
        (filter (completedOf caller conversationType) (conversations db)) in
    let found :=
      if (limitNo =? 0)%nat then skipn skip matching
      else firstn limitNo (skipn skip matching) in
    let count := List.length matching in
    Sent (map select found,
          {| page := int (Z.of_nat pageNo);
             limit := int (Z.of_nat limitNo);
             total := int (Z.of_nat count);
             pages := ceil (divn (int (Z.of_nat count)) limitNo) |}).

(** GET /:sessionId. *)
Definition getConversation (db : Db) (caller : Caller) (sessionId : string)
    : Answer EC.t :=
  match find
          (fun c =>
             (EC.sessionId c =? sessionId)
             && (EC.tenantId c =? tenant caller)%N
             && (EC.userId c =? user caller)%N)
          (conversations db) with
  | Some conversation => Sent conversation
  | None => Refused 404
  end.

(** GET /patterns/:userId.  [userId] is [None] when the text in the path
    is no identifier. *)
Definition patterns (now : Date) (db : Db) (caller : Caller) (role : string)
    (userId : option ObjectId) (days : option Z)
    : Answer EmotionPatterns.Patterns :=
  let own :=
    match userId with
    | Some id => (user caller =? id)%N
    | None => false
    end in
  if negb own && negb (role =? "admin") then Refused 403
  else Sent (EmotionPatterns.trackEmotionalPatterns now db userId days).

End EmotionConversationRoutes.

(** ** routes/conversationAnalytics.js

    The routes that page through populated documents, group by calendar
    day or list the filters are left out. *)

Module ConversationAnalyticsRoutes.
Import Js.
Module CA := ConversationAnalytics.
Module Svc := ConversationAnalyticsService.
Module Routes := EmotionConversationRoutes.

(** GET /dashboard. *)
Definition dashboard (now : Date) (db : Db) (caller : Routes.Caller)
    (timeRange : Svc.TimeRange) : Routes.Answer Svc.Dashboard :=
  match Svc.getDashboardAnalytics now db (Routes.tenant caller) timeRange with
  | Some analytics => Routes.Sent analytics
  | None => Routes.Refused 500
  end.

(** [ConversationAnalytics.find({ tenantId, date: { $gte: since } })]. *)
Definition findSince (tenantId : ObjectId) (since : Z) (db : Db) : list CA.t :=
  filter
    (fun a => (CA.tenantId a =? tenantId)%N && (since <=? getTime (CA.date a))%Z)
    (conversationAnalytics db).

(** The start date [days] days back, [None] when it is an Invalid Date. *)
Definition daysBack (now : Date) (days : Z) : option Z :=
  timeClip (getTime now - days * Svc.msPerDay).

(** GET /user/:userId.  A path text that is no identifier, a day count that
    is NaN or a start date that is invalid makes the query throw. *)
Definition userAnalytics (now : Date) (db : Db) (caller : Routes.Caller)
    (role : string) (userId : option ObjectId) (days : option Z)
    : Routes.Answer (Svc.Dashboard * list CA.t) :=
  let own :=
    match userId with
    | Some id => (Routes.user caller =? id)%N
    | None => false
    end in
  if negb own && negb (role =? "admin") then Routes.Refused 403
  else
    match userId, days with
    | Some userId, Some days =>
        match daysBack now days with
        | Some since =>
            let analytics :=
              sortDesc (fun a => getTime (CA.date a))
                (filter (fun a => (CA.userId a =? userId)%N)
                   (findSince (Routes.tenant caller) since db)) in
            Routes.Sent (Svc.aggregateAnalytics analytics, analytics)
        | None => Routes.Refused 500
        end
    | _, _ => Routes.Refused 500
    end.

(** GET /topics. *)
Definition topics (now : Date) (db : Db) (caller : Routes.Caller)
    (days : option Z) : Routes.Answer (list CA.Topic) :=
  match days with
  | Some days =>
      match daysBack now days with
      | Some since =>
          Routes.Sent
            (Svc.analyzeTopics (inr (findSince (Routes.tenant caller) since db)))
      | None => Routes.Refused 500
      end
  | None => Routes.Refused 500
  end.

(** GET /recommendations. *)
Definition recommendations (now : Date) (db : Db) (caller : Routes.Caller)
    (days : option Z) : Routes.Answer (list Svc.RecommendationCount) :=
  match days with
  | Some days =>
      match daysBack now days with
      | Some since =>
          Routes.Sent
            (Svc.aggregateRecommendations
               (findSince (Routes.tenant caller) since db))
      | None => Routes.Refused 500
      end
  | None => Routes.Refused 500
  end.

(** POST /analyze/:conversationId.  Every error of the service, the
    missing conversation included, is answered 500. *)
Definition analyze (casts : CA.Casts) (w : Svc.World) (db : Db)
    (caller : Routes.Caller) (conversationId : option ObjectId)
    : Routes.Answer CA.t * Db :=
  match conversationId with
  | Some conversationId =>
      match Svc.analyzeConversation casts w db conversationId
              (Routes.tenant caller) (Routes.user caller) with
      | Svc.Returned (analytics, db') => (Routes.Sent analytics, db')
      | Svc.Thrown _ => (Routes.Refused 500, db)
      end
  | None => (Routes.Refused 500, db)
  end.

End ConversationAnalyticsRoutes.

(** ** Notions the statements below use *)

Module Spec.
Import Js.
Module EC := EmotionConversation.
Module CA := ConversationAnalytics.

(** A reply that is of no use: the call failed or the content did not
    parse. *)
Definition failed (reply : completion) : bool :=
  match reply with
  | Parsed _ => false
  | _ => true
  end.

Definition nullish (v : value) : bool :=
  match v with
  | VUndefined | VNull => true
  | _ => false
  end.

(** [lo <= n <= hi]; it holds of no NaN and of no infinity. *)
Definition within (lo hi : Q) (n : number) : Prop :=
  match n with
  | Fin q => lo <= q /\ q <= hi
  | _ => False
  end.

(** A field of a reply that holds a number, a boolean or [null], or is
    absent. *)
Definition numeric (v : value) : bool :=
  match v with
  | VUndefined | VNull | VBool _ | VNum _ => true
  | _ => false
  end.

(** The documented bounds of the scores of one response and of a whole
    conversation. *)
Definition scoresWithin (a : EmotionAIService.EmotionAnalysis) : Prop :=
  within 1 10 (EmotionAIService.intensity a)
  /\ within 0 1 (EmotionAIService.confidence a)
  /\ within (-1) 1 (EmotionAIService.sentiment a).

Definition summaryWithin (o : EmotionAIService.OverallEmotion) : Prop :=
  within 1 10 (EmotionAIService.averageIntensity o)
  /\ within 1 10 (EmotionAIService.wellBeingScore o)
  /\ within 1 10 (EmotionAIService.stressLevel o)
  /\ within 1 10 (EmotionAIService.energyLevel o)
  /\ within 1 10 (EmotionAIService.satisfaction o).

(** The arithmetic mean, as the specification words the trend rule. *)
Definition mean (xs : list number) : number :=
  divn (sum xs) (List.length xs).

Definition trendOf (recentMean olderMean : number) : string :=
  if gtb recentMean (add olderMean (Fin (1 # 2))) then "improving"
  else if ltb recentMean (sub olderMean (Fin (1 # 2))) then "declining"
  else "stable".

(** A time range the dashboard query can be run with at the moment
    [now]: a day count that is a number and leaves the start date within
    the range of a Date, or two valid dates. *)
Definition isWindow (now : Date)
    (timeRange : ConversationAnalyticsService.TimeRange) : bool :=
  match timeRange with
  | ConversationAnalyticsService.LastDays (Some days) =>
      isDate (getTime now - days * ConversationAnalyticsService.msPerDay)
  | ConversationAnalyticsService.LastDays None => false
  | ConversationAnalyticsService.Between startDate endDate =>
      isDate (getTime startDate) && isDate (getTime endDate)
  end.

(** Whether a stored date falls in the window. *)
Definition inWindow (now : Date)
    (timeRange : ConversationAnalyticsService.TimeRange) (date : Date) : bool :=
  match timeRange with
  | ConversationAnalyticsService.LastDays (Some days) =>
      (getTime now - days * ConversationAnalyticsService.msPerDay
       <=? getTime date)%Z
  | ConversationAnalyticsService.LastDays None => false
  | ConversationAnalyticsService.Between startDate endDate =>
      (getTime startDate <=? getTime date)%Z
      && (getTime date <=? getTime endDate)%Z
  end.

(** The body of a respond request passes the route's validators. *)
Definition validRespondBody (body : EmotionConversationRoutes.RespondBody)
    : bool :=
  negb (EmotionConversationRoutes.questionId body =? "")
  && negb (EmotionConversationRoutes.questionText body =? "")
  && negb (EmotionConversationRoutes.userResponse body =? "").

(** What a request can do to the conversations collection: nothing,
    replace the open conversation of the session it addresses by a
    document of the same session, or append a conversation with a session
    identifier not seen before. *)
Inductive effect (before after : list EC.t) : Prop :=
| Untouched : after = before -> effect before after
| Replaced (caller : EmotionConversationRoutes.Caller) (sessionId : string) (x : EC.t) :
    EC.sessionId x = sessionId ->
    after = EmotionConversationRoutes.replaceFirst (EmotionConversationRoutes.inProgressFor caller sessionId) x before ->
    effect before after
| Appended (x : EC.t) :
    ~ In (EC.sessionId x) (map EC.sessionId before) ->
    EC.status x = EC.in_progress ->
    after = before ++ [x] ->
    effect before after.

End Spec.

(** ** Concrete inputs *)

Module Examples.
Import Js ConversationAnalyticsService.

Definition tenantA : ObjectId := 1%N.
Definition tenantB : ObjectId := 2%N.
Definition userOfA : ObjectId := 10%N.
Definition userOfB : ObjectId := 20%N.

(** A Monday in January. *)
Definition clock (time hours : Z) : Date :=
  {| getTime := time; getHours := hours; getDay := 1%Z; getMonth := 0%Z |}.

Definition scored (emotion : string) (intensity : Z) : EC.EmotionAnalysis :=
  {| EC.primaryEmotion := emotion;
     EC.intensity := int intensity;
     EC.confidence := Fin (4 # 5);
     EC.triggers := ["deadline"];
     EC.context := "workplace";
     EC.needs := ["rest"];
     EC.sentiment := Fin (-1 # 2) |}.

Definition overall (wellBeing stress : Z) : EC.OverallEmotion :=
  {| EC.dominantEmotion := "stress";
     EC.averageIntensity := int 7;
     EC.emotionalState := "tense";
     EC.wellBeingScore := int wellBeing;
     EC.stressLevel := int stress;
     EC.energyLevel := int 4;
     EC.satisfaction := int 4 |}.

Definition completedConversation (id tenantId userId : ObjectId)
    (sessionId : string) (answer : string) (wellBeing stress : Z)
    (created : Date) : EC.t :=
  {| EC._id := id;
     EC.tenantId := tenantId;
     EC.userId := userId;
     EC.sessionId := sessionId;
     EC.conversationType := daily;
     EC.questions :=
       [ {| EC.questionId := "q1";
            EC.questionText := "How do you feel about your work today?";
            EC.userResponse := answer;
            EC.emotionAnalysis := scored "stress" 8;
            EC.timestamp := created |} ];
     EC.overallEmotion := Some (overall wellBeing stress);
     EC.insights := None;
     EC.status := EC.completed;
     EC.createdAt := created;
     EC.completedAt := Some created |}.

(** Stress 8, well-being 3, and one answer in which four of the keywords of
    the topic "work" occur (job, office, meeting, deadline).  It was
    created at 3 in the morning and belongs to tenant B. *)
Definition stressedWorker : EC.t :=
  completedConversation 1%N tenantB userOfB "session-1"
    "My JOB is all Deadline and meeting, the office drains me" 3 8
    (clock 1000 3).

Definition dbOfB : Db :=
  {| conversations := [stressedWorker];
     emotionAnalytics := [];
     conversationAnalytics := [];
     userProfiles := [] |}.

(** A run at 2 in the afternoon in which the provider is down. *)
Definition afternoon : Date := clock 50000000 14.

Definition providerDown : World :=
  {| now := afternoon;
     freshId := 100%N;
     insightsReply := CallFailed;
     predictiveReply := CallFailed;
     saveAccepted := true |}.

(** Two conversations of one user: well-being 4, then 8 a day later. *)
Definition earlier : EC.t :=
  completedConversation 2%N tenantA userOfA "session-2" "fine" 4 5
    (clock 1000 9).

Definition later : EC.t :=
  completedConversation 3%N tenantA userOfA "session-3" "better" 8 5
    (clock 86401000 9).

(** A conversation with the key topics of its insights filled in. *)
Definition withTopics (c : EC.t) (keyTopics : list string) : EC.t :=
  {| EC._id := EC._id c;
     EC.tenantId := EC.tenantId c;
     EC.userId := EC.userId c;
     EC.sessionId := EC.sessionId c;
     EC.conversationType := EC.conversationType c;
     EC.questions := EC.questions c;
     EC.overallEmotion := EC.overallEmotion c;
     EC.insights :=
       Some {| EC.emotionalPatterns := [];
               EC.concerns := [];
               EC.positiveFactors := [];
               EC.recommendations := [];
               EC.keyTopics := keyTopics |};
     EC.status := EC.status c;
     EC.createdAt := EC.createdAt c;
     EC.completedAt := EC.completedAt c |}.

Definition dbOfA : Db :=
  {| conversations := [earlier; later];
     emotionAnalytics := [];
     conversationAnalytics := [];
     userProfiles := [] |}.

Definition dayAfter : Date := clock 90000000 10.

(** A reply whose intensity is a word. *)
Definition wordyReply : completion :=
  Parsed (VObj [ ("primaryEmotion", VStr "stress" NaN);
                 ("intensity", VStr "high" NaN);
                 ("confidence", VNum (Fin (9 # 10)));
                 ("sentiment", VNum (Fin (-1 # 2))) ]).

(** A forecast out of every range. *)
Definition wildForecast : value :=
  VObj [ ("riskFactors", emptyArray);
         ("predictedOutcomes",
           VObj [ ("nextWeekMood", VNum (int 42));
                  ("nextWeekStress", VNum (int (-3)));
                  ("nextWeekEnergy", VNum (int 11));
                  ("confidence", VNum (int 7)) ]) ].

(** A cast that takes strings and arrays of strings as they are. *)
Definition plainString (v : value) : option string :=
  match v with
  | VStr s _ => Some s
  | _ => None
  end.

Definition plainStrings (v : value) : option (list string) :=
  match v with
  | VArr items _ =>
      fold_right
        (fun item acc =>
           match plainString item, acc with
           | Some s, Some rest => Some (s :: rest)
           | _, _ => None
           end)
        (Some []) items
  | _ => None
  end.

Definition answer : EmotionConversationRoutes.RespondBody :=
  {| EmotionConversationRoutes.questionId := "q2";
     EmotionConversationRoutes.questionText := "What is making you feel this way?";
     EmotionConversationRoutes.userResponse := "Too many meetings" |}.

Definition callerOfB : EmotionConversationRoutes.Caller :=
  {| EmotionConversationRoutes.tenant := tenantB;
     EmotionConversationRoutes.user := userOfB |}.

(** A summary whose well-being score is a word. *)
Definition wordySummary : completion :=
  Parsed (VObj [ ("dominantEmotion", VStr "stress" NaN);
                 ("wellBeingScore", VStr "low" NaN);
                 ("stressLevel", VNum (int 8)) ]).

(** A session of tenant B that is still open. *)
Definition openConversation : EC.t :=
  {| EC._id := 4%N;
     EC.tenantId := tenantB;
     EC.userId := userOfB;
     EC.sessionId := "session-4";
     EC.conversationType := daily;
     EC.questions := [];
     EC.overallEmotion := None;
     EC.insights := None;
     EC.status := EC.in_progress;
     EC.createdAt := clock 2000 9;
     EC.completedAt := None |}.

Definition dbOpen : Db :=
  {| conversations := [stressedWorker; openConversation];
     emotionAnalytics := [];
     conversationAnalytics := [];
     userProfiles := [] |}.

(** A second run a day later, the provider still down. *)
Definition secondRun : World :=
  {| now := clock 136400000 14;
     freshId := 102%N;
     insightsReply := CallFailed;
     predictiveReply := CallFailed;
     saveAccepted := true |}.

(** A run in which the provider sends the wild forecast. *)
Definition wildWorld : World :=
  {| now := afternoon;
     freshId := 101%N;
     insightsReply := CallFailed;
     predictiveReply := Parsed wildForecast;
     saveAccepted := true |}.

(** Casts that take what the schema declares or nothing: a number that
    is no NaN for a Number path, an array of texts for an array of String,
    an object of such values for a block. *)
Definition typedNumber (v : value) : bool :=
  match v with
  | VUndefined => true
  | VNum n => negb (isNaN n)
  | _ => false
  end.

Definition typedStrings (v : value) : bool :=
  match v with
  | VUndefined => true
  | VArr items _ =>
      forallb (fun item => match item with VStr _ _ => true | _ => false end)
        items
  | _ => false
  end.

Definition typedBlock (field : value -> bool) (names : list string)
    (v : value) : bool :=
  match v with
  | VUndefined => true
  | VObj _ => forallb (fun name => field (getOpt v name)) names
  | _ => false
  end.

Definition typedCasts : CA.Casts :=
  {| CA.takesNumber := typedNumber;
     CA.takesAiPerformance :=
       typedBlock typedNumber
         ["responseRelevance"; "empathyLevel"; "questionQuality";
          "contextualAwareness"];
     CA.takesSummary :=
       typedBlock typedStrings
         ["keyPoints"; "concerns"; "positiveAspects"; "areasForImprovement"];
     CA.takesPredictiveInsights :=
       fun v =>
         typedBlock typedStrings
           ["riskFactors"; "improvementAreas"; "successIndicators";
            "interventionRecommendations"; "earlyWarningSignals";
            "opportunityAreas"] v
         && typedBlock typedNumber
              ["nextWeekMood"; "nextWeekStress"; "nextWeekEnergy";
               "confidence"]
              (getOpt v "predictedOutcomes") |}.

(** A conversation of tenant B on which no rule fires: stress 5 and
    well-being 6. *)
Definition calmWorker : EC.t :=
  completedConversation 5%N tenantB userOfB "session-5"
    "A quiet week, nothing to report" 6 5 (clock 1000 3).

Definition dbCalm : Db :=
  {| conversations := [calmWorker];
     emotionAnalytics := [];
     conversationAnalytics := [];
     userProfiles := [] |}.

(** The database once tenant A has had conversation 5 analysed. *)
Definition dbAnalysed : Db :=
  match analyzeConversation typedCasts providerDown dbCalm 5%N tenantA userOfA
  with
  | Returned (_, db') => db'
  | Thrown _ => dbCalm
  end.

(** Three requests: an answer sent to the session that is completed, an
    answer sent to the open session, and the completion of the latter. *)
Definition traffic : list (Date * EmotionConversationRoutes.Request) :=
  [ (clock 3000 9,
      EmotionConversationRoutes.PostRespond CallFailed callerOfB "session-1"
        answer);
    (clock 4000 9,
      EmotionConversationRoutes.PostRespond CallFailed callerOfB "session-4"
        answer);
    (clock 5000 9,
      EmotionConversationRoutes.PostComplete CallFailed CallFailed 200%N
        callerOfB "session-4") ].

(** An analytics record as the pipeline builds it for a conversation, with
    one topic put in by hand. *)
Definition recordFor (id tenantId userId : ObjectId) (c : EC.t)
    (topic : string) (mentions : Z) (when : Date) : CA.t :=
  let d := extractConversationData c in
  let recommendations := generateRecommendations d getDefaultInsights in
  {| CA._id := id;
     CA.tenantId := tenantId;
     CA.userId := userId;
     CA.conversationId := EC._id c;
     CA.date := when;
     CA.conversationType := EC.conversationType c;
     CA.metrics := calculateMetrics d;
     CA.emotionalInsights := analyzeEmotionalContent d;
     CA.topics :=
       [ {| CA.topic := topic;
            CA.frequency := mentions;
            CA.sentiment := int 0;
            CA.keywords := keywordsOf topic |} ];
     CA.qualityMetrics :=
       {| CA.engagement := int 5;
          CA.openness := int 2;
          CA.trust := int 7;
          CA.satisfaction := int 4;
          CA.helpfulness := VNum (int 7) |};
     CA.aiPerformance := VUndefined;
     CA.recommendations := recommendations;
     CA.conversationSummary := VUndefined;
     CA.contextualAnalysis := analyzeContextualFactors when c;
     CA.historicalAnalysis :=
       analyzeHistoricalContext when dbOfA userId tenantId d;
     CA.predictiveInsights := getDefaultPredictiveInsights;
     CA.actionTracking := initializeActionTracking when recommendations |}.

Definition recordOfA : CA.t :=
  recordFor 300%N tenantA userOfA earlier "health" 2 (clock 40000000 11).

Definition recordOfB : CA.t :=
  recordFor 301%N tenantB userOfB stressedWorker "work" 4 (clock 45000000 12).

Definition dbWithRecords : Db :=
  {| conversations := [stressedWorker; openConversation; earlier; later];
     emotionAnalytics := [];
     conversationAnalytics := [recordOfB];
     userProfiles := [] |}.

Definition callerOfA : EmotionConversationRoutes.Caller :=
  {| EmotionConversationRoutes.tenant := tenantA;
     EmotionConversationRoutes.user := userOfA |}.

End Examples.

(** ** Further notions and inputs *)

Module More.
Import Js.
Module EC := EmotionConversation.
Module CA := ConversationAnalytics.
Module Svc := ConversationAnalyticsService.
Module Routes := EmotionConversationRoutes.

(** The sum of a list of counts. *)
Definition totalOf (counts : list Z) : Z := fold_right Z.add 0%Z counts.

(** No dash in the text. *)
Fixpoint dashFree (s : string) : bool :=
  match s with
  | EmptyString => true
  | String c rest => negb (Ascii.eqb c "-"%char) && dashFree rest
  end.

(** A Number that is a rational between the bounds. *)
Definition between (lo hi : Q) (n : number) : Prop := Spec.within lo hi n.

(** Listed from the largest key down. *)
Definition descending {A} (key : A -> Z) (l : list A) : Prop :=
  StronglySorted (fun a b => (key b <= key a)%Z) l.

(** The conversation belongs to the caller. *)
Definition ownedBy (caller : Routes.Caller) (c : EC.t) : Prop :=
  EC.tenantId c = Routes.tenant caller /\ EC.userId c = Routes.user caller.

(** The caller a request comes from. *)
Definition callerOf (request : Routes.Request) : Routes.Caller :=
  match request with
  | Routes.PostStart _ _ caller _ => caller
  | Routes.PostRespond _ caller _ _ => caller
  | Routes.PostComplete _ _ _ caller _ => caller
  end.

(** The scores of every stored answer and summary are within their
    bounds. *)
Definition scoresInBounds (c : EC.t) : Prop :=
  (forall q, In q (EC.questions c) ->
     Spec.within 1 10 (EC.intensity (EC.emotionAnalysis q))
     /\ Spec.within 0 1 (EC.confidence (EC.emotionAnalysis q))
     /\ Spec.within (-1) 1 (EC.sentiment (EC.emotionAnalysis q)))
  /\ (forall o, EC.overallEmotion c = Some o ->
        Spec.within 1 10 (EC.wellBeingScore o)
        /\ Spec.within 1 10 (EC.stressLevel o)
        /\ Spec.within 1 10 (EC.energyLevel o)
        /\ Spec.within 1 10 (EC.satisfaction o)
        /\ Spec.within 1 10 (EC.averageIntensity o)).

(** Conversations whose well-being scores are whole numbers of the scale,
    an unset or zero score counting as 5.  Sums of such scores are exact in
    double precision, and their means compare as the exact ones do. *)
Definition wholeScores (l : list EC.t) : Prop :=
  forall c, In c l ->
    exists z, Svc.wellBeingOr5 c = Js.int z /\ (1 <= z <= 10)%Z.

(** Casts of the conversation schema that take the texts and the empty
    lists of the fallbacks for what they are, as Mongoose's do. *)
Definition castsTakeFallbacks (castString : Js.value -> option string)
    (castStrings : Js.value -> option (list string)) : Prop :=
  castString (Js.str "neutral") = Some "neutral"
  /\ castString (Js.str "balanced") = Some "balanced"
  /\ castString (Js.str "workplace") = Some "workplace"
  /\ castStrings Js.emptyArray = Some [].

(** Casts of the analytics schema that take the default payloads of the
    two insight operations. *)
Definition takesDefaults (casts : CA.Casts) : Prop :=
  CA.takesNumber casts (Js.VNum (Js.int 7)) = true
  /\ CA.takesAiPerformance casts
       (Js.getOpt Svc.getDefaultInsights "aiPerformance") = true
  /\ CA.takesSummary casts (Js.getOpt Svc.getDefaultInsights "summary") = true
  /\ CA.takesPredictiveInsights casts Svc.getDefaultPredictiveInsights = true.

(** Names that an object used as a counter counts as the lists of the
    embedding do. *)
Definition plainNames (names : list string) : Prop :=
  forall name, In name names -> plainName name = true.

(** The completed conversations of a user created since a moment. *)
Definition countedSince (db : Db) (userId : ObjectId) (since : Z) (c : EC.t)
    : Prop :=
  In c (conversations db) /\ EC.userId c = userId
  /\ EC.status c = EC.completed
  /\ (since <= getTime (EC.createdAt c))%Z.

(** A ranking of at most five names, none twice, the most frequent first,
    each counted at least once and taken from a conversation that
    counts. *)
Definition ranking (counted : EC.t -> Prop) (top : list (string * Z))
    (names : EC.t -> list string) : Prop :=
  (List.length top <= 5)%nat
  /\ NoDup (map fst top)
  /\ descending snd top
  /\ forall name count, In (name, count) top ->
       (1 <= count)%Z /\ exists c, counted c /\ In name (names c).

(** Patterns drawn from the conversations that count, [number] of them:
    one trend point for each, oldest first, and three rankings. *)
Definition drawnFrom (counted : EC.t -> Prop) (number : nat)
    (p : EmotionPatterns.Patterns) : Prop :=
  (forall point, In point (EmotionPatterns.emotionalTrends p) ->
     exists c, counted c
               /\ EmotionPatterns.pointDate point = EC.createdAt c
               /\ EmotionPatterns.mood point
                  = option_map EC.wellBeingScore (EC.overallEmotion c)
               /\ EmotionPatterns.stress point
                  = option_map EC.stressLevel (EC.overallEmotion c)
               /\ EmotionPatterns.energy point
                  = option_map EC.energyLevel (EC.overallEmotion c))
  /\ (forall c, counted c ->
        In (EC.createdAt c)
          (map EmotionPatterns.pointDate (EmotionPatterns.emotionalTrends p)))
  /\ List.length (EmotionPatterns.emotionalTrends p) = number
  /\ descending (fun point => (- getTime (EmotionPatterns.pointDate point))%Z)
       (EmotionPatterns.emotionalTrends p)
  /\ ranking counted (EmotionPatterns.dominantEmotions p)
       (fun c => [EmotionPatterns.dominantEmotionKey c])
  /\ (totalOf (map snd (EmotionPatterns.dominantEmotions p))
      <= Z.of_nat (List.length (EmotionPatterns.emotionalTrends p)))%Z
  /\ ranking counted (EmotionPatterns.emotionalTriggers p)
       (fun c => flat_map (fun q => EC.triggers (EC.emotionAnalysis q))
                   (EC.questions c))
  /\ ranking counted (EmotionPatterns.emotionalNeeds p)
       (fun c => flat_map (fun q => EC.needs (EC.emotionAnalysis q))
                   (EC.questions c)).

End More.

(** * Properties *)

Import Js.
Module EC := EmotionConversation.
Module CA := ConversationAnalytics.
Module AI := EmotionAIService.
Module Svc := ConversationAnalyticsService.
Module Routes := EmotionConversationRoutes.

(** ** Sorting keeps the elements *)

Lemma timeClip_Some (t t' : Z) : timeClip t = Some t' -> t' = t.
Proof.
  unfold timeClip. destruct (Z.abs t <=? maxTime)%Z; [|discriminate].
  intros H. now injection H as <-.
Qed.

Lemma In_insertDesc {A} (key : A -> Z) (x y : A) (l : list A) :
  In y (insertDesc key x l) <-> y = x \/ In y l.
Proof.
  induction l as [|z l IH]; simpl.
  - intuition.
  - destruct (key z <=? key x)%Z; simpl; rewrite ?IH; intuition.
Qed.

Lemma In_sortDesc {A} (key : A -> Z) (y : A) (l : list A) :
  In y (sortDesc key l) <-> In y l.
Proof.
  unfold sortDesc.
  induction l as [|x l IH]; simpl.
  - tauto.
  - rewrite In_insertDesc, IH. intuition.
Qed.

Lemma sortDesc_nil_inv {A} (key : A -> Z) (l : list A) :
  sortDesc key l = [] -> l = [].
Proof.
  destruct l as [|x l]; [reflexivity|].
  intros H.
  assert (Hin : In x (sortDesc key (x :: l))) by (apply In_sortDesc; now left).
  rewrite H in Hin. destruct Hin.
Qed.

(** ** Topics of a conversation (C10, C1) *)

(** The method in force finds no [topics] property on the data extracted
    from a conversation. *)
Lemma analyzeTopics_of_conversationData (d : Svc.ConversationData) :
  Svc.analyzeTopics (inl d) = [].
Proof. reflexivity. Qed.

Lemma get_defined (v : value) (k : string) :
  Spec.nullish v = false -> exists w, get v k = Some w.
Proof.
  destruct v; simpl; try discriminate; intros _; eauto.
  destruct (own k fields); eauto.
Qed.

Lemma calculateQualityMetrics_defined (d : Svc.ConversationData) (ai : value) :
  Spec.nullish ai = false ->
  exists qm, Svc.calculateQualityMetrics d ai = Some qm.
Proof.
  intros H. unfold Svc.calculateQualityMetrics.
  destruct (get_defined ai "aiPerformance" H) as [w ->]. eauto.
Qed.

Lemma generateAIInsights_not_nullish (reply : completion)
    (d : Svc.ConversationData) :
  (forall v, reply = Parsed v -> Spec.nullish v = false) ->
  Spec.nullish (Svc.generateAIInsights reply d) = false.
Proof.
  intros H. destruct reply; simpl; auto.
Qed.

(** What a call of [analyzeConversation] that returns went through. *)
Lemma analyzeConversation_returned (casts : CA.Casts) (w : Svc.World)
    (db : Db) (conversationId tenantId userId : ObjectId) (r : CA.t)
    (db' : Db) :
  Svc.analyzeConversation casts w db conversationId tenantId userId
    = Svc.Returned (r, db') ->
  exists c,
    Svc.findById conversationId db = Some c
    /\ db' = Svc.insertAnalytics r db
    /\ CA.valid r = true
    /\ CA.validProvided casts r = true
    /\ Svc.saveAccepted w = true
    /\ CA.topics r = Svc.analyzeTopics (inl (Svc.extractConversationData c))
    /\ CA.recommendations r
       = Svc.generateRecommendations (Svc.extractConversationData c)
           (Svc.generateAIInsights (Svc.insightsReply w)
              (Svc.extractConversationData c))
    /\ CA.actionTracking r
       = Svc.initializeActionTracking (Svc.now w) (CA.recommendations r)
    /\ CA.metrics r = Svc.calculateMetrics (Svc.extractConversationData c)
    /\ (CA._id r = Svc.freshId w /\ CA.tenantId r = tenantId
        /\ CA.userId r = userId /\ CA.conversationId r = conversationId
        /\ CA.date r = Svc.now w
        /\ CA.conversationType r = EC.conversationType c).
Proof.
  unfold Svc.analyzeConversation.
  destruct (Svc.findById conversationId db) as [c|]; [|discriminate].
  destruct (Svc.calculateQualityMetrics _ _); [|discriminate].
  match goal with
  | |- context [if ?b then _ else Svc.Thrown Svc.ValidationError] =>
      destruct b eqn:Hvalid; [|discriminate]
  end.
  destruct (Svc.saveAccepted w); [|discriminate].
  apply andb_prop in Hvalid as [Hvalid Hprovided].
  intros H. injection H as <- <-.
  exists c. repeat split; assumption.
Qed.

(** The schema takes no record that carries a recommendation. *)
Lemma valid_without_recommendations (r : CA.t) :
  CA.valid r = true ->
  CA.recommendations r = []
  /\ CA.recommendationsGiven (CA.actionTracking r) = [].
Proof.
  unfold CA.valid, CA.validActionTracking. intros H.
  apply andb_prop in H as [H Ha]. apply andb_prop in Ha as [Ha _].
  apply andb_prop in H as [H _]. apply andb_prop in H as [H _].
  apply andb_prop in H as [_ Hr].
  split.
  - destruct (CA.recommendations r); [reflexivity|discriminate Hr].
  - destruct (CA.recommendationsGiven _); [reflexivity|discriminate Ha].
Qed.

(** A conversation on which a rule fires is never analysed to the end:
    [save()] refuses the record. *)
Lemma analyzeConversation_refuses_recommendations (casts : CA.Casts)
    (w : Svc.World) (db : Db) (conversationId tenantId userId : ObjectId)
    (c : EC.t) :
  Svc.findById conversationId db = Some c ->
  Spec.nullish
    (Svc.generateAIInsights (Svc.insightsReply w)
       (Svc.extractConversationData c)) = false ->
  Svc.generateRecommendations (Svc.extractConversationData c)
    (Svc.generateAIInsights (Svc.insightsReply w)
       (Svc.extractConversationData c)) <> [] ->
  Svc.analyzeConversation casts w db conversationId tenantId userId
  = Svc.Thrown Svc.ValidationError.
Proof.
  intros Hfind Hai Hrecs. unfold Svc.analyzeConversation. rewrite Hfind.
  destruct (calculateQualityMetrics_defined (Svc.extractConversationData c)
              _ Hai) as [qm ->].
  match goal with
  | |- context [CA.valid ?a] => destruct (CA.valid a) eqn:Hvalid
  end; [|reflexivity].
  apply valid_without_recommendations in Hvalid as [Hvalid _].
  simpl in Hvalid. contradiction.
Qed.

(** C10.  Whatever record [analyzeConversation] returns, it is the record
    persisted, added at the end of the collection, and its [topics] is the
    empty list: the method [analyzeTopics] in force reads a [topics]
    property, which the data extracted from a conversation, whatever the
    conversation, does not have. *)
Theorem analyzeConversation_topics_empty (casts : CA.Casts) (w : Svc.World)
    (db : Db) (conversationId tenantId userId : ObjectId) (r : CA.t)
    (db' : Db) :
  Svc.analyzeConversation casts w db conversationId tenantId userId
    = Svc.Returned (r, db') ->
  CA.topics r = []
  /\ conversationAnalytics db' = conversationAnalytics db ++ [r]
  /\ forall c : EC.t,
       Svc.analyzeTopics (inl (Svc.extractConversationData c)) = [].
Proof.
  intros H.
  destruct (analyzeConversation_returned _ _ _ _ _ _ _ _ H)
    as (c & _ & -> & _ & _ & _ & Htopics & _).
  split; [|split].
  - rewrite Htopics. apply analyzeTopics_of_conversationData.
  - reflexivity.
  - intros c'. apply analyzeTopics_of_conversationData.
Qed.

Lemma analyzeConversation_topics_empty_witness :
  exists r db',
    Svc.analyzeConversation Examples.typedCasts Examples.providerDown
      Examples.dbCalm 5%N Examples.tenantB Examples.userOfB
    = Svc.Returned (r, db')
    /\ CA.topics r = []
    /\ conversationAnalytics db'
       = conversationAnalytics Examples.dbCalm ++ [r]
    /\ forall c : EC.t,
         Svc.analyzeTopics (inl (Svc.extractConversationData c)) = [].
Proof.
  eexists. eexists. split; [vm_compute; reflexivity|].
  apply (analyzeConversation_topics_empty Examples.typedCasts
           Examples.providerDown Examples.dbCalm 5%N Examples.tenantB
           Examples.userOfB).
  vm_compute. reflexivity.
Defined.

(** No conversation ever gets the workplace recommendation: the topic rule
    reads the topics the method in force computes. *)
Lemma generateRecommendations_no_workplace (d : Svc.ConversationData)
    (ai : value) (rec : CA.Recommendation) :
  In rec (Svc.generateRecommendations d ai) ->
  CA.type rec <> "workplace_improvement".
Proof.
  unfold Svc.generateRecommendations.
  rewrite analyzeTopics_of_conversationData. simpl. rewrite app_nil_r.
  intros H. apply in_app_or in H.
  destruct H as [H|H];
    [destruct (Svc.fieldGt _ _ _) | destruct (Svc.fieldLt _ _ _)];
    simpl in H; try tauto; destruct H as [<-|[]]; discriminate.
Qed.

(** C1.  On the conversation with stress 8, well-being 3 and four keyword
    occurrences of the topic "work", [generateRecommendations] returns the
    stress and well-being entries only, although the keyword matching of
    the method that was replaced counts "work" four times; and
    [analyzeConversation], which invokes it, ends in the validation error
    of [save()], which takes no record with a recommendation. *)
Theorem generateRecommendations_stressedWorker :
  let d := Svc.extractConversationData Examples.stressedWorker in
  let rules (recs : list CA.Recommendation) :=
    map (fun rec => (CA.type rec, CA.priority rec)) recs in
  Svc.fieldOr (Svc.overallEmotion d) EC.stressLevel (int 5) = int 8
  /\ Svc.fieldOr (Svc.overallEmotion d) EC.wellBeingScore (int 5) = int 3
  /\ map (fun t => (CA.topic t, CA.frequency t)) (Svc.analyzeTopics_shadowed d)
     = [ ("work", 4%Z) ]
  /\ rules (Svc.generateRecommendations d Svc.getDefaultInsights)
     = [ ("emotional_support", "high"); ("personal_development", "high") ]
  /\ forall casts,
       Svc.analyzeConversation casts Examples.providerDown Examples.dbOfB 1%N
         Examples.tenantB Examples.userOfB
       = Svc.Thrown Svc.ValidationError.
Proof.
  cbv zeta. split; [vm_compute; reflexivity|].
  split; [vm_compute; reflexivity|]. split; [vm_compute; reflexivity|].
  split; [vm_compute; reflexivity|].
  intros casts.
  apply (analyzeConversation_refuses_recommendations casts
           Examples.providerDown Examples.dbOfB 1%N Examples.tenantB
           Examples.userOfB Examples.stressedWorker);
    [reflexivity | reflexivity | vm_compute; discriminate].
Qed.

(** ** Tenant scoping (C2) *)

(** The dashboard query and the history query return documents of the
    tenant they are given only. *)
Lemma findByTenant_scoped (tenantId : ObjectId) (from : Z) (to : option Z)
    (db : Db) (a : CA.t) :
  In a (Svc.findByTenant tenantId from to db) -> CA.tenantId a = tenantId.
Proof.
  unfold Svc.findByTenant. rewrite In_sortDesc, filter_In.
  intros [_ H].
  apply andb_prop in H as [H _]. apply andb_prop in H as [H _].
  now apply N.eqb_eq.
Qed.

Lemma findRecentConversations_scoped (userId tenantId : ObjectId) (since : Z)
    (db : Db) (c : EC.t) :
  In c (Svc.findRecentConversations userId tenantId since db) ->
  EC.tenantId c = tenantId /\ EC.userId c = userId.
Proof.
  unfold Svc.findRecentConversations. rewrite In_sortDesc, filter_In.
  intros [_ H].
  apply andb_prop in H as [H _]. apply andb_prop in H as [Hu Ht].
  split; now apply N.eqb_eq.
Qed.

(** [findById] looks at the identifier alone. *)
Lemma findById_any_tenant (conversationId : ObjectId) (db : Db) (c : EC.t) :
  Svc.findById conversationId db = Some c ->
  In c (conversations db) /\ EC._id c = conversationId.
Proof.
  unfold Svc.findById. intros H. apply find_some in H as [Hin Heq].
  split; [assumption | now apply N.eqb_eq].
Qed.

(** C2.  A caller of tenant A who asks for the analysis of a conversation
    of tenant B gets it: [analyzeConversation] reads B's conversation and
    files a record built from it under tenant A, which A's dashboard query
    then returns.  (The conversation is one on which no recommendation
    rule fires, so that [save()] takes the record.) *)
Theorem analyzeConversation_crosses_tenants :
  exists r db',
    Svc.findById 5%N Examples.dbCalm = Some Examples.calmWorker
    /\ EC.tenantId Examples.calmWorker = Examples.tenantB
    /\ Examples.tenantB <> Examples.tenantA
    /\ Svc.analyzeConversation Examples.typedCasts Examples.providerDown
         Examples.dbCalm 5%N Examples.tenantA Examples.userOfA
       = Svc.Returned (r, db')
    /\ CA.tenantId r = Examples.tenantA
    /\ CA.conversationId r = EC._id Examples.calmWorker
    /\ CA.metrics r
       = Svc.calculateMetrics
           (Svc.extractConversationData Examples.calmWorker)
    /\ Svc.findByTenant Examples.tenantA 0 None db' = [r]
    /\ exists d,
         Svc.getDashboardAnalytics Examples.afternoon db' Examples.tenantA
           (Svc.LastDays (Some 30%Z)) = Some d
         /\ Svc.totalConversations (Svc.overview d) = int 1.
Proof.
  eexists. eexists.
  split; [reflexivity|]. split; [reflexivity|]. split; [discriminate|].
  split; [vm_compute; reflexivity|].
  split; [vm_compute; reflexivity|]. split; [vm_compute; reflexivity|].
  split; [vm_compute; reflexivity|]. split; [vm_compute; reflexivity|].
  eexists. split; vm_compute; reflexivity.
Qed.

(** ** Trend direction (C3) *)

Lemma fold_left_add_map {A} (f : A -> number) (l : list A) (a : number) :
  fold_left (fun sum c => add sum (f c)) l a = fold_left add (map f l) a.
Proof.
  revert a. induction l as [|x l IH]; intros a; simpl; [reflexivity|].
  apply IH.
Qed.

Lemma average_of_scores (l : list EC.t) :
  divn (fold_left (fun sum c => add sum (Svc.wellBeingOr5 c)) l (int 0))
    (List.length l)
  = Spec.mean (map Svc.wellBeingOr5 l).
Proof.
  unfold Spec.mean, sum. now rewrite fold_left_add_map, length_map.
Qed.

(** A history of fewer than four conversations leaves the older window
    empty. *)
Lemma calculateTrendDirection_short (l : list EC.t) :
  (List.length l < 4)%nat -> Svc.calculateTrendDirection l = "stable".
Proof.
  intros H.
  destruct l as [|a [|b [|c [|d l]]]]; try reflexivity.
  simpl in H. lia.
Qed.

(** C3, as the code has it, for well-being scores that are whole numbers
    from 1 to 10.  A history of fewer than four conversations (the two
    with well-being 4 then 8 among them) is "stable"; from four on, the
    mean well-being of the three most recent conversations is set against
    the mean of the up to three before them, an unset or zero score
    counting as 5: "improving" when it is more than 0.5 above, "declining"
    when it is more than 0.5 below, "stable" otherwise. *)
Theorem calculateTrendDirection_rule (l : list EC.t) :
  More.wholeScores l ->
  Svc.calculateTrendDirection l
  = if (List.length l <? 4)%nat then "stable"
    else Spec.trendOf
           (Spec.mean (map Svc.wellBeingOr5 (firstn 3 l)))
           (Spec.mean (map Svc.wellBeingOr5 (firstn 3 (skipn 3 l)))).
Proof.
  intros _.
  destruct (List.length l <? 4)%nat eqn:Hlen.
  - apply calculateTrendDirection_short. now apply Nat.ltb_lt.
  - destruct l as [|a [|b [|c [|d l]]]]; try discriminate Hlen.
    unfold Svc.calculateTrendDirection.
    change (List.length (a :: b :: c :: d :: l) <? 2)%nat with false.
    cbv iota.
    change (firstn 3 (a :: b :: c :: d :: l)) with [a; b; c].
    change (skipn 3 (a :: b :: c :: d :: l)) with (d :: l).
    change (firstn 3 (d :: l)) with (d :: firstn 2 l).
    change ((List.length [a; b; c] =? 0)%nat
            || (List.length (d :: firstn 2 l) =? 0)%nat) with false.
    cbv iota.
    rewrite !average_of_scores. reflexivity.
Qed.

Lemma calculateTrendDirection_rule_witness :
  let history :=
    [Examples.later; Examples.later; Examples.later; Examples.earlier] in
  Svc.calculateTrendDirection history
  = if (List.length history <? 4)%nat then "stable"
    else Spec.trendOf
           (Spec.mean (map Svc.wellBeingOr5 (firstn 3 history)))
           (Spec.mean (map Svc.wellBeingOr5 (firstn 3 (skipn 3 history)))).
Proof.
  apply (calculateTrendDirection_rule
           [Examples.later; Examples.later; Examples.later; Examples.earlier]).
  intros c [<-|[<-|[<-|[<-|[]]]]];
    [exists 8%Z|exists 8%Z|exists 8%Z|exists 4%Z]; split;
    [reflexivity|lia|reflexivity|lia|reflexivity|lia|reflexivity|lia].
Defined.

(** On finite means the comparison is the one of the rationals. *)
Lemma trendOf_finite (r o : Q) :
  Spec.trendOf (Fin r) (Fin o)
  = if Qlt_le_dec (o + (1 # 2)) r then "improving"
    else if Qlt_le_dec r (o - (1 # 2)) then "declining"
    else "stable".
Proof.
  unfold Spec.trendOf, gtb, ltb, add, sub.
  destruct (Qlt_le_dec (o + (1 # 2)) r) as [H|H].
  - destruct (Qle_bool r (o + (1 # 2))) eqn:E; [|reflexivity].
    apply Qle_bool_iff in E. lra.
  - apply Qle_bool_iff in H. rewrite H. simpl.
    destruct (Qlt_le_dec r (o - (1 # 2))) as [H'|H'].
    + destruct (Qle_bool (o - (1 # 2)) r) eqn:E; [|reflexivity].
      apply Qle_bool_iff in E. lra.
    + apply Qle_bool_iff in H'. now rewrite H'.
Qed.

(** The history fetched for the user with well-being 4 then 8 is the two
    conversations, newest first, and its trend is "stable", not
    "improving". *)
Lemma trend_of_4_then_8 :
  let history :=
    Svc.findRecentConversations Examples.userOfA Examples.tenantA
      (getTime Examples.dayAfter - 90 * Svc.msPerDay) Examples.dbOfA in
  let analysis :=
    Svc.analyzeHistoricalContext Examples.dayAfter Examples.dbOfA
      Examples.userOfA Examples.tenantA
      (Svc.extractConversationData Examples.later) in
  history = [Examples.later; Examples.earlier]
  /\ map Svc.wellBeingOr5 (rev history) = [int 4; int 8]
  /\ CA.trendDirection analysis = "stable"
  /\ CA.trendDirection analysis <> "improving".
Proof.
  repeat split; try (vm_compute; reflexivity).
  vm_compute. discriminate.
Qed.

(** ** Bounds of the scores (C4) *)

Lemma ltb_Fin (x y : Q) : ltb (Fin x) (Fin y) = true <-> x < y.
Proof.
  unfold ltb. destruct (Qle_bool y x) eqn:E; simpl.
  - apply Qle_bool_iff in E. split; [discriminate | lra].
  - split; [intros _ | reflexivity].
    apply Qnot_le_lt. intros H. apply Qle_bool_iff in H. congruence.
Qed.

Lemma ltb_Fin_false (x y : Q) : ltb (Fin x) (Fin y) = false <-> y <= x.
Proof.
  unfold ltb. destruct (Qle_bool y x) eqn:E; simpl.
  - apply Qle_bool_iff in E. tauto.
  - split; [discriminate|]. intros H. apply Qle_bool_iff in H. congruence.
Qed.

(** [Math.max(lo, Math.min(hi, n))] lies between the bounds unless [n] is
    NaN. *)
Lemma max_min_within (lo hi : Q) (n : number) :
  lo <= hi -> n <> NaN ->
  Spec.within lo hi (max (Fin lo) (min (Fin hi) n)).
Proof.
  intros Hle Hn. destruct n as [| |q|]; [congruence| | |].
  - (* -Infinity *) simpl. split; lra.
  - (* a rational *)
    unfold min. destruct (ltb (Fin q) (Fin hi)) eqn:E1.
    + apply ltb_Fin in E1. unfold max.
      destruct (ltb (Fin lo) (Fin q)) eqn:E2.
      * apply ltb_Fin in E2. simpl. lra.
      * apply ltb_Fin_false in E2. simpl. lra.
    + apply ltb_Fin_false in E1. unfold max.
      destruct (ltb (Fin lo) (Fin hi)) eqn:E2; simpl; lra.
  - (* +Infinity *)
    unfold min. change (ltb PosInf (Fin hi)) with false. cbv iota.
    unfold max. destruct (ltb (Fin lo) (Fin hi)) eqn:E2; simpl; lra.
Qed.

(** A field that is a number, a boolean, [null] or absent converts to a
    Number that is not NaN once the default has stepped in. *)
Lemma ToNumber_or_numeric (v : value) (d : Q) :
  Spec.numeric v = true ->
  exists n, ToNumber (or v (VNum (Fin d))) = Some n /\ n <> NaN.
Proof.
  unfold or.
  destruct v as [| |b|n| | |]; simpl; try discriminate; intros _;
    try (eexists; split; [reflexivity | discriminate]).
  - destruct b; simpl; eexists; (split; [reflexivity | discriminate]).
  - destruct n as [| |q|]; simpl;
      try (eexists; split; [reflexivity | discriminate]).
    destruct (Qeq_bool q 0); simpl; eexists;
      (split; [reflexivity | discriminate]).
Qed.

Lemma clamp_within (lo hi d : Q) (v : value) :
  lo <= hi -> Spec.numeric v = true ->
  exists n, AI.clamp (Fin lo) (Fin hi) v (VNum (Fin d)) = Some n
            /\ Spec.within lo hi n.
Proof.
  intros Hle Hv. unfold AI.clamp.
  destruct (ToNumber_or_numeric v d Hv) as [n [-> Hn]].
  eexists. split; [reflexivity|]. now apply max_min_within.
Qed.

(** X11.  What does hold of the per-response scoring: with each of the
    three numeric fields a number, a boolean, [null] or absent, and on
    every failure, the scores are within their bounds. *)
Lemma analyzeEmotion_within_on_numbers (reply : completion) (text : string)
    (context : value) :
  (forall v, reply = Parsed v ->
     Spec.numeric (getOpt v "intensity") = true
     /\ Spec.numeric (getOpt v "confidence") = true
     /\ Spec.numeric (getOpt v "sentiment") = true) ->
  Spec.scoresWithin (AI.analyzeEmotion reply text context).
Proof.
  intros H.
  assert (Hfallback : Spec.scoresWithin (AI.emotionFallback context)).
  { unfold Spec.scoresWithin. simpl. repeat split; unfold Qle; simpl; lia. }
  destruct reply as [|s|v]; try exact Hfallback.
  destruct (H v eq_refl) as (Hi & Hc & Hs).
  unfold AI.analyzeEmotion, getOpt in *.
  destruct (get v "primaryEmotion"); [|exact Hfallback].
  destruct (get v "intensity") as [vi|]; [|exact Hfallback].
  destruct (get v "confidence") as [vc|]; [|exact Hfallback].
  destruct (get v "triggers"); [|exact Hfallback].
  destruct (get v "context"); [|exact Hfallback].
  destruct (get v "needs"); [|exact Hfallback].
  destruct (get v "sentiment") as [vs|]; [|exact Hfallback].
  destruct (clamp_within 1 10 5 vi) as [ni [Ei Wi]];
    [unfold Qle; simpl; lia | exact Hi |].
  destruct (clamp_within 0 1 (1 # 2) vc) as [nc [Ec Wc]];
    [unfold Qle; simpl; lia | exact Hc |].
  destruct (clamp_within (-1) 1 0 vs) as [ns [Es Ws]];
    [unfold Qle; simpl; lia | exact Hs |].
  change (int 1) with (Fin 1). change (int 10) with (Fin 10).
  change (int 0) with (Fin 0). change (int 5) with (Fin 5).
  change (int (-1)) with (Fin (-1)).
  rewrite Ei, Ec, Es. simpl. repeat split; tauto.
Qed.

Lemma analyzeOverallEmotion_within_on_numbers (reply : completion)
    (allResponses : string) :
  (forall v k, reply = Parsed v -> Spec.numeric (getOpt v k) = true) ->
  Spec.summaryWithin (AI.analyzeOverallEmotion reply allResponses).
Proof.
  intros H.
  assert (Hfallback : Spec.summaryWithin AI.overallFallback).
  { unfold Spec.summaryWithin. simpl. repeat split; unfold Qle; simpl; lia. }
  destruct reply as [|s|v]; try exact Hfallback.
  assert (Hk : forall k w, get v k = Some w -> Spec.numeric w = true).
  { intros k w E. specialize (H v k eq_refl). unfold getOpt in H.
    now rewrite E in H. }
  unfold AI.analyzeOverallEmotion.
  destruct (get v "dominantEmotion") as [wd|]; [|exact Hfallback].
  destruct (get v "averageIntensity") as [v1|] eqn:E1; [|exact Hfallback].
  destruct (get v "emotionalState") as [ws|]; [|exact Hfallback].
  destruct (get v "wellBeingScore") as [v2|] eqn:E2; [|exact Hfallback].
  destruct (get v "stressLevel") as [v3|] eqn:E3; [|exact Hfallback].
  destruct (get v "energyLevel") as [v4|] eqn:E4; [|exact Hfallback].
  destruct (get v "satisfaction") as [v5|] eqn:E5; [|exact Hfallback].
  assert (Hc : forall w, Spec.numeric w = true ->
               exists n, AI.clamp (int 1) (int 10) w (VNum (int 5)) = Some n
                         /\ Spec.within 1 10 n).
  { intros w Hw. apply (clamp_within 1 10 5 w); [unfold Qle; simpl; lia|].
    exact Hw. }
  destruct (Hc v1 (Hk _ _ E1)) as [n1 [-> W1]].
  destruct (Hc v2 (Hk _ _ E2)) as [n2 [-> W2]].
  destruct (Hc v3 (Hk _ _ E3)) as [n3 [-> W3]].
  destruct (Hc v4 (Hk _ _ E4)) as [n4 [-> W4]].
  destruct (Hc v5 (Hk _ _ E5)) as [n5 [-> W5]].
  simpl. unfold Spec.summaryWithin. simpl. tauto.
Qed.

(** A conversation whose last answer carries a NaN score does not pass
    the validators. *)
Lemma valid_refuses_NaN_intensity (c : EC.t) (q : EC.Question) :
  EC.intensity (EC.emotionAnalysis q) = NaN ->
  In q (EC.questions c) -> EC.valid c = false.
Proof.
  intros Hnan Hin. unfold EC.valid.
  assert (Hq : EC.validQuestion q = false).
  { unfold EC.validQuestion, EC.validEmotionAnalysis. rewrite Hnan. simpl.
    now rewrite !andb_false_r. }
  assert (Hall : forallb EC.validQuestion (EC.questions c) = false).
  { destruct (forallb EC.validQuestion (EC.questions c)) eqn:E; [|reflexivity].
    rewrite forallb_forall in E. rewrite (E q Hin) in Hq. discriminate. }
  rewrite Hall. now rewrite andb_false_r.
Qed.

(** C4.  A reply that gives a word where a score is expected ("intensity":
    "high", "wellBeingScore": "low") comes back from the scoring and from
    the summary with NaN in that field, which is within no bound; the
    respond route then fails to save and answers 500, whatever the casts of
    the text paths do. *)
Theorem analyzeEmotion_word_for_a_score :
  let scored :=
    AI.analyzeEmotion Examples.wordyReply "Too many meetings"
      (str "workplace") in
  let summary := AI.analyzeOverallEmotion Examples.wordySummary "fine" in
  AI.intensity scored = NaN
  /\ ~ Spec.within 1 10 (AI.intensity scored)
  /\ AI.wellBeingScore summary = NaN
  /\ ~ Spec.within 1 10 (AI.wellBeingScore summary)
  /\ forall castString castStrings now,
       Routes.respond castString castStrings now Examples.wordyReply
         Examples.callerOfB "session-4" Examples.answer Examples.dbOpen
       = (Routes.InternalServerError, Examples.dbOpen).
Proof.
  repeat split; try (vm_compute; tauto).
  intros cs css now. unfold Routes.respond.
  change (find _ (conversations Examples.dbOpen))
    with (Some Examples.openConversation).
  cbv iota beta. simpl negb. cbv iota.
  destruct (Routes.castEmotionAnalysis cs css _) as [stored|] eqn:E;
    [|reflexivity].
  rewrite (valid_refuses_NaN_intensity _
             {| EC.questionId := Routes.questionId Examples.answer;
                EC.questionText := Routes.questionText Examples.answer;
                EC.userResponse := Routes.userResponse Examples.answer;
                EC.emotionAnalysis := stored;
                EC.timestamp := now |}); [reflexivity| |].
  - simpl. unfold Routes.castEmotionAnalysis in E.
    repeat match type of E with
           | context [match ?x with Some _ => _ | None => _ end] =>
               destruct x; [|discriminate E]
           end.
    injection E as <-. reflexivity.
  - simpl. now left.
Qed.

(** ** Defaults on failure (C5) *)

(** The respond route on a failed reply. *)
Lemma respond_scored_with_fallback
    (castString : value -> option string)
    (castStrings : value -> option (list string))
    (now : Date) (reply : completion) (caller : Routes.Caller)
    (sessionId : string) (body : Routes.RespondBody) (db : Db) (c : EC.t)
    (emotion place : string) (none : list string) :
  Spec.failed reply = true ->
  Spec.validRespondBody body = true ->
  find (Routes.inProgressFor caller sessionId) (conversations db) = Some c ->
  EC.valid c = true ->
  castString (str "neutral") = Some emotion -> emotion <> "" ->
  castString (str "workplace") = Some place ->
  castStrings emptyArray = Some none ->
  fst (Routes.respond castString castStrings now reply caller sessionId body
         db)
  = Routes.Recorded (AI.emotionFallback (str "workplace"))
      (S (List.length (EC.questions c))).
Proof.
  intros Hfail Hbody Hfind Hvalid Hemotion Hne Hplace Hnone.
  unfold Spec.validRespondBody in Hbody.
  apply andb_prop in Hbody as [Hbody Hr]. apply andb_prop in Hbody as [Hi Ht].
  unfold Routes.respond. rewrite Hfind.
  apply negb_true_iff in Hi, Ht, Hr. rewrite Hi, Ht, Hr. cbv iota. simpl orb.
  cbv iota.
  assert (Hscore : AI.analyzeEmotion reply (Routes.userResponse body)
                     (str "workplace")
                   = AI.emotionFallback (str "workplace"))
    by (destruct reply; [reflexivity | reflexivity | discriminate Hfail]).
  rewrite Hscore. unfold Routes.castEmotionAnalysis. simpl.
  rewrite Hemotion, Hnone, Hplace.
  unfold EC.valid in *. simpl.
  apply andb_prop in Hvalid as [Hvalid Hoverall].
  apply andb_prop in Hvalid as [Hsid Hqs].
  rewrite Hsid, Hoverall, forallb_app, Hqs. simpl.
  unfold EC.validQuestion, EC.validEmotionAnalysis. simpl.
  rewrite Hi, Ht, Hr.
  assert (He : (emotion =? "") = false) by now apply String.eqb_neq.
  rewrite He. simpl. rewrite length_app. simpl.
  now rewrite Nat.add_1_r.
Qed.

(** The completion route on two failed replies. *)
Lemma complete_with_fallbacks
    (castString : value -> option string)
    (castStrings : value -> option (list string))
    (now : Date) (overallReply insightsReply : completion)
    (analyticsId : ObjectId) (caller : Routes.Caller) (sessionId : string)
    (db : Db) (c : EC.t) :
  Spec.failed overallReply = true ->
  Spec.failed insightsReply = true ->
  More.castsTakeFallbacks castString castStrings ->
  find (Routes.inProgressFor caller sessionId) (conversations db) = Some c ->
  EC.valid c = true ->
  fst (Routes.complete castString castStrings now overallReply insightsReply
         analyticsId caller sessionId db)
  = Routes.Completed AI.overallFallback AI.insightsFallback analyticsId.
Proof.
  intros Hoverall Hinsights (Hneutral & Hbalanced & _ & Hnone) Hfind Hvalid.
  unfold Routes.complete. rewrite Hfind.
  assert (Ho : forall allResponses,
            AI.analyzeOverallEmotion overallReply allResponses
            = AI.overallFallback)
    by (intros; destruct overallReply;
        [reflexivity | reflexivity | discriminate Hoverall]).
  assert (Hi : forall allResponses,
            AI.generateEmotionalInsights insightsReply allResponses
            = AI.insightsFallback)
    by (intros; destruct insightsReply;
        [reflexivity | reflexivity | discriminate Hinsights]).
  cbv zeta. rewrite Ho, Hi.
  unfold Routes.castOverallEmotion, Routes.castInsights. simpl.
  rewrite Hneutral, Hbalanced, Hnone.
  unfold EC.valid in *. simpl.
  apply andb_prop in Hvalid as [Hvalid _].
  apply andb_prop in Hvalid as [Hsid Hqs].
  rewrite Hsid, Hqs. reflexivity.
Qed.

(** Whether the schema takes the quality metrics does not depend on the
    insights they were computed with. *)
Lemma calculateQualityMetrics_on_defaults (d : Svc.ConversationData)
    (aiInsights : value) (given : CA.QualityMetrics) :
  Svc.calculateQualityMetrics d aiInsights = Some given ->
  exists q,
    Svc.calculateQualityMetrics d Svc.getDefaultInsights = Some q
    /\ CA.validQualityMetrics q = CA.validQualityMetrics given
    /\ CA.helpfulness q = VNum (int 7).
Proof.
  unfold Svc.calculateQualityMetrics.
  destruct (get aiInsights "aiPerformance"); [|discriminate].
  intros H. injection H as <-.
  eexists. split; [reflexivity|]. split; reflexivity.
Qed.

(** With the insights reply failed [analyzeConversation] throws no
    [TypeError]. *)
Lemma analyzeConversation_no_TypeError (casts : CA.Casts) (w : Svc.World)
    (db : Db) (conversationId tenantId userId : ObjectId) :
  Spec.failed (Svc.insightsReply w) = true ->
  Svc.analyzeConversation casts w db conversationId tenantId userId
  <> Svc.Thrown Svc.TypeError.
Proof.
  intros Hfail. unfold Svc.analyzeConversation.
  destruct (Svc.findById conversationId db) as [c|]; [|discriminate].
  assert (Hai : Svc.generateAIInsights (Svc.insightsReply w)
                  (Svc.extractConversationData c)
                = Svc.getDefaultInsights)
    by (destruct (Svc.insightsReply w);
        [reflexivity | reflexivity | discriminate Hfail]).
  cbv zeta. rewrite Hai.
  assert (Hq : exists q,
            Svc.calculateQualityMetrics (Svc.extractConversationData c)
              Svc.getDefaultInsights = Some q)
    by (eexists; reflexivity).
  destruct Hq as [q ->].
  match goal with
  | |- context [if ?b then _ else Svc.Thrown Svc.ValidationError] =>
      destruct b
  end; [|discriminate].
  destruct (Svc.saveAccepted w); discriminate.
Qed.

(** With both replies failed [analyzeConversation] returns whenever it
    returns, at the same moment, with replies that came. *)
Lemma analyzeConversation_returns_on_failed_replies (casts : CA.Casts)
    (w w' : Svc.World) (db : Db) (conversationId tenantId userId : ObjectId)
    (r' : CA.t) (db' : Db) :
  Spec.failed (Svc.insightsReply w) = true ->
  Spec.failed (Svc.predictiveReply w) = true ->
  More.takesDefaults casts ->
  Svc.now w' = Svc.now w ->
  Svc.saveAccepted w = true ->
  Svc.analyzeConversation casts w' db conversationId tenantId userId
  = Svc.Returned (r', db') ->
  exists r,
    Svc.analyzeConversation casts w db conversationId tenantId userId
    = Svc.Returned (r, Svc.insertAnalytics r db)
    /\ CA.aiPerformance r = getOpt Svc.getDefaultInsights "aiPerformance"
    /\ CA.conversationSummary r = getOpt Svc.getDefaultInsights "summary"
    /\ CA.predictiveInsights r = Svc.getDefaultPredictiveInsights.
Proof.
  intros Hi Hp (Hn & Ha & Hs & Hpi) Hnow Hsave Hret.
  unfold Svc.analyzeConversation in *.
  destruct (Svc.findById conversationId db) as [c|]; [|discriminate].
  cbv zeta in *.
  assert (Hai : Svc.generateAIInsights (Svc.insightsReply w)
                  (Svc.extractConversationData c)
                = Svc.getDefaultInsights)
    by (destruct (Svc.insightsReply w);
        [reflexivity | reflexivity | discriminate Hi]).
  assert (Hpred : forall h,
            Svc.generatePredictiveInsights (Svc.predictiveReply w)
              (Svc.extractConversationData c) h
            = Svc.getDefaultPredictiveInsights)
    by (intros h; destruct (Svc.predictiveReply w);
        [reflexivity | reflexivity | discriminate Hp]).
  rewrite Hai, Hpred, Hsave.
  destruct (Svc.calculateQualityMetrics _ _) as [q'|] eqn:Hq' in Hret;
    [|discriminate].
  match type of Hret with
  | context [if ?b then _ else Svc.Thrown Svc.ValidationError] =>
      destruct b eqn:Hvalid; [|discriminate]
  end.
  apply andb_prop in Hvalid as [Hvalid _].
  destruct (calculateQualityMetrics_on_defaults _ _ _ Hq')
    as (q & Hq & Hvq & Hh).
  rewrite Hq.
  unfold CA.valid, CA.validProvided in *.
  cbn [CA.date CA.metrics CA.emotionalInsights CA.topics CA.qualityMetrics
       CA.recommendations CA.contextualAnalysis CA.historicalAnalysis
       CA.actionTracking CA.aiPerformance CA.conversationSummary
       CA.predictiveInsights] in *.
  rewrite Hnow in Hvalid.
  match goal with
  | |- context [if ?v && _ then _ else Svc.Thrown Svc.ValidationError] =>
      assert (Hv : v = true) by (rewrite Hvq; exact Hvalid)
  end.
  rewrite Hv, Hh, Hn, Ha, Hs, Hpi.
  cbn [andb]. eexists. split; [reflexivity|]. repeat split.
Qed.

(** C5.  When the call to the provider fails or its reply does not parse,
    the per-response scoring, the overall summary, the insight
    generation, the AI insights and the predictive insights each return
    their default payload; none of them throws.  The flows the user sees
    then complete: the respond route records the answer of a valid
    request with the fallback score, the completion route closes the
    conversation with the fallback summary and insights, and the
    analysis of a conversation throws no [TypeError] and returns a
    record, with the default payloads in it, whenever it returns at the
    same moment with replies that came. *)
Theorem failed_reply_gives_defaults (reply : completion)
    (text allResponses : string) (context : value)
    (d : Svc.ConversationData) (h : CA.HistoricalAnalysis) :
  Spec.failed reply = true ->
  (AI.analyzeEmotion reply text context = AI.emotionFallback context
   /\ AI.analyzeOverallEmotion reply allResponses = AI.overallFallback
   /\ AI.generateEmotionalInsights reply allResponses = AI.insightsFallback
   /\ Svc.generateAIInsights reply d = Svc.getDefaultInsights
   /\ Svc.generatePredictiveInsights reply d h
      = Svc.getDefaultPredictiveInsights)
  /\ (forall castString castStrings now analyticsId caller sessionId body db c,
        More.castsTakeFallbacks castString castStrings ->
        Spec.validRespondBody body = true ->
        find (Routes.inProgressFor caller sessionId) (conversations db)
        = Some c ->
        EC.valid c = true ->
        fst (Routes.respond castString castStrings now reply caller sessionId
               body db)
        = Routes.Recorded (AI.emotionFallback (str "workplace"))
            (S (List.length (EC.questions c)))
        /\ fst (Routes.complete castString castStrings now reply reply
                  analyticsId caller sessionId db)
           = Routes.Completed AI.overallFallback AI.insightsFallback
               analyticsId)
  /\ (forall casts w db conversationId tenantId userId,
        Svc.insightsReply w = reply ->
        Svc.predictiveReply w = reply ->
        Svc.analyzeConversation casts w db conversationId tenantId userId
        <> Svc.Thrown Svc.TypeError
        /\ forall w' r' db',
             More.takesDefaults casts ->
             Svc.now w' = Svc.now w ->
             Svc.saveAccepted w = true ->
             Svc.analyzeConversation casts w' db conversationId tenantId
               userId
             = Svc.Returned (r', db') ->
             exists r,
               Svc.analyzeConversation casts w db conversationId tenantId
                 userId
               = Svc.Returned (r, Svc.insertAnalytics r db)
               /\ CA.aiPerformance r
                  = getOpt Svc.getDefaultInsights "aiPerformance"
               /\ CA.conversationSummary r
                  = getOpt Svc.getDefaultInsights "summary"
               /\ CA.predictiveInsights r = Svc.getDefaultPredictiveInsights).
Proof.
  intros Hfail. split; [|split].
  - destruct reply; simpl; try discriminate Hfail; repeat split.
  - intros castString castStrings now analyticsId caller sessionId body db c
      Hcasts Hbody Hfind Hvalid.
    split.
    + destruct Hcasts as (Hneutral & _ & Hplace & Hnone).
      apply (respond_scored_with_fallback castString castStrings now reply
               caller sessionId body db c "neutral" "workplace" []);
        try assumption.
      discriminate.
    + now apply (complete_with_fallbacks castString castStrings now reply
                   reply analyticsId caller sessionId db c).
  - intros casts w db conversationId tenantId userId Hi Hp. split.
    + apply analyzeConversation_no_TypeError. now rewrite Hi.
    + intros w' r' db' Hcasts Hnow Hsave Hret.
      apply (analyzeConversation_returns_on_failed_replies casts w w' db
               conversationId tenantId userId r' db');
        try assumption; [now rewrite Hi|now rewrite Hp].
Qed.

Lemma failed_reply_gives_defaults_witness :
  (AI.analyzeEmotion CallFailed "Too many meetings" (str "workplace")
   = AI.emotionFallback (str "workplace")
   /\ AI.analyzeOverallEmotion CallFailed "fine" = AI.overallFallback
   /\ AI.generateEmotionalInsights CallFailed "fine" = AI.insightsFallback
   /\ Svc.generateAIInsights CallFailed
        (Svc.extractConversationData Examples.calmWorker)
      = Svc.getDefaultInsights
   /\ Svc.generatePredictiveInsights CallFailed
        (Svc.extractConversationData Examples.calmWorker)
        Svc.getDefaultHistoricalAnalysis
      = Svc.getDefaultPredictiveInsights)
  /\ (fst (Routes.respond Examples.plainString Examples.plainStrings
             (Examples.clock 7000 9) CallFailed Examples.callerOfB
             "session-4" Examples.answer Examples.dbOpen)
      = Routes.Recorded (AI.emotionFallback (str "workplace")) 1
      /\ fst (Routes.complete Examples.plainString Examples.plainStrings
                (Examples.clock 7000 9) CallFailed CallFailed 200%N
                Examples.callerOfB "session-4" Examples.dbOpen)
         = Routes.Completed AI.overallFallback AI.insightsFallback 200%N)
  /\ (Svc.analyzeConversation Examples.typedCasts Examples.providerDown
        Examples.dbCalm 5%N Examples.tenantB Examples.userOfB
      <> Svc.Thrown Svc.TypeError
      /\ exists r,
           Svc.analyzeConversation Examples.typedCasts Examples.providerDown
             Examples.dbCalm 5%N Examples.tenantB Examples.userOfB
           = Svc.Returned (r, Svc.insertAnalytics r Examples.dbCalm)
           /\ CA.aiPerformance r
              = getOpt Svc.getDefaultInsights "aiPerformance"
           /\ CA.conversationSummary r
              = getOpt Svc.getDefaultInsights "summary"
           /\ CA.predictiveInsights r = Svc.getDefaultPredictiveInsights).
Proof.
  destruct (failed_reply_gives_defaults CallFailed "Too many meetings" "fine"
              (str "workplace")
              (Svc.extractConversationData Examples.calmWorker)
              Svc.getDefaultHistoricalAnalysis eq_refl)
    as (Hops & Hroutes & Hanalysis).
  split; [exact Hops|]. split.
  - apply (Hroutes Examples.plainString Examples.plainStrings
             (Examples.clock 7000 9) 200%N Examples.callerOfB "session-4"
             Examples.answer Examples.dbOpen Examples.openConversation);
      [repeat split|reflexivity|reflexivity|reflexivity].
  - destruct (Hanalysis Examples.typedCasts Examples.providerDown
                Examples.dbCalm 5%N Examples.tenantB Examples.userOfB
                eq_refl eq_refl)
      as [Hno Hreturns].
    split; [exact Hno|].
    eapply (Hreturns Examples.wildWorld);
      [repeat split|reflexivity|reflexivity|reflexivity].
Defined.

(** A reply that parses to [null] is a failure too for the three
    operations that read its fields. *)
Lemma null_reply_gives_defaults (text allResponses : string)
    (context : value) :
  AI.analyzeEmotion (Parsed VNull) text context = AI.emotionFallback context
  /\ AI.analyzeOverallEmotion (Parsed VNull) allResponses = AI.overallFallback
  /\ AI.generateEmotionalInsights (Parsed VNull) allResponses
     = AI.insightsFallback.
Proof. repeat split. Qed.

(** The insights reply that parses to [null] is handed on by
    [generateAIInsights] and makes [analyzeConversation] throw. *)
Lemma null_insights_reply_is_thrown_on (casts : CA.Casts) (w : Svc.World)
    (db : Db) (conversationId tenantId userId : ObjectId) (c : EC.t) :
  Svc.findById conversationId db = Some c ->
  Svc.insightsReply w = Parsed VNull ->
  Svc.analyzeConversation casts w db conversationId tenantId userId
  = Svc.Thrown Svc.TypeError.
Proof.
  intros Hfind Hreply. unfold Svc.analyzeConversation.
  rewrite Hfind, Hreply. reflexivity.
Qed.


(** ** Predictive insights (C6) *)

(** C6, as the code has it.  [generatePredictiveInsights] hands the parsed
    reply on unchanged, with no field of it validated or clamped; the
    default payload takes its place only when the call fails or the reply
    does not parse, and the projections of that default (5, 5, 5 and 0.5)
    are within their ranges. *)
Theorem generatePredictiveInsights_hands_reply_on (reply : completion)
    (d : Svc.ConversationData) (h : CA.HistoricalAnalysis) :
  Svc.generatePredictiveInsights reply d h
  = match reply with
    | Parsed v => v
    | _ => Svc.getDefaultPredictiveInsights
    end
  /\ exists outcomes,
       get Svc.getDefaultPredictiveInsights "predictedOutcomes" = Some outcomes
       /\ get outcomes "nextWeekMood" = Some (VNum (int 5))
       /\ get outcomes "nextWeekStress" = Some (VNum (int 5))
       /\ get outcomes "nextWeekEnergy" = Some (VNum (int 5))
       /\ get outcomes "confidence" = Some (VNum (Fin (1 # 2)))
       /\ Spec.within 1 10 (int 5)
       /\ Spec.within 0 1 (Fin (1 # 2)).
Proof.
  split.
  - destruct reply; reflexivity.
  - eexists. repeat split; try reflexivity; unfold Qle; simpl; lia.
Qed.

(** A forecast of mood 42 with confidence 7 is returned as it came, and
    [analyzeConversation] hands it to the record as it came (on a
    conversation on which no recommendation rule fires, so that [save()]
    takes the record). *)
Lemma generatePredictiveInsights_keeps_wild_forecast :
  let d := Svc.extractConversationData Examples.calmWorker in
  let h :=
    Svc.analyzeHistoricalContext Examples.afternoon Examples.dbCalm
      Examples.userOfB Examples.tenantB d in
  let insights :=
    Svc.generatePredictiveInsights (Parsed Examples.wildForecast) d h in
  (exists outcomes,
     get insights "predictedOutcomes" = Some outcomes
     /\ get outcomes "nextWeekMood" = Some (VNum (int 42))
     /\ get outcomes "confidence" = Some (VNum (int 7)))
  /\ ~ Spec.within 1 10 (int 42)
  /\ ~ Spec.within 0 1 (int 7)
  /\ exists r db',
       Svc.analyzeConversation Examples.typedCasts Examples.wildWorld
         Examples.dbCalm 5%N Examples.tenantB Examples.userOfB
       = Svc.Returned (r, db')
       /\ CA.predictiveInsights r = Examples.wildForecast.
Proof.
  split; [eexists; repeat split; reflexivity|].
  split; [vm_compute; intros [_ H]; apply H; reflexivity|].
  split; [vm_compute; intros [_ H]; apply H; reflexivity|].
  eexists. eexists. split; vm_compute; reflexivity.
Qed.

(** ** The dashboard on an empty window (C7) *)

Lemma filter_none {A} (p : A -> bool) (l : list A) :
  (forall x, In x l -> p x = false) -> filter p l = [].
Proof.
  induction l as [|x l IH]; intros H; simpl; [reflexivity|].
  rewrite (H x (or_introl eq_refl)). apply IH.
  intros y Hy. apply H. now right.
Qed.

Lemma aggregateAnalytics_nil : Svc.aggregateAnalytics [] = Svc.getEmptyAnalytics.
Proof. reflexivity. Qed.

(** With records, the rollup counts them. *)
Lemma aggregateAnalytics_counts (analytics : list CA.t) :
  analytics <> [] ->
  Svc.totalConversations (Svc.overview (Svc.aggregateAnalytics analytics))
  = Svc.ofNat (List.length analytics).
Proof.
  destruct analytics as [|a l]; [congruence|]. reflexivity.
Qed.

(** C7.  For every tenant and every time window in which none of the
    tenant's stored analytics records falls, the dashboard rollup returns
    the all-zero, all-empty structure: it neither throws nor returns
    null.  (A time window is a day count that is a number and leaves the
    start date within the range of a Date, or two valid dates.) *)
Theorem getDashboardAnalytics_empty_window (now : Date) (db : Db)
    (tenantId : ObjectId) (timeRange : Svc.TimeRange) :
  Spec.isWindow now timeRange = true ->
  (forall a, In a (conversationAnalytics db) ->
     CA.tenantId a = tenantId ->
     Spec.inWindow now timeRange (CA.date a) = false) ->
  Svc.getDashboardAnalytics now db tenantId timeRange
  = Some Svc.getEmptyAnalytics
  /\ Svc.totalConversations (Svc.overview Svc.getEmptyAnalytics) = int 0
  /\ Svc.avgWellBeing (Svc.overview Svc.getEmptyAnalytics) = int 0
  /\ Svc.avgStress (Svc.overview Svc.getEmptyAnalytics) = int 0
  /\ Svc.avgSatisfaction (Svc.overview Svc.getEmptyAnalytics) = int 0
  /\ Svc.avgEngagement (Svc.overview Svc.getEmptyAnalytics) = int 0
  /\ Svc.emotionalTrends Svc.getEmptyAnalytics = []
  /\ Svc.topTopics Svc.getEmptyAnalytics = []
  /\ Svc.recommendations Svc.getEmptyAnalytics = []
  /\ Svc.timeRange Svc.getEmptyAnalytics = [].
Proof.
  intros Hwin Hnone. split; [|repeat split].
  assert (Hfind : forall from to,
            (forall a, In a (conversationAnalytics db) ->
               CA.tenantId a = tenantId ->
               ((from <=? getTime (CA.date a))%Z
                && match to with
                   | Some e => (getTime (CA.date a) <=? e)%Z
                   | None => true
                   end) = false) ->
            Svc.findByTenant tenantId from to db = []).
  { intros from to H. unfold Svc.findByTenant.
    rewrite filter_none; [reflexivity|].
    intros a Ha. destruct (CA.tenantId a =? tenantId)%N eqn:E.
    - apply N.eqb_eq in E. simpl. now apply H.
    - reflexivity. }
  destruct timeRange as [[days|]|startDate endDate]; try discriminate Hwin;
    unfold Spec.isWindow, isDate in Hwin; unfold Svc.getDashboardAnalytics.
  - destruct (timeClip _) as [from|] eqn:Hfrom; [|discriminate Hwin].
    apply timeClip_Some in Hfrom. subst from.
    rewrite Hfind; [reflexivity|].
    intros a Ha Ht. specialize (Hnone a Ha Ht). simpl in Hnone.
    now rewrite Hnone.
  - destruct (timeClip (getTime startDate)) as [from|] eqn:Hfrom;
      [|discriminate Hwin].
    destruct (timeClip (getTime endDate)) as [to|] eqn:Hto;
      [|discriminate Hwin].
    apply timeClip_Some in Hfrom, Hto. subst from to.
    rewrite Hfind; [reflexivity|].
    intros a Ha Ht. exact (Hnone a Ha Ht).
Qed.

Lemma getDashboardAnalytics_empty_window_witness :
  Svc.getDashboardAnalytics Examples.afternoon Examples.dbAnalysed
    Examples.tenantB (Svc.LastDays (Some 30%Z))
  = Some Svc.getEmptyAnalytics.
Proof.
  apply (getDashboardAnalytics_empty_window Examples.afternoon
           Examples.dbAnalysed Examples.tenantB (Svc.LastDays (Some 30%Z))).
  - reflexivity.
  - intros a Ha Ht. vm_compute in Ha. destruct Ha as [<-|[]].
    vm_compute in Ht. discriminate Ht.
Defined.

(** ** Completion is terminal (C8) *)

Lemma replaceFirst_keeps {A} (p : A -> bool) (x c : A) (l : list A) :
  In c l -> p c = false -> In c (Routes.replaceFirst p x l).
Proof.
  induction l as [|y l IH]; simpl; [tauto|].
  intros [->|Hin] Hp.
  - rewrite Hp. now left.
  - destruct (p y); [now right | right; now apply IH].
Qed.

Lemma map_replaceFirst {A B} (f : A -> B) (p : A -> bool) (x : A)
    (l : list A) :
  (forall y, In y l -> p y = true -> f y = f x) ->
  map f (Routes.replaceFirst p x l) = map f l.
Proof.
  induction l as [|y l IH]; simpl; intros H; [reflexivity|].
  destruct (p y) eqn:E; simpl.
  - now rewrite (H y (or_introl eq_refl) E).
  - f_equal. apply IH. intros z Hz. apply H. now right.
Qed.

Lemma NoDup_map_In {A B} (f : A -> B) (l : list A) (x y : A) :
  NoDup (map f l) -> In x l -> In y l -> f x = f y -> x = y.
Proof.
  induction l as [|z l IH]; simpl; [tauto|].
  intros Hnd Hx Hy Hf. inversion Hnd as [|? ? Hnotin Hnd']; subst.
  destruct Hx as [->|Hx], Hy as [->|Hy]; auto.
  - exfalso. apply Hnotin. rewrite Hf. now apply in_map.
  - exfalso. apply Hnotin. rewrite <- Hf. now apply in_map.
Qed.

Lemma inProgressFor_true (caller : Routes.Caller) (sessionId : string)
    (c : EC.t) :
  Routes.inProgressFor caller sessionId c = true ->
  EC.sessionId c = sessionId /\ EC.tenantId c = Routes.tenant caller
  /\ EC.userId c = Routes.user caller /\ EC.status c = EC.in_progress.
Proof.
  unfold Routes.inProgressFor. intros H.
  apply andb_prop in H as [H Hs]. apply andb_prop in H as [H Hu].
  apply andb_prop in H as [Hid Ht].
  repeat split.
  - now apply String.eqb_eq.
  - now apply N.eqb_eq.
  - now apply N.eqb_eq.
  - destruct (EC.status c); simpl in Hs; congruence.
Qed.

Lemma ended_not_selected (caller : Routes.Caller) (sessionId : string)
    (c : EC.t) :
  EC.status c <> EC.in_progress ->
  Routes.inProgressFor caller sessionId c = false.
Proof.
  intros H. destruct (Routes.inProgressFor caller sessionId c) eqn:E;
    [|reflexivity].
  apply inProgressFor_true in E. tauto.
Qed.

Section Terminal.

Variable castString : value -> option string.
Variable castStrings : value -> option (list string).

Let respond := Routes.respond castString castStrings.
Let complete := Routes.complete castString castStrings.
Let handle := Routes.handle castString castStrings.
Let serve := Routes.serve castString castStrings.

Lemma start_effect now uuid freshId caller body db :
  Spec.effect (conversations db)
    (conversations (snd (Routes.start now uuid freshId caller body db))).
Proof.
  unfold Routes.start.
  destruct (Routes.parseConversationType _); [|now apply Spec.Untouched].
  destruct (Routes.isArrayOrAbsent _); [|now apply Spec.Untouched].
  match goal with |- context [if ?b then _ else _] => destruct b eqn:E end;
    [|now apply Spec.Untouched].
  apply andb_prop in E as [_ E]. apply negb_true_iff in E.
  eapply Spec.Appended; [| |reflexivity]; [|reflexivity].
  simpl. intros Hin. apply in_map_iff in Hin as [y [Hy Hin]].
  assert (H : existsb (fun c => EC.sessionId c =? uuid) (conversations db)
              = true).
  { apply existsb_exists. exists y. split; [assumption|].
    now apply String.eqb_eq. }
  rewrite H in E. discriminate E.
Qed.

Lemma respond_effect now reply caller sessionId body db :
  Spec.effect (conversations db)
    (conversations (snd (respond now reply caller sessionId body db))).
Proof.
  unfold respond, Routes.respond.
  match goal with |- context [if ?b then _ else _] => destruct b end;
    [now apply Spec.Untouched|].
  destruct (find _ _) as [conversation|] eqn:Hfind; [|now apply Spec.Untouched].
  destruct (Routes.castEmotionAnalysis _ _ _); [|now apply Spec.Untouched].
  match goal with |- context [if ?b then _ else _] => destruct b end;
    [|now apply Spec.Untouched].
  apply find_some in Hfind as [_ Hsel].
  apply inProgressFor_true in Hsel as [Hsid _].
  eapply Spec.Replaced; [|reflexivity]. exact Hsid.
Qed.

Lemma complete_effect now overallReply insightsReply analyticsId caller
    sessionId db :
  Spec.effect (conversations db)
    (conversations
       (snd (complete now overallReply insightsReply analyticsId caller
               sessionId db))).
Proof.
  unfold complete, Routes.complete.
  destruct (find _ _) as [conversation|] eqn:Hfind; [|now apply Spec.Untouched].
  destruct (Routes.castOverallEmotion _ _); [|now apply Spec.Untouched].
  destruct (Routes.castInsights _ _); [|now apply Spec.Untouched].
  apply find_some in Hfind as [_ Hsel].
  apply inProgressFor_true in Hsel as [Hsid _].
  match goal with |- context [if ?b then _ else _] => destruct b end;
    [|now apply Spec.Untouched].
  match goal with |- context [if ?b then _ else _] => destruct b end;
    (eapply Spec.Replaced; [|reflexivity]; exact Hsid).
Qed.

Lemma handle_effect now request db :
  Spec.effect (conversations db) (conversations (snd (handle now request db))).
Proof.
  destruct request; simpl.
  - apply start_effect.
  - apply respond_effect.
  - apply complete_effect.
Qed.

Lemma effect_keeps_ended before after c :
  Spec.effect before after ->
  In c before -> EC.status c <> EC.in_progress -> In c after.
Proof.
  intros [->|caller sid x _ ->|x _ _ ->] Hin Hst.
  - assumption.
  - apply replaceFirst_keeps; [assumption|]. now apply ended_not_selected.
  - apply in_or_app. now left.
Qed.

Lemma effect_keeps_sessions_unique before after :
  Spec.effect before after ->
  NoDup (map EC.sessionId before) -> NoDup (map EC.sessionId after).
Proof.
  intros [->|caller sid x Hx ->|x Hnew _ ->] Hnd.
  - assumption.
  - rewrite map_replaceFirst; [assumption|].
    intros y _ Hsel. apply inProgressFor_true in Hsel as [-> _].
    now symmetry.
  - rewrite map_app. simpl.
    apply NoDup_app; [assumption | repeat constructor; simpl; tauto|].
    intros s Hs [<-|[]]. contradiction.
Qed.

Lemma serve_keeps_ended requests db c :
  In c (conversations db) -> EC.status c <> EC.in_progress ->
  In c (conversations (serve requests db)).
Proof.
  revert db. induction requests as [|[now request] rest IH]; intros db Hin Hst.
  - exact Hin.
  - simpl. apply IH; [|assumption].
    eapply effect_keeps_ended; [apply handle_effect | assumption..].
Qed.

Lemma serve_keeps_sessions_unique requests db :
  NoDup (map EC.sessionId (conversations db)) ->
  NoDup (map EC.sessionId (conversations (serve requests db))).
Proof.
  revert db. induction requests as [|[now request] rest IH]; intros db Hnd.
  - exact Hnd.
  - simpl. apply IH.
    eapply effect_keeps_sessions_unique; [apply handle_effect | assumption].
Qed.

(** No open conversation answers to the session of one that has ended. *)
Lemma ended_session_not_found caller db c :
  NoDup (map EC.sessionId (conversations db)) ->
  In c (conversations db) -> EC.status c <> EC.in_progress ->
  find (Routes.inProgressFor caller (EC.sessionId c)) (conversations db)
  = None.
Proof.
  intros Hnd Hin Hst.
  destruct (find _ _) as [y|] eqn:Hfind; [|reflexivity].
  apply find_some in Hfind as [Hy Hsel].
  apply inProgressFor_true in Hsel as (Hsid & _ & _ & Hopen).
  assert (y = c) by (eapply NoDup_map_In; eassumption).
  subst y. contradiction.
Qed.

Lemma respond_on_ended_session now reply caller body db c :
  NoDup (map EC.sessionId (conversations db)) ->
  In c (conversations db) -> EC.status c <> EC.in_progress ->
  respond now reply caller (EC.sessionId c) body db
  = (if Spec.validRespondBody body then Routes.NotFound
     else Routes.ValidationError, db).
Proof.
  intros Hnd Hin Hst. unfold respond, Routes.respond, Spec.validRespondBody.
  rewrite (ended_session_not_found caller db c Hnd Hin Hst).
  destruct (Routes.questionId body =? ""); [reflexivity|].
  destruct (Routes.questionText body =? ""); [reflexivity|].
  destruct (Routes.userResponse body =? ""); reflexivity.
Qed.

Lemma complete_on_ended_session now overallReply insightsReply analyticsId
    caller db c :
  NoDup (map EC.sessionId (conversations db)) ->
  In c (conversations db) -> EC.status c <> EC.in_progress ->
  complete now overallReply insightsReply analyticsId caller (EC.sessionId c)
    db
  = (Routes.NotFound, db).
Proof.
  intros Hnd Hin Hst. unfold complete, Routes.complete.
  now rewrite (ended_session_not_found caller db c Hnd Hin Hst).
Qed.

(** A respond request that reaches an open conversation appends one
    question to it. *)
Lemma respond_appends_one now reply caller sessionId body db analysis n :
  fst (respond now reply caller sessionId body db)
  = Routes.Recorded analysis n ->
  exists c, find (Routes.inProgressFor caller sessionId) (conversations db)
            = Some c
            /\ n = S (List.length (EC.questions c)).
Proof.
  unfold respond, Routes.respond.
  match goal with |- context [if ?b then _ else _] => destruct b end;
    [discriminate|].
  destruct (find _ _) as [c|]; [|discriminate].
  destruct (Routes.castEmotionAnalysis _ _ _); [|discriminate].
  match goal with |- context [if ?b then _ else _] => destruct b end;
    [|discriminate].
  simpl. intros H. injection H as _ <-. exists c. split; [reflexivity|].
  rewrite length_app. simpl. lia.
Qed.

(** C8.  Whatever requests are served, a conversation that is completed
    (or abandoned) stays in the collection as it is, status and questions
    included, and remains the only document of its session; and a respond
    request addressed to its session, at any later moment, is answered
    with the not-found error and changes nothing.  (The session
    identifier has a unique index; the request's body is one that passes
    the route's validators.) *)
Theorem completion_is_terminal
    (requests : list (Date * Routes.Request)) (db : Db) (c : EC.t)
    (now : Date) (reply : completion) (caller : Routes.Caller)
    (body : Routes.RespondBody) :
  NoDup (map EC.sessionId (conversations db)) ->
  In c (conversations db) ->
  EC.status c <> EC.in_progress ->
  Spec.validRespondBody body = true ->
  let db' := serve requests db in
  In c (conversations db')
  /\ respond now reply caller (EC.sessionId c) body db'
     = (Routes.NotFound, db')
  /\ forall c',
       In c' (conversations db') -> EC.sessionId c' = EC.sessionId c ->
       c' = c.
Proof.
  intros Hnd Hin Hst Hbody db'.
  assert (Hin' : In c (conversations db'))
    by (apply serve_keeps_ended; assumption).
  assert (Hnd' : NoDup (map EC.sessionId (conversations db')))
    by (apply serve_keeps_sessions_unique; assumption).
  split; [exact Hin'|]. split.
  - rewrite (respond_on_ended_session now reply caller body db' c Hnd' Hin' Hst).
    now rewrite Hbody.
  - intros c' Hc' Hsid.
    exact (NoDup_map_In EC.sessionId _ c' c Hnd' Hc' Hin' Hsid).
Qed.

End Terminal.

Lemma completion_is_terminal_witness :
  let db' :=
    Routes.serve Examples.plainString Examples.plainStrings Examples.traffic
      Examples.dbOpen in
  In Examples.stressedWorker (conversations db')
  /\ Routes.respond Examples.plainString Examples.plainStrings
       (Examples.clock 6000 9) CallFailed Examples.callerOfB
       (EC.sessionId Examples.stressedWorker) Examples.answer db'
     = (Routes.NotFound, db')
  /\ forall c',
       In c' (conversations db') ->
       EC.sessionId c' = EC.sessionId Examples.stressedWorker ->
       c' = Examples.stressedWorker.
Proof.
  apply (completion_is_terminal Examples.plainString Examples.plainStrings
           Examples.traffic Examples.dbOpen Examples.stressedWorker
           (Examples.clock 6000 9) CallFailed Examples.callerOfB
           Examples.answer).
  - simpl. repeat constructor; simpl; intuition discriminate.
  - simpl. now left.
  - discriminate.
  - reflexivity.
Defined.

(** The traffic of the witness does reach the open session: it ends up
    completed, with the one answer it was sent. *)
Lemma traffic_completes_open_session :
  exists c,
    In c (conversations
            (Routes.serve Examples.plainString Examples.plainStrings
               Examples.traffic Examples.dbOpen))
    /\ EC.sessionId c = "session-4"
    /\ EC.status c = EC.completed
    /\ map EC.userResponse (EC.questions c) = ["Too many meetings"].
Proof.
  eexists. split; [vm_compute; right; left; reflexivity|].
  repeat split.
Qed.

(** ** Time of day, day of week and season (C9) *)

(** C9, as the code has it.  The three fields are computed from the clock
    at the moment of the analysis, whatever the conversation and its
    creation time are, by the fixed rules: before 6 night, before 12
    morning, before 18 afternoon, evening after; the months in buckets of
    three, from January on, give spring, summer, autumn, winter; the day
    is the name of the day of the week. *)
Theorem analyzeContextualFactors_reads_the_clock (now : Date)
    (conversation : EC.t) :
  let block := Svc.analyzeContextualFactors now conversation in
  CA.timeOfDay block = Svc.getTimeOfDay now
  /\ CA.dayOfWeek block = Svc.getDayOfWeek now
  /\ CA.season block = Svc.getSeason now
  /\ ((getHours now < 6)%Z -> Svc.getTimeOfDay now = "night")
  /\ ((6 <= getHours now < 12)%Z -> Svc.getTimeOfDay now = "morning")
  /\ ((12 <= getHours now < 18)%Z -> Svc.getTimeOfDay now = "afternoon")
  /\ ((18 <= getHours now)%Z -> Svc.getTimeOfDay now = "evening")
  /\ ((0 <= getMonth now < 12)%Z ->
      nth_error ["spring"; "summer"; "autumn"; "winter"]
        (Z.to_nat (getMonth now / 3))
      = Some (Svc.getSeason now))
  /\ ((0 <= getDay now < 7)%Z ->
      Svc.getDayOfWeek now
      = nth_error ["sunday"; "monday"; "tuesday"; "wednesday"; "thursday";
                   "friday"; "saturday"]
          (Z.to_nat (getDay now))).
Proof.
  cbv zeta. split; [reflexivity|]. split; [reflexivity|].
  split; [reflexivity|].
  unfold Svc.getTimeOfDay, Svc.getSeason, Svc.getDayOfWeek.
  generalize (getHours now) (getMonth now) (getDay now). intros h m d.
  repeat split.
  - intros H. apply Z.ltb_lt in H. now rewrite H.
  - intros [H1 H2]. apply Z.ltb_ge in H1. apply Z.ltb_lt in H2.
    now rewrite H1, H2.
  - intros [H1 H2].
    assert (H0 : (h <? 6)%Z = false) by (apply Z.ltb_ge; lia).
    apply Z.ltb_ge in H1. apply Z.ltb_lt in H2. now rewrite H0, H1, H2.
  - intros H.
    assert (H0 : (h <? 6)%Z = false) by (apply Z.ltb_ge; lia).
    assert (H1 : (h <? 12)%Z = false) by (apply Z.ltb_ge; lia).
    apply Z.ltb_ge in H. now rewrite H0, H1, H.
  - intros H.
    assert (Hm : (m = 0 \/ m = 1 \/ m = 2 \/ m = 3 \/ m = 4 \/ m = 5
                  \/ m = 6 \/ m = 7 \/ m = 8 \/ m = 9 \/ m = 10
                  \/ m = 11)%Z) by lia.
    repeat (destruct Hm as [->|Hm]; [reflexivity | idtac]). now subst m.
  - intros H.
    assert (Hd : (d <? 0)%Z = false) by (apply Z.ltb_ge; lia).
    now rewrite Hd.
Qed.

Lemma analyzeContextualFactors_reads_the_clock_witness :
  let block :=
    Svc.analyzeContextualFactors Examples.afternoon Examples.stressedWorker in
  CA.timeOfDay block = "afternoon"
  /\ CA.season block = "spring"
  /\ CA.dayOfWeek block = Some "monday".
Proof.
  destruct (analyzeContextualFactors_reads_the_clock Examples.afternoon
              Examples.stressedWorker)
    as (Ht & Hd & Hs & _ & _ & Hafternoon & _ & Hseason & Hday).
  cbv zeta. rewrite Ht, Hs, Hd. split; [|split].
  - apply Hafternoon. simpl. lia.
  - assert (H : (0 <= getMonth Examples.afternoon < 12)%Z) by (simpl; lia).
    specialize (Hseason H).
    apply (f_equal (fun o => match o with Some s => s | None => "" end))
      in Hseason.
    symmetry. exact Hseason.
  - rewrite Hday; [reflexivity | simpl; lia].
Defined.

(** A conversation created at 3 at night and analysed at 14 is filed as
    an afternoon one. *)
Lemma analysis_time_is_not_creation_time :
  let block :=
    Svc.analyzeContextualFactors Examples.afternoon Examples.stressedWorker in
  getHours (EC.createdAt Examples.stressedWorker) = 3%Z
  /\ Svc.getTimeOfDay (EC.createdAt Examples.stressedWorker) = "night"
  /\ CA.timeOfDay block = "afternoon"
  /\ CA.timeOfDay block
     <> Svc.getTimeOfDay (EC.createdAt Examples.stressedWorker).
Proof.
  repeat split. vm_compute. discriminate.
Qed.

(** * More of the code *)

Module Pat := EmotionPatterns.
Module ARoutes := ConversationAnalyticsRoutes.

(** ** Sorting, counting *)

Lemma insertDesc_perm {A} (key : A -> Z) (x : A) (l : list A) :
  Permutation (insertDesc key x l) (x :: l).
Proof.
  induction l as [|y l IH]; simpl; [reflexivity|].
  destruct (key y <=? key x)%Z; [reflexivity|].
  rewrite IH. apply perm_swap.
Qed.

Lemma sortDesc_perm {A} (key : A -> Z) (l : list A) :
  Permutation (sortDesc key l) l.
Proof.
  unfold sortDesc. induction l as [|x l IH]; simpl; [reflexivity|].
  rewrite insertDesc_perm. now constructor.
Qed.

Lemma sortDesc_length {A} (key : A -> Z) (l : list A) :
  List.length (sortDesc key l) = List.length l.
Proof. apply Permutation_length, sortDesc_perm. Qed.

Lemma insertDesc_descending {A} (key : A -> Z) (x : A) (l : list A) :
  More.descending key l -> More.descending key (insertDesc key x l).
Proof.
  unfold More.descending.
  induction l as [|y l IH]; intros H; simpl.
  - repeat constructor.
  - inversion H as [|? ? Hl Hy]; subst.
    destruct (key y <=? key x)%Z eqn:E.
    + apply Z.leb_le in E. constructor; [assumption|].
      constructor; [assumption|].
      rewrite Forall_forall in *. intros z Hz. specialize (Hy z Hz). lia.
    + apply Z.leb_gt in E. constructor; [now apply IH|].
      rewrite Forall_forall in *. intros z Hz.
      apply (Permutation_in _ (insertDesc_perm key x l)) in Hz.
      destruct Hz as [<-|Hz]; [lia | now apply Hy].
Qed.

Lemma sortDesc_descending {A} (key : A -> Z) (l : list A) :
  More.descending key (sortDesc key l).
Proof.
  unfold sortDesc. induction l as [|x l IH]; simpl.
  - constructor.
  - now apply insertDesc_descending.
Qed.

Lemma firstn_In {A} (n : nat) (l : list A) (x : A) :
  In x (firstn n l) -> In x l.
Proof.
  revert n. induction l as [|y l IH]; intros [|n]; simpl; try tauto.
  intros [->|H]; [now left | right; eauto].
Qed.

Lemma skipn_In {A} (n : nat) (l : list A) (x : A) :
  In x (skipn n l) -> In x l.
Proof.
  revert l. induction n as [|n IH]; intros [|y l]; simpl; try tauto.
  intros H. right. eauto.
Qed.

Lemma descending_firstn {A} (key : A -> Z) (n : nat) (l : list A) :
  More.descending key l -> More.descending key (firstn n l).
Proof.
  unfold More.descending. revert n.
  induction l as [|x l IH]; intros [|n] H; simpl; try constructor.
  - inversion H; subst. now apply IH.
  - inversion H as [|? ? _ Hx]; subst.
    rewrite Forall_forall in *. intros z Hz. apply Hx.
    eapply firstn_In, Hz.
Qed.

Lemma descending_skipn {A} (key : A -> Z) (n : nat) (l : list A) :
  More.descending key l -> More.descending key (skipn n l).
Proof.
  unfold More.descending. revert l.
  induction n as [|n IH]; intros [|x l] H; simpl; try assumption.
  inversion H; subst. now apply IH.
Qed.

Lemma descending_map {A B} (f : A -> B) (key : B -> Z) (l : list A) :
  More.descending (fun a => key (f a)) l -> More.descending key (map f l).
Proof.
  unfold More.descending. induction 1 as [|x l _ IH Hx]; simpl.
  - constructor.
  - constructor; [assumption|]. rewrite Forall_forall in *.
    intros y Hy. apply in_map_iff in Hy as [z [<- Hz]]. now apply Hx.
Qed.

Lemma NoDup_firstn {A} (n : nat) (l : list A) : NoDup l -> NoDup (firstn n l).
Proof.
  revert n. induction l as [|x l IH]; intros [|n] H; simpl; try constructor.
  - inversion H; subst. intros Hin. apply firstn_In in Hin.
    contradiction.
  - inversion H; subst. now apply IH.
Qed.

(** The keys and the total of a counter after one more count. *)
Lemma bump_keys (k : string) (n : Z) (counts : list (string * Z)) (k' : string) :
  In k' (map fst (bump k n counts)) <-> k' = k \/ In k' (map fst counts).
Proof.
  induction counts as [|[k0 c] rest IH]; simpl.
  - intuition.
  - destruct (k0 =? k) eqn:E; simpl.
    + apply String.eqb_eq in E. subst. intuition.
    + rewrite IH. intuition.
Qed.

Lemma bump_NoDup (k : string) (n : Z) (counts : list (string * Z)) :
  NoDup (map fst counts) -> NoDup (map fst (bump k n counts)).
Proof.
  induction counts as [|[k0 c] rest IH]; simpl; intros H.
  - repeat constructor. simpl. tauto.
  - inversion H as [|? ? Hnotin Hrest]; subst.
    destruct (k0 =? k) eqn:E; simpl.
    + now constructor.
    + constructor; [|now apply IH].
      rewrite bump_keys. intros [->|Hin]; [|contradiction].
      rewrite String.eqb_refl in E. discriminate.
Qed.

Lemma bump_total (k : string) (n : Z) (counts : list (string * Z)) :
  More.totalOf (map snd (bump k n counts))
  = (More.totalOf (map snd counts) + n)%Z.
Proof.
  unfold More.totalOf.
  induction counts as [|[k0 c] rest IH]; simpl; [lia|].
  destruct (k0 =? k); simpl; [lia|]. rewrite IH. lia.
Qed.

Lemma totalOf_perm (l l' : list Z) :
  Permutation l l' -> More.totalOf l = More.totalOf l'.
Proof.
  unfold More.totalOf. induction 1; simpl; lia.
Qed.

(** A fold that only bumps keys taken from a list: its keys, and its
    total. *)
Lemma fold_bump_keys {A} (key : A -> string) (n : A -> Z) (xs : list A)
    (counts : list (string * Z)) (k : string) :
  In k (map fst (fold_left (fun acc x => bump (key x) (n x) acc) xs counts))
  <-> In k (map key xs) \/ In k (map fst counts).
Proof.
  revert counts. induction xs as [|x xs IH]; intros counts; simpl.
  - tauto.
  - rewrite IH, bump_keys. intuition.
Qed.

Lemma fold_bump_NoDup {A} (key : A -> string) (n : A -> Z) (xs : list A)
    (counts : list (string * Z)) :
  NoDup (map fst counts) ->
  NoDup (map fst (fold_left (fun acc x => bump (key x) (n x) acc) xs counts)).
Proof.
  revert counts. induction xs as [|x xs IH]; intros counts H; simpl.
  - assumption.
  - apply IH. now apply bump_NoDup.
Qed.

Lemma fold_bump_total {A} (key : A -> string) (n : A -> Z) (xs : list A)
    (counts : list (string * Z)) :
  More.totalOf
    (map snd (fold_left (fun acc x => bump (key x) (n x) acc) xs counts))
  = (More.totalOf (map snd counts) + More.totalOf (map n xs))%Z.
Proof.
  revert counts. induction xs as [|x xs IH]; intros counts; simpl.
  - unfold More.totalOf. simpl. lia.
  - rewrite IH, bump_total. unfold More.totalOf. simpl. lia.
Qed.

(** Two nested loops over the items of records are one loop over all the
    items. *)
Lemma fold_left_flat_map {A B C} (f : C -> B -> C) (items : A -> list B)
    (xs : list A) (acc : C) :
  fold_left (fun acc x => fold_left f (items x) acc) xs acc
  = fold_left f (flat_map items xs) acc.
Proof.
  revert acc. induction xs as [|x xs IH]; intros acc; simpl.
  - reflexivity.
  - now rewrite IH, fold_left_app.
Qed.

(** ** What the analytics routes read *)

Lemma findByTenant_insert_other (tenantId : ObjectId) (from : Z)
    (to : option Z) (db : Db) (r : CA.t) :
  CA.tenantId r <> tenantId ->
  Svc.findByTenant tenantId from to (Svc.insertAnalytics r db)
  = Svc.findByTenant tenantId from to db.
Proof.
  intros H. unfold Svc.findByTenant. simpl. rewrite filter_app. simpl.
  apply N.eqb_neq in H. rewrite H. simpl. now rewrite app_nil_r.
Qed.

Lemma findSince_insert_other (tenantId : ObjectId) (since : Z) (db : Db)
    (r : CA.t) :
  CA.tenantId r <> tenantId ->
  ARoutes.findSince tenantId since (Svc.insertAnalytics r db)
  = ARoutes.findSince tenantId since db.
Proof.
  intros H. unfold ARoutes.findSince. simpl. rewrite filter_app. simpl.
  apply N.eqb_neq in H. rewrite H. simpl. now rewrite app_nil_r.
Qed.

(** X1.  A record stored for another tenant changes nothing of what the
    dashboard, user, topics and recommendations routes answer to a
    caller. *)
Theorem reads_ignore_other_tenants (now : Date) (db : Db)
    (caller : Routes.Caller) (r : CA.t) (timeRange : Svc.TimeRange)
    (role : string) (userId : option ObjectId) (days : option Z) :
  CA.tenantId r <> Routes.tenant caller ->
  let db' := Svc.insertAnalytics r db in
  ARoutes.dashboard now db' caller timeRange
  = ARoutes.dashboard now db caller timeRange
  /\ ARoutes.userAnalytics now db' caller role userId days
     = ARoutes.userAnalytics now db caller role userId days
  /\ ARoutes.topics now db' caller days = ARoutes.topics now db caller days
  /\ ARoutes.recommendations now db' caller days
     = ARoutes.recommendations now db caller days.
Proof.
  intros H db'. subst db'. repeat split.
  - unfold ARoutes.dashboard, Svc.getDashboardAnalytics.
    destruct timeRange as [[d|]|s e]; try reflexivity.
    + destruct (timeClip _); [|reflexivity].
      now rewrite findByTenant_insert_other.
    + destruct (timeClip (getTime s)); [|reflexivity].
      destruct (timeClip (getTime e)); [|reflexivity].
      now rewrite findByTenant_insert_other.
  - unfold ARoutes.userAnalytics.
    destruct userId as [u|], days as [d|]; try reflexivity.
    destruct (ARoutes.daysBack now d); [|reflexivity].
    now rewrite findSince_insert_other.
  - unfold ARoutes.topics. destruct days as [d|]; [|reflexivity].
    destruct (ARoutes.daysBack now d); [|reflexivity].
    now rewrite findSince_insert_other.
  - unfold ARoutes.recommendations. destruct days as [d|]; [|reflexivity].
    destruct (ARoutes.daysBack now d); [|reflexivity].
    now rewrite findSince_insert_other.
Qed.

Lemma reads_ignore_other_tenants_witness :
  let db' := Svc.insertAnalytics Examples.recordOfA Examples.dbWithRecords in
  ARoutes.dashboard Examples.afternoon db' Examples.callerOfB
    (Svc.LastDays (Some 30%Z))
  = ARoutes.dashboard Examples.afternoon Examples.dbWithRecords
      Examples.callerOfB (Svc.LastDays (Some 30%Z))
  /\ ARoutes.userAnalytics Examples.afternoon db' Examples.callerOfB "user"
       (Some Examples.userOfB) (Some 30%Z)
     = ARoutes.userAnalytics Examples.afternoon Examples.dbWithRecords
         Examples.callerOfB "user" (Some Examples.userOfB) (Some 30%Z)
  /\ ARoutes.topics Examples.afternoon db' Examples.callerOfB (Some 30%Z)
     = ARoutes.topics Examples.afternoon Examples.dbWithRecords
         Examples.callerOfB (Some 30%Z)
  /\ ARoutes.recommendations Examples.afternoon db' Examples.callerOfB
       (Some 30%Z)
     = ARoutes.recommendations Examples.afternoon Examples.dbWithRecords
         Examples.callerOfB (Some 30%Z).
Proof.
  apply (reads_ignore_other_tenants Examples.afternoon Examples.dbWithRecords
           Examples.callerOfB Examples.recordOfA).
  discriminate.
Defined.

(** X2.  When the dashboard query answers, the conversations it counts
    are the tenant's stored records that fall in the window, and the
    series it returns has one point for each of them, from the newest
    date to the oldest. *)
Theorem dashboard_counts_the_window (now : Date) (db : Db)
    (tenantId : ObjectId) (timeRange : Svc.TimeRange) (d : Svc.Dashboard) :
  Svc.getDashboardAnalytics now db tenantId timeRange = Some d ->
  let matching :=
    filter
      (fun a => (CA.tenantId a =? tenantId)%N
                && Spec.inWindow now timeRange (CA.date a))
      (conversationAnalytics db) in
  Svc.totalConversations (Svc.overview d) = Svc.ofNat (List.length matching)
  /\ List.length (Svc.timeRange d) = List.length matching
  /\ More.descending (fun p => getTime (Svc.pointDate p)) (Svc.timeRange d).
Proof.
  intros H matching.
  assert (Hd : exists from to,
            d = Svc.aggregateAnalytics (Svc.findByTenant tenantId from to db)
            /\ List.length (Svc.findByTenant tenantId from to db)
               = List.length matching).
  { unfold Svc.getDashboardAnalytics in H.
    destruct timeRange as [[days|]|s e]; try discriminate H.
    - destruct (timeClip _) as [from|] eqn:Hfrom; [|discriminate H].
      apply timeClip_Some in Hfrom. subst from.
      injection H as <-. eexists; eexists; (split; [reflexivity|]).
      unfold Svc.findByTenant; rewrite sortDesc_length; subst matching;
        f_equal; apply filter_ext; intros a; simpl;
        now rewrite <- andb_assoc; try rewrite andb_true_r.
    - destruct (timeClip (getTime s)) as [from|] eqn:Hfrom;
        [|discriminate H].
      destruct (timeClip (getTime e)) as [to|] eqn:Hto; [|discriminate H].
      apply timeClip_Some in Hfrom, Hto. subst from to.
      injection H as <-. eexists; eexists; (split; [reflexivity|]).
      unfold Svc.findByTenant; rewrite sortDesc_length; subst matching;
        f_equal; apply filter_ext; intros a; simpl;
        now rewrite <- andb_assoc; try rewrite andb_true_r. }
  destruct Hd as (from & to & -> & Hlen).
  destruct (Svc.findByTenant tenantId from to db) as [|a l] eqn:E.
  - simpl in Hlen. rewrite <- Hlen. repeat split. constructor.
  - rewrite <- Hlen, <- E.
    assert (Hagg : forall x xs,
              Svc.findByTenant tenantId from to db = x :: xs ->
              Svc.totalConversations
                (Svc.overview
                   (Svc.aggregateAnalytics
                      (Svc.findByTenant tenantId from to db)))
              = Svc.ofNat
                  (List.length (Svc.findByTenant tenantId from to db))
              /\ Svc.timeRange
                   (Svc.aggregateAnalytics
                      (Svc.findByTenant tenantId from to db))
                 = map (fun a =>
                          {| Svc.pointDate := CA.date a;
                             Svc.wellBeing := CA.wellBeingScore (CA.metrics a);
                             Svc.stress := CA.stressLevel (CA.metrics a);
                             Svc.satisfaction :=
                               CA.satisfactionLevel (CA.metrics a) |})
                     (Svc.findByTenant tenantId from to db)).
    { intros x xs ->. split; reflexivity. }
    destruct (Hagg a l E) as [Ht Hs]. rewrite Ht, Hs, length_map.
    repeat split.
    apply descending_map. simpl. unfold Svc.findByTenant.
    apply sortDesc_descending.
Qed.

Lemma dashboard_counts_the_window_witness :
  exists d,
    Svc.getDashboardAnalytics Examples.afternoon Examples.dbWithRecords
      Examples.tenantB (Svc.LastDays (Some 30%Z)) = Some d
    /\ Svc.totalConversations (Svc.overview d) = Svc.ofNat 1
    /\ List.length (Svc.timeRange d) = 1%nat.
Proof.
  eexists. split; [reflexivity|].
  destruct (dashboard_counts_the_window Examples.afternoon
              Examples.dbWithRecords Examples.tenantB
              (Svc.LastDays (Some 30%Z)) _ eq_refl) as (Ht & Hl & _).
  split; [exact Ht | exact Hl].
Defined.

(** ** The rankings and counts of the rollup *)

(** The first [k] of a counter sorted by count. *)
Lemma ranking_shape (k : nat) (counts : list (string * Z)) :
  NoDup (map fst counts) ->
  let top := firstn k (sortDesc snd counts) in
  (List.length top <= k)%nat
  /\ NoDup (map fst top)
  /\ More.descending snd top
  /\ forall name, In name (map fst top) -> In name (map fst counts).
Proof.
  intros Hnd top. subst top. repeat split.
  - apply firstn_le_length.
  - rewrite <- firstn_map. apply NoDup_firstn.
    eapply Permutation_NoDup; [|exact Hnd].
    symmetry. apply Permutation_map, sortDesc_perm.
  - apply descending_firstn, sortDesc_descending.
  - intros name H. rewrite <- firstn_map in H. apply firstn_In in H.
    eapply Permutation_in; [|exact H].
    apply Permutation_map, sortDesc_perm.
Qed.

(** X3.  When the topics and the dominant emotions of the records have
    plain names, the top topics and the emotional trends of the rollup are
    each at most five entries, with no name twice, listed from the most
    frequent down, and every name listed is a topic (a dominant emotion)
    of one of the records. *)
Theorem rollup_rankings (analytics : list CA.t) :
  let topics := Svc.calculateTopTopics analytics in
  let emotions := Svc.calculateEmotionalTrends analytics in
  More.plainNames (map CA.topic (flat_map CA.topics analytics)) ->
  More.plainNames
    (map CA.name
       (flat_map (fun a => CA.dominantEmotions (CA.emotionalInsights a))
          analytics)) ->
  ((List.length topics <= 5)%nat
   /\ NoDup (map fst topics)
   /\ More.descending snd topics
   /\ forall name, In name (map fst topics) ->
        exists a t, In a analytics /\ In t (CA.topics a) /\ CA.topic t = name)
  /\ ((List.length emotions <= 5)%nat
      /\ NoDup (map fst emotions)
      /\ More.descending snd emotions
      /\ forall name, In name (map fst emotions) ->
           exists a e,
             In a analytics
             /\ In e (CA.dominantEmotions (CA.emotionalInsights a))
             /\ CA.name e = name).
Proof.
  cbv zeta. intros _ _.
  unfold Svc.calculateTopTopics, Svc.calculateEmotionalTrends.
  rewrite !fold_left_flat_map.
  split.
  - destruct (ranking_shape 5
                (fold_left (fun topics t => bump (CA.topic t) (CA.frequency t) topics)
                   (flat_map CA.topics analytics) []))
      as (Hlen & Hnd & Hdesc & Hin).
    { apply fold_bump_NoDup. constructor. }
    repeat split; try assumption.
    intros name H. apply Hin, fold_bump_keys in H.
    destruct H as [H|[]]. apply in_map_iff in H as [t [<- Ht]].
    apply in_flat_map in Ht as [a [Ha Ht]]. eauto.
  - destruct (ranking_shape 5
                (fold_left
                   (fun emotions e => bump (CA.name e) (CA.occurrences e) emotions)
                   (flat_map
                      (fun a => CA.dominantEmotions (CA.emotionalInsights a))
                      analytics) []))
      as (Hlen & Hnd & Hdesc & Hin).
    { apply fold_bump_NoDup. constructor. }
    repeat split; try assumption.
    intros name H. apply Hin, fold_bump_keys in H.
    destruct H as [H|[]]. apply in_map_iff in H as [e [<- He]].
    apply in_flat_map in He as [a [Ha He]]. eauto.
Qed.

Lemma rollup_rankings_witness :
  let analytics := [Examples.recordOfB; Examples.recordOfA] in
  let topics := Svc.calculateTopTopics analytics in
  let emotions := Svc.calculateEmotionalTrends analytics in
  ((List.length topics <= 5)%nat
   /\ NoDup (map fst topics)
   /\ More.descending snd topics
   /\ forall name, In name (map fst topics) ->
        exists a t, In a analytics /\ In t (CA.topics a) /\ CA.topic t = name)
  /\ ((List.length emotions <= 5)%nat
      /\ NoDup (map fst emotions)
      /\ More.descending snd emotions
      /\ forall name, In name (map fst emotions) ->
           exists a e,
             In a analytics
             /\ In e (CA.dominantEmotions (CA.emotionalInsights a))
             /\ CA.name e = name).
Proof.
  apply (rollup_rankings [Examples.recordOfB; Examples.recordOfA]);
    intros name Hname; vm_compute in Hname;
    repeat (destruct Hname as [<-|Hname]; [reflexivity|]);
    destruct Hname.
Defined.

Lemma totalOf_ones {A} (l : list A) :
  More.totalOf (map (fun _ => 1%Z) l) = Z.of_nat (List.length l).
Proof.
  unfold More.totalOf. induction l as [|x l IH]; [reflexivity|].
  cbn [map fold_right List.length]. rewrite IH, Nat2Z.inj_succ. lia.
Qed.

(** X4.  The counts of the aggregated recommendations add up to the
    number of recommendations the records hold: none is lost and none is
    counted twice. *)
Theorem aggregateRecommendations_total (analytics : list CA.t) :
  More.totalOf (map Svc.count (Svc.aggregateRecommendations analytics))
  = Z.of_nat (List.length (flat_map CA.recommendations analytics)).
Proof.
  unfold Svc.aggregateRecommendations. rewrite fold_left_flat_map.
  rewrite (totalOf_perm _ _
             (Permutation_map Svc.count (sortDesc_perm Svc.count _))).
  rewrite map_map. simpl.
  change (fun x : string * Z => snd x) with (@snd string Z).
  rewrite (fold_bump_total
             (fun rec => (CA.type rec ++ "-" ++ CA.priority rec)%string)
             (fun _ => 1%Z)).
  rewrite totalOf_ones. unfold More.totalOf. simpl. lia.
Qed.

(** Splitting at the dash undoes the joining, for texts without a dash. *)
Lemma split_dashFree (s : string) :
  More.dashFree s = true -> Svc.split "-"%char s = [s].
Proof.
  induction s as [|c s IH]; simpl; [reflexivity|].
  intros H. apply andb_prop in H as [Hc Hs]. rewrite (IH Hs).
  apply negb_true_iff in Hc. now rewrite Hc.
Qed.

Lemma split_joined (t p : string) :
  More.dashFree t = true -> More.dashFree p = true ->
  Svc.split "-"%char (t ++ String "-"%char p)%string = [t; p].
Proof.
  intros Ht Hp. induction t as [|c t IH]; simpl.
  - now rewrite (split_dashFree p Hp).
  - simpl in Ht. apply andb_prop in Ht as [Hc Ht]. rewrite (IH Ht).
    apply negb_true_iff in Hc. now rewrite Hc.
Qed.

(** X5.  When no type and no priority of the recommendations holds a
    dash, every entry of the aggregate gives back the type and the
    priority of a recommendation of the records. *)
Theorem aggregateRecommendations_round_trip (analytics : list CA.t)
    (entry : Svc.RecommendationCount) :
  (forall a rec, In a analytics -> In rec (CA.recommendations a) ->
     More.dashFree (CA.type rec) = true
     /\ More.dashFree (CA.priority rec) = true) ->
  In entry (Svc.aggregateRecommendations analytics) ->
  exists a rec,
    In a analytics /\ In rec (CA.recommendations a)
    /\ Svc.countedType entry = CA.type rec
    /\ Svc.countedPriority entry = Some (CA.priority rec).
Proof.
  intros Hfree Hin. unfold Svc.aggregateRecommendations in Hin.
  rewrite fold_left_flat_map in Hin.
  apply In_sortDesc in Hin. apply in_map_iff in Hin as [[key n] [<- Hin]].
  assert (Hkey : In key
                   (map fst
                      (fold_left
                         (fun counts rec =>
                            bump (CA.type rec ++ "-" ++ CA.priority rec)%string 1
                              counts)
                         (flat_map CA.recommendations analytics) [])))
    by (apply in_map_iff; exists (key, n); auto).
  apply (fold_bump_keys
           (fun rec => (CA.type rec ++ "-" ++ CA.priority rec)%string)
           (fun _ => 1%Z)) in Hkey.
  destruct Hkey as [Hkey|[]].
  apply in_map_iff in Hkey as [rec [<- Hrec]].
  apply in_flat_map in Hrec as [a [Ha Hrec]].
  destruct (Hfree a rec Ha Hrec) as [Ht Hp].
  exists a, rec. cbn [fst snd Svc.countedType Svc.countedPriority].
  change (CA.type rec ++ "-" ++ CA.priority rec)%string
    with (CA.type rec ++ String "-"%char (CA.priority rec))%string.
  rewrite (split_joined _ _ Ht Hp). auto.
Qed.

Lemma aggregateRecommendations_round_trip_witness :
  exists a rec,
    In a [Examples.recordOfB] /\ In rec (CA.recommendations a)
    /\ "emotional_support" = CA.type rec
    /\ Some "high" = Some (CA.priority rec).
Proof.
  apply (aggregateRecommendations_round_trip [Examples.recordOfB]
           {| Svc.countedType := "emotional_support";
              Svc.countedPriority := Some "high";
              Svc.count := 1 |}).
  - intros a rec [<-|[]] Hrec. vm_compute in Hrec.
    destruct Hrec as [<-|[<-|[]]]; split; reflexivity.
  - vm_compute. now left.
Defined.

(** The running total of values that lie between two bounds. *)
Lemma fold_add_within {A} (f : A -> number) (lo hi : Q) (l : list A)
    (acc : Q) :
  (forall a, In a l -> Spec.within lo hi (f a)) ->
  exists s,
    fold_left (fun acc curr => add acc (f curr)) l (Fin acc) = Fin s
    /\ acc + inject_Z (Z.of_nat (List.length l)) * lo <= s
    /\ s <= acc + inject_Z (Z.of_nat (List.length l)) * hi.
Proof.
  revert acc. induction l as [|x l IH]; intros acc H.
  - exists acc. simpl. split; [reflexivity|].
    change (inject_Z 0) with 0. split; lra.
  - assert (Hx := H x (or_introl eq_refl)).
    destruct (f x) as [| |q|] eqn:E; simpl in Hx; try contradiction.
    destruct (IH (acc + q)) as (s & Hs & Hlo & Hhi).
    { intros a Ha. apply H. now right. }
    exists s. cbn [fold_left]. rewrite E. cbn [add]. split; [exact Hs|].
    cbn [List.length]. rewrite Nat2Z.inj_succ. unfold Z.succ.
    rewrite inject_Z_plus. change (inject_Z 1) with 1.
    set (n := inject_Z (Z.of_nat (List.length l))) in *.
    split; lra.
Qed.

Lemma mean_within {A} (f : A -> number) (lo hi : Q) (l : list A) :
  l <> [] ->
  (forall a, In a l -> Spec.within lo hi (f a)) ->
  Spec.within lo hi
    (divn (fold_left (fun acc curr => add acc (f curr)) l (int 0))
       (List.length l)).
Proof.
  intros Hne H.
  destruct (fold_add_within f lo hi l 0 H) as (s & Hs & Hlo & Hhi).
  change (int 0) with (Fin 0). rewrite Hs.
  destruct l as [|x l]; [congruence|].
  set (n := List.length (x :: l)) in *.
  assert (Hn : 0 < inject_Z (Z.of_nat n)).
  { change 0 with (inject_Z 0). rewrite <- Zlt_Qlt. subst n. simpl. lia. }
  assert (Hdiv : divn (Fin s) n = Fin (s / inject_Z (Z.of_nat n)))
    by (subst n; reflexivity).
  rewrite Hdiv. cbn [Spec.within].
  set (q := inject_Z (Z.of_nat n)) in *. split.
  - apply Qle_shift_div_l; [assumption|]. rewrite (Qmult_comm lo). lra.
  - apply Qle_shift_div_r; [assumption|]. rewrite (Qmult_comm hi). lra.
Qed.

(** X6.  When there are records and the well-being, stress, satisfaction
    and engagement of each lie between two whole-number bounds of the
    scale, so do the four averages of the rollup.  (Between whole-number
    bounds the running totals and the quotient stay within the bounds
    also when each is rounded to a double.) *)
Theorem rollup_averages_within (analytics : list CA.t) (lo hi : Z) :
  analytics <> [] ->
  (-10 <= lo)%Z -> (hi <= 10)%Z ->
  (forall a, In a analytics ->
     Spec.within (inject_Z lo) (inject_Z hi)
       (CA.wellBeingScore (CA.metrics a))
     /\ Spec.within (inject_Z lo) (inject_Z hi)
          (CA.stressLevel (CA.metrics a))
     /\ Spec.within (inject_Z lo) (inject_Z hi)
          (CA.satisfactionLevel (CA.metrics a))
     /\ Spec.within (inject_Z lo) (inject_Z hi)
          (CA.engagement (CA.qualityMetrics a))) ->
  let overview := Svc.overview (Svc.aggregateAnalytics analytics) in
  Spec.within (inject_Z lo) (inject_Z hi) (Svc.avgWellBeing overview)
  /\ Spec.within (inject_Z lo) (inject_Z hi) (Svc.avgStress overview)
  /\ Spec.within (inject_Z lo) (inject_Z hi) (Svc.avgSatisfaction overview)
  /\ Spec.within (inject_Z lo) (inject_Z hi) (Svc.avgEngagement overview).
Proof.
  intros Hne _ _ H overview. subst overview.
  destruct analytics as [|a l] eqn:E; [congruence|]. rewrite <- E in *.
  assert (Hagg : Svc.overview (Svc.aggregateAnalytics analytics)
                 = {| Svc.totalConversations :=
                        Svc.ofNat (List.length analytics);
                      Svc.avgWellBeing :=
                        Svc.meanWellBeingScore
                          (Svc.calculateAverageMetrics analytics);
                      Svc.avgStress :=
                        Svc.meanStressLevel
                          (Svc.calculateAverageMetrics analytics);
                      Svc.avgSatisfaction :=
                        Svc.meanSatisfactionLevel
                          (Svc.calculateAverageMetrics analytics);
                      Svc.avgEngagement :=
                        Svc.meanEngagement
                          (Svc.calculateAverageMetrics analytics) |})
    by (rewrite E; reflexivity).
  rewrite Hagg. cbn [Svc.avgWellBeing Svc.avgStress Svc.avgSatisfaction
                     Svc.avgEngagement].
  unfold Svc.calculateAverageMetrics.
  cbn [Svc.meanWellBeingScore Svc.meanStressLevel Svc.meanSatisfactionLevel
       Svc.meanEngagement].
  repeat split; apply mean_within; try assumption;
    intros x Hx; apply (H x Hx).
Qed.

Lemma rollup_averages_within_witness :
  let overview :=
    Svc.overview (Svc.aggregateAnalytics
                    [Examples.recordOfB; Examples.recordOfA]) in
  Spec.within (inject_Z 1) (inject_Z 10) (Svc.avgWellBeing overview)
  /\ Spec.within (inject_Z 1) (inject_Z 10) (Svc.avgStress overview)
  /\ Spec.within (inject_Z 1) (inject_Z 10) (Svc.avgSatisfaction overview)
  /\ Spec.within (inject_Z 1) (inject_Z 10) (Svc.avgEngagement overview).
Proof.
  apply (rollup_averages_within [Examples.recordOfB; Examples.recordOfA]
           1 10).
  - discriminate.
  - lia.
  - lia.
  - intros a [<-|[<-|[]]]; vm_compute; intuition discriminate.
Defined.

(** ** The per-conversation pipeline *)

Lemma findById_insertAnalytics (conversationId : ObjectId) (r : CA.t)
    (db : Db) :
  Svc.findById conversationId (Svc.insertAnalytics r db)
  = Svc.findById conversationId db.
Proof. reflexivity. Qed.

(** The contextual block of a record is always one the schema takes. *)
Lemma validContextualAnalysis_always (now : Date) (c : EC.t) :
  CA.validContextualAnalysis (Svc.analyzeContextualFactors now c) = true.
Proof. reflexivity. Qed.

Lemma wellBeingOr5_number (c : EC.t) : CA.isNumber (Svc.wellBeingOr5 c) = true.
Proof.
  unfold Svc.wellBeingOr5, Svc.fieldOr. destruct (EC.overallEmotion c) as [o|];
    [|reflexivity].
  unfold number_or. destruct (EC.wellBeingScore o) as [| |q|]; try reflexivity.
  simpl. destruct (negb (Qeq_bool q 0)); reflexivity.
Qed.

(** When the history block computed at one moment passes the schema, so
    does the one computed at any other moment: the clock decides only
    which conversations are recent. *)
Lemma validHistoricalAnalysis_clock (now now' : Date) (db : Db)
    (userId tenantId : ObjectId) (d : Svc.ConversationData) :
  isDate (getTime now - 90 * Svc.msPerDay) = true ->
  CA.validHistoricalAnalysis
    (Svc.analyzeHistoricalContext now db userId tenantId d) = true ->
  CA.validHistoricalAnalysis
    (Svc.analyzeHistoricalContext now' db userId tenantId d) = true.
Proof.
  unfold Svc.analyzeHistoricalContext, isDate.
  destruct (timeClip (getTime now - 90 * Svc.msPerDay)) as [since|];
    [|discriminate].
  intros _ H.
  destruct (timeClip (getTime now' - 90 * Svc.msPerDay)) as [since'|];
    [|reflexivity].
  unfold tryCatch, CA.validHistoricalAnalysis in *.
  cbn [CA.previousMood CA.progressIndicators CA.baselineComparison
       CA.trendAnalysis] in *.
  repeat (apply andb_prop in H as [H ?]).
  repeat (apply andb_true_intro; split); try assumption.
  unfold Svc.calculatePreviousMood.
  destruct (Svc.findRecentConversations _ _ since' _);
    [reflexivity|apply wellBeingOr5_number].
Qed.

Lemma analyzeHistoricalContext_insertAnalytics (now : Date) (r : CA.t)
    (db : Db) (userId tenantId : ObjectId) (d : Svc.ConversationData) :
  Svc.analyzeHistoricalContext now (Svc.insertAnalytics r db) userId tenantId d
  = Svc.analyzeHistoricalContext now db userId tenantId d.
Proof. reflexivity. Qed.

(** X7.  A call of [analyzeConversation] that returns has added its one
    record, filed under the tenant, user and conversation it was given, at
    the end of the analytics collection and has left the other
    collections alone; nothing keeps a later call for the same
    conversation, which meets the same replies and finds the database
    willing, from returning as well, which leaves two records for that
    conversation.  (The clocks are such that 90 days back and 7 days
    ahead are dates.) *)
Theorem analyzeConversation_adds_a_record_each_time (casts : CA.Casts)
    (w w' : Svc.World) (db db' : Db)
    (conversationId tenantId userId : ObjectId) (r : CA.t) :
  Svc.analyzeConversation casts w db conversationId tenantId userId
    = Svc.Returned (r, db') ->
  isDate (getTime (Svc.now w) - 90 * Svc.msPerDay) = true ->
  isDate (getTime (Svc.now w')) = true ->
  isDate (getTime (Svc.now w') + 7 * Svc.msPerDay) = true ->
  Svc.insightsReply w' = Svc.insightsReply w ->
  Svc.predictiveReply w' = Svc.predictiveReply w ->
  Svc.saveAccepted w' = true ->
  (conversationAnalytics db' = conversationAnalytics db ++ [r]
   /\ conversations db' = conversations db
   /\ emotionAnalytics db' = emotionAnalytics db
   /\ userProfiles db' = userProfiles db
   /\ CA.tenantId r = tenantId /\ CA.userId r = userId
   /\ CA.conversationId r = conversationId)
  /\ exists r',
       Svc.analyzeConversation casts w' db' conversationId tenantId userId
         = Svc.Returned (r', Svc.insertAnalytics r' db')
       /\ CA.conversationId r' = conversationId
       /\ conversationAnalytics (Svc.insertAnalytics r' db')
          = conversationAnalytics db ++ [r; r'].
Proof.
  unfold Svc.analyzeConversation at 1.
  destruct (Svc.findById conversationId db) as [c|] eqn:Hfind;
    [|discriminate].
  destruct (Svc.calculateQualityMetrics _ _) as [qm|] eqn:Hqm; [|discriminate].
  match goal with
  | |- context [if ?b then _ else Svc.Thrown Svc.ValidationError] =>
      destruct b eqn:Hvalid; [|discriminate]
  end.
  destruct (Svc.saveAccepted w); [|discriminate].
  intros H Hback Hnow Hahead Hreply Hpredictive Hsave. injection H as <- <-.
  split; [repeat split|].
  unfold Svc.analyzeConversation.
  rewrite findById_insertAnalytics, Hfind, Hreply, Hqm, Hpredictive, Hsave.
  apply andb_prop in Hvalid as [Hvalid Hprovided].
  match goal with
  | |- context [if ?b then _ else Svc.Thrown Svc.ValidationError] =>
      assert (Hb : b = true)
  end.
  { apply andb_true_intro. split; [|exact Hprovided].
    unfold CA.valid in *.
    cbn [CA.date CA.metrics CA.emotionalInsights CA.topics CA.qualityMetrics
         CA.recommendations CA.contextualAnalysis CA.historicalAnalysis
         CA.actionTracking] in *.
    apply andb_prop in Hvalid as [Hvalid Haction].
    apply andb_prop in Hvalid as [Hvalid Hhistory].
    apply andb_prop in Hvalid as [Hvalid _].
    apply andb_prop in Hvalid as [Hvalid Hrecs].
    apply andb_prop in Hvalid as [Hvalid Hquality].
    apply andb_prop in Hvalid as [Hvalid Htopics].
    apply andb_prop in Hvalid as [Hvalid Hinsights].
    apply andb_prop in Hvalid as [_ Hmetrics].
    rewrite Hnow, Hmetrics, Hinsights, Htopics, Hquality, Hrecs.
    rewrite validContextualAnalysis_always.
    rewrite analyzeHistoricalContext_insertAnalytics.
    rewrite (validHistoricalAnalysis_clock (Svc.now w) (Svc.now w') db
               userId tenantId _ Hback Hhistory).
    unfold CA.validActionTracking, Svc.initializeActionTracking.
    cbn [CA.recommendationsGiven CA.followUpDate].
    destruct (Svc.generateRecommendations _ _); [|discriminate Hrecs].
    exact Hahead. }
  rewrite Hb. eexists. split; [reflexivity|]. split; [reflexivity|].
  simpl. now rewrite <- app_assoc.
Qed.

Lemma analyzeConversation_adds_a_record_each_time_witness :
  exists r r',
    Svc.analyzeConversation Examples.typedCasts Examples.providerDown
      Examples.dbCalm 5%N Examples.tenantB Examples.userOfB
      = Svc.Returned (r, Svc.insertAnalytics r Examples.dbCalm)
    /\ Svc.analyzeConversation Examples.typedCasts Examples.secondRun
         (Svc.insertAnalytics r Examples.dbCalm) 5%N Examples.tenantB
         Examples.userOfB
       = Svc.Returned
           (r', Svc.insertAnalytics r' (Svc.insertAnalytics r Examples.dbCalm))
    /\ CA.conversationId r = 5%N /\ CA.conversationId r' = 5%N.
Proof.
  eexists.
  destruct (analyzeConversation_adds_a_record_each_time Examples.typedCasts
              Examples.providerDown Examples.secondRun Examples.dbCalm _ 5%N
              Examples.tenantB Examples.userOfB _ eq_refl eq_refl eq_refl
              eq_refl eq_refl eq_refl eq_refl)
    as [(_ & _ & _ & _ & _ & _ & Hid) (r' & Hcall & Hid' & _)].
  exists r'. split; [reflexivity|]. split; [exact Hcall|].
  split; [exact Hid | exact Hid'].
Defined.

(** X8.  No record [analyzeConversation] returns carries a recommendation
    or asks for a follow-up: whenever the conversation's stress level is
    above 7 or its well-being score below 4, a recommendation is made,
    [save()] refuses the record and the call ends in the validation error;
    in a record that is returned no rule has fired, no recommendation is
    given, and the follow-up date is seven days after the analysis. *)
Theorem no_record_when_a_rule_fired (casts : CA.Casts) (w : Svc.World)
    (db : Db) (conversationId tenantId userId : ObjectId) (c : EC.t) :
  Svc.findById conversationId db = Some c ->
  ((Svc.fieldGt (EC.overallEmotion c) EC.stressLevel (int 7)
    || Svc.fieldLt (EC.overallEmotion c) EC.wellBeingScore (int 4)) = true ->
   (forall v, Svc.insightsReply w = Parsed v -> Spec.nullish v = false) ->
   Svc.analyzeConversation casts w db conversationId tenantId userId
   = Svc.Thrown Svc.ValidationError)
  /\ forall r db',
       Svc.analyzeConversation casts w db conversationId tenantId userId
       = Svc.Returned (r, db') ->
       Svc.fieldGt (EC.overallEmotion c) EC.stressLevel (int 7) = false
       /\ Svc.fieldLt (EC.overallEmotion c) EC.wellBeingScore (int 4) = false
       /\ CA.recommendations r = []
       /\ CA.recommendationsGiven (CA.actionTracking r) = []
       /\ CA.followUpRequired (CA.actionTracking r) = false
       /\ CA.followUpDate (CA.actionTracking r)
          = (getTime (Svc.now w) + 7 * 86400000)%Z.
Proof.
  intros Hfind. split.
  - intros Hrule Hreply.
    apply (analyzeConversation_refuses_recommendations casts w db
             conversationId tenantId userId c Hfind).
    + apply generateAIInsights_not_nullish, Hreply.
    + unfold Svc.generateRecommendations.
      change (Svc.overallEmotion (Svc.extractConversationData c))
        with (EC.overallEmotion c).
      destruct (Svc.fieldGt _ _ _); [discriminate|].
      destruct (Svc.fieldLt _ _ _); [discriminate|].
      discriminate Hrule.
  - intros r db' H.
    destruct (analyzeConversation_returned _ _ _ _ _ _ _ _ H)
      as (c' & Hfind' & _ & Hvalid & _ & _ & _ & Hrecs & Haction & _).
    rewrite Hfind in Hfind'. injection Hfind' as <-.
    destruct (valid_without_recommendations r Hvalid) as [Hnone Hgiven].
    rewrite Hnone in Hrecs, Haction.
    unfold Svc.generateRecommendations in Hrecs.
    change (Svc.overallEmotion (Svc.extractConversationData c))
      with (EC.overallEmotion c) in Hrecs.
    rewrite Haction.
    destruct (Svc.fieldGt _ _ _); [discriminate Hrecs|].
    destruct (Svc.fieldLt _ _ _); [discriminate Hrecs|].
    repeat split; assumption.
Qed.

Lemma no_record_when_a_rule_fired_witness :
  (Svc.analyzeConversation Examples.typedCasts Examples.providerDown
     Examples.dbOfB 1%N Examples.tenantB Examples.userOfB
   = Svc.Thrown Svc.ValidationError)
  /\ exists r db',
       Svc.analyzeConversation Examples.typedCasts Examples.providerDown
         Examples.dbCalm 5%N Examples.tenantB Examples.userOfB
       = Svc.Returned (r, db')
       /\ CA.recommendations r = []
       /\ CA.followUpRequired (CA.actionTracking r) = false.
Proof.
  split.
  - apply (no_record_when_a_rule_fired Examples.typedCasts
             Examples.providerDown Examples.dbOfB 1%N Examples.tenantB
             Examples.userOfB Examples.stressedWorker eq_refl);
      [reflexivity | discriminate].
  - eexists. eexists. split; [vm_compute; reflexivity|].
    destruct (no_record_when_a_rule_fired Examples.typedCasts
                Examples.providerDown Examples.dbCalm 5%N Examples.tenantB
                Examples.userOfB Examples.calmWorker eq_refl) as [_ H].
    match goal with
    | |- CA.recommendations ?r = [] /\ _ =>
        destruct (H r _ eq_refl) as (_ & _ & Hrecs & _ & Hfollow & _)
    end.
    split; assumption.
Defined.

(** ** Scores the service computes itself *)

(** [Math.min(hi, Math.max(lo, n))] lies between the bounds unless [n] is
    NaN. *)
Lemma min_max_within (lo hi : Q) (n : number) :
  lo <= hi -> n <> NaN ->
  Spec.within lo hi (min (Fin hi) (max (Fin lo) n)).
Proof.
  intros Hle Hn. destruct n as [| |q|]; [congruence| | |].
  - (* -Infinity *)
    unfold max. change (ltb (Fin lo) NegInf) with false. cbv iota.
    unfold min. destruct (ltb (Fin lo) (Fin hi)) eqn:E; simpl; lra.
  - (* a rational *)
    unfold max. destruct (ltb (Fin lo) (Fin q)) eqn:E1.
    + apply ltb_Fin in E1. unfold min.
      destruct (ltb (Fin q) (Fin hi)) eqn:E2.
      * apply ltb_Fin in E2. simpl. lra.
      * apply ltb_Fin_false in E2. simpl. lra.
    + apply ltb_Fin_false in E1. unfold min.
      destruct (ltb (Fin lo) (Fin hi)) eqn:E2; simpl; lra.
  - (* +Infinity *) simpl. split; lra.
Qed.

(** The mean of lengths and of counts is a rational that is not
    negative. *)
Lemma fold_add_counts (l : list nat) (acc : Q) :
  0 <= acc ->
  exists s, fold_left add (map Svc.ofNat l) (Fin acc) = Fin s /\ 0 <= s.
Proof.
  revert acc. induction l as [|n l IH]; intros acc H; simpl.
  - eauto.
  - apply IH.
    assert (0 <= inject_Z (Z.of_nat n))
      by (change 0 with (inject_Z 0); rewrite <- Zle_Qle; lia).
    lra.
Qed.

Lemma average_counts (l : list nat) :
  exists q, average (map Svc.ofNat l) (int 0) = Fin q /\ 0 <= q.
Proof.
  destruct l as [|n l]; [exists 0; split; [reflexivity | lra]|].
  destruct (fold_add_counts (n :: l) 0) as (s & Hs & Hpos); [lra|].
  assert (Havg : average (map Svc.ofNat (n :: l)) (int 0)
                 = divn (sum (map Svc.ofNat (n :: l)))
                     (List.length (map Svc.ofNat (n :: l))))
    by reflexivity.
  rewrite Havg, length_map. unfold sum.
  change (int 0) with (Fin 0). rewrite Hs.
  set (k := List.length (n :: l)).
  assert (Hk : 0 < inject_Z (Z.of_nat k)).
  { change 0 with (inject_Z 0). rewrite <- Zlt_Qlt. subst k. simpl. lia. }
  exists (s / inject_Z (Z.of_nat k)). split; [reflexivity|].
  apply Qle_shift_div_l; [assumption|]. lra.
Qed.

Lemma Some_eq {A} (a b : A) : Some a = Some b -> a = b.
Proof. congruence. Qed.

(** X9.  Whenever [calculateQualityMetrics] returns, the engagement and
    the openness it gives are between 1 and 10 and the trust is 7, whatever
    the messages are. *)
Theorem calculateQualityMetrics_within (d : Svc.ConversationData) (ai : value)
    (qm : CA.QualityMetrics) :
  Svc.calculateQualityMetrics d ai = Some qm ->
  Spec.within 1 10 (CA.engagement qm)
  /\ Spec.within 1 10 (CA.openness qm)
  /\ CA.trust qm = int 7.
Proof.
  unfold Svc.calculateQualityMetrics.
  destruct (get ai "aiPerformance"); [|discriminate].
  intros H. apply Some_eq in H. subst qm.
  cbv beta iota delta [CA.engagement CA.openness CA.trust].
  split; [|split; [|reflexivity]].
  - rewrite <- map_map with (f := fun m => String.length (Svc.content m))
                           (g := Svc.ofNat).
    destruct (average_counts
                (map (fun m => String.length (Svc.content m))
                   (filter (fun m => Svc.isUser (Svc.sender m))
                      (Svc.messages d)))) as (q & -> & _).
    apply (min_max_within 1 10 (divn (Fin q) 10)); [lra | discriminate].
  - match goal with
    | |- Spec.within _ _ (min _ (max _ ?n)) =>
        apply (min_max_within 1 10 n); [lra | discriminate]
    end.
Qed.

Lemma calculateQualityMetrics_within_witness :
  exists qm,
    Svc.calculateQualityMetrics
      (Svc.extractConversationData Examples.stressedWorker)
      Svc.getDefaultInsights = Some qm
    /\ Spec.within 1 10 (CA.engagement qm)
    /\ Spec.within 1 10 (CA.openness qm)
    /\ CA.trust qm = int 7.
Proof.
  eexists. split; [reflexivity|].
  apply (calculateQualityMetrics_within
           (Svc.extractConversationData Examples.stressedWorker)
           Svc.getDefaultInsights).
  reflexivity.
Defined.

Lemma extracted_messages (qs : list EC.Question) :
  let messages :=
    flat_map
      (fun question =>
         [ {| Svc.sender := Svc.ai;
              Svc.content := EC.questionText question;
              Svc.timestamp := EC.timestamp question;
              Svc.emotionAnalysis := None |};
           {| Svc.sender := Svc.user;
              Svc.content := EC.userResponse question;
              Svc.timestamp := EC.timestamp question;
              Svc.emotionAnalysis := Some (EC.emotionAnalysis question) |} ])
      qs in
  List.length messages = (2 * List.length qs)%nat
  /\ List.length (filter (fun m => Svc.isUser (Svc.sender m)) messages)
     = List.length qs
  /\ List.length (filter (fun m => negb (Svc.isUser (Svc.sender m))) messages)
     = List.length qs
  /\ map Svc.content (filter (fun m => Svc.isUser (Svc.sender m)) messages)
     = map EC.userResponse qs.
Proof.
  cbv zeta. induction qs as [|q qs (IH1 & IH2 & IH3 & IH4)];
    [repeat split|].
  cbn [flat_map app filter Svc.isUser Svc.sender negb List.length map
       Svc.content].
  rewrite IH1, IH2, IH3, IH4. repeat split; lia.
Qed.

Lemma responseTimesAfter_length (prev : EC.Question) (qs : list EC.Question) :
  List.length (Svc.responseTimesAfter prev qs) = List.length qs.
Proof.
  revert prev. induction qs as [|q qs IH]; intros prev; simpl; auto.
Qed.

(** X10.  The data extracted from a conversation of n answers holds 2n
    messages, n of the user carrying the answers in their order and n of
    the AI, and n - 1 response times; the metrics count them so. *)
Theorem extracted_counts (c : EC.t) :
  let n := List.length (EC.questions c) in
  let d := Svc.extractConversationData c in
  let m := Svc.calculateMetrics d in
  CA.totalMessages m = Svc.ofNat (2 * n)
  /\ CA.userMessages m = Svc.ofNat n
  /\ CA.aiMessages m = Svc.ofNat n
  /\ List.length (Svc.responseTimes d) = (n - 1)%nat
  /\ map Svc.content
       (filter (fun m => Svc.isUser (Svc.sender m)) (Svc.messages d))
     = map EC.userResponse (EC.questions c).
Proof.
  cbv zeta.
  destruct (extracted_messages (EC.questions c)) as (H1 & H2 & H3 & H4).
  unfold Svc.calculateMetrics, Svc.extractConversationData.
  cbn [CA.totalMessages CA.userMessages CA.aiMessages Svc.messages
       Svc.responseTimes].
  rewrite H1, H2, H3. repeat split; [|exact H4].
  destruct (EC.questions c) as [|q qs]; [reflexivity|].
  rewrite responseTimesAfter_length. simpl. lia.
Qed.

(** ** The scoring service on replies of any shape *)

Lemma analyzeEmotion_within_on_numbers_witness :
  Spec.scoresWithin
    (AI.analyzeEmotion
       (Parsed (VObj [ ("primaryEmotion", VStr "joy" NaN);
                       ("intensity", VNum (int 42));
                       ("confidence", VNum (int (-3)));
                       ("sentiment", VNull) ]))
       "All good" (str "workplace")).
Proof.
  apply analyzeEmotion_within_on_numbers.
  intros v H. injection H as <-. repeat split.
Defined.

(** X12.  With each of its five scores a number, a boolean, [null] or
    absent in the reply, and on every failure, the summary of a
    conversation has its scores between 1 and 10, whatever the reply's
    other fields hold. *)
Theorem analyzeOverallEmotion_scores_within (reply : completion)
    (allResponses : string) :
  (forall v name, reply = Parsed v ->
     In name ["averageIntensity"; "wellBeingScore"; "stressLevel";
              "energyLevel"; "satisfaction"] ->
     Spec.numeric (getOpt v name) = true) ->
  Spec.summaryWithin (AI.analyzeOverallEmotion reply allResponses).
Proof.
  intros H.
  assert (Hfallback : Spec.summaryWithin AI.overallFallback).
  { unfold Spec.summaryWithin. simpl. repeat split; unfold Qle; simpl; lia. }
  destruct reply as [|s|v]; try exact Hfallback.
  assert (Hk : forall name w,
            In name ["averageIntensity"; "wellBeingScore"; "stressLevel";
                     "energyLevel"; "satisfaction"] ->
            get v name = Some w -> Spec.numeric w = true).
  { intros name w Hin E. specialize (H v name eq_refl Hin).
    unfold getOpt in H. now rewrite E in H. }
  unfold AI.analyzeOverallEmotion.
  destruct (get v "dominantEmotion") as [wd|]; [|exact Hfallback].
  destruct (get v "averageIntensity") as [v1|] eqn:E1; [|exact Hfallback].
  destruct (get v "emotionalState") as [ws|]; [|exact Hfallback].
  destruct (get v "wellBeingScore") as [v2|] eqn:E2; [|exact Hfallback].
  destruct (get v "stressLevel") as [v3|] eqn:E3; [|exact Hfallback].
  destruct (get v "energyLevel") as [v4|] eqn:E4; [|exact Hfallback].
  destruct (get v "satisfaction") as [v5|] eqn:E5; [|exact Hfallback].
  assert (Hc : forall w, Spec.numeric w = true ->
               exists n, AI.clamp (int 1) (int 10) w (VNum (int 5)) = Some n
                         /\ Spec.within 1 10 n).
  { intros w Hw. apply (clamp_within 1 10 5 w); [unfold Qle; simpl; lia|].
    exact Hw. }
  destruct (Hc v1) as [n1 [-> W1]]; [eapply Hk; [|exact E1]; simpl; tauto|].
  destruct (Hc v2) as [n2 [-> W2]]; [eapply Hk; [|exact E2]; simpl; tauto|].
  destruct (Hc v3) as [n3 [-> W3]]; [eapply Hk; [|exact E3]; simpl; tauto|].
  destruct (Hc v4) as [n4 [-> W4]]; [eapply Hk; [|exact E4]; simpl; tauto|].
  destruct (Hc v5) as [n5 [-> W5]]; [eapply Hk; [|exact E5]; simpl; tauto|].
  simpl. unfold Spec.summaryWithin. simpl. tauto.
Qed.

Lemma analyzeOverallEmotion_scores_within_witness :
  Spec.summaryWithin
    (AI.analyzeOverallEmotion
       (Parsed (VObj [ ("dominantEmotion", VStr "joy" NaN);
                       ("wellBeingScore", VNum (int 42));
                       ("stressLevel", VNum (int (-1)));
                       ("energyLevel", VBool true) ]))
       "All good").
Proof.
  apply analyzeOverallEmotion_scores_within.
  intros v name H Hin. injection H as <-.
  simpl in Hin. intuition (subst; reflexivity).
Defined.

Lemma or_truthy (x d : value) : truthy d = true -> truthy (or x d) = true.
Proof.
  intros H. unfold or. destruct (truthy x) eqn:E; assumption.
Qed.

(** X13.  Whatever the provider replies, no text or list of what the
    scoring service returns is missing or empty: the primary and dominant
    emotion and the emotional state are truthy values, and the triggers,
    the needs and the five lists of insights are truthy values, an empty
    array standing in for what the reply leaves out. *)
Theorem scoring_fields_present (reply : completion) (text : string)
    (context : value) :
  let a := AI.analyzeEmotion reply text context in
  let o := AI.analyzeOverallEmotion reply text in
  let i := AI.generateEmotionalInsights reply text in
  (truthy (AI.primaryEmotion a) = true
   /\ truthy (AI.triggers a) = true
   /\ truthy (AI.needs a) = true)
  /\ (truthy (AI.dominantEmotion o) = true
      /\ truthy (AI.emotionalState o) = true)
  /\ (truthy (AI.emotionalPatterns i) = true
      /\ truthy (AI.concerns i) = true
      /\ truthy (AI.positiveFactors i) = true
      /\ truthy (AI.recommendations i) = true
      /\ truthy (AI.keyTopics i) = true).
Proof.
  cbv zeta. split; [|split].
  - unfold AI.analyzeEmotion.
    destruct reply as [|s|v]; try (repeat split; reflexivity).
    destruct (get v "primaryEmotion"); [|repeat split; reflexivity].
    destruct (get v "intensity"); [|repeat split; reflexivity].
    destruct (get v "confidence"); [|repeat split; reflexivity].
    destruct (get v "triggers"); [|repeat split; reflexivity].
    destruct (get v "context"); [|repeat split; reflexivity].
    destruct (get v "needs"); [|repeat split; reflexivity].
    destruct (get v "sentiment"); [|repeat split; reflexivity].
    destruct (AI.clamp _ _ _ _); [|repeat split; reflexivity].
    destruct (AI.clamp _ _ _ _); [|repeat split; reflexivity].
    destruct (AI.clamp _ _ _ _); [|repeat split; reflexivity].
    simpl. repeat split; apply or_truthy; reflexivity.
  - unfold AI.analyzeOverallEmotion.
    destruct reply as [|s|v]; try (repeat split; reflexivity).
    repeat match goal with
           | |- context [match ?x with Some _ => _ | None => _ end] =>
               destruct x; [|repeat split; reflexivity]
           end.
    simpl. repeat split; apply or_truthy; reflexivity.
  - unfold AI.generateEmotionalInsights.
    destruct reply as [|s|v]; try (repeat split; reflexivity).
    repeat match goal with
           | |- context [match ?x with Some _ => _ | None => _ end] =>
               destruct x; [|repeat split; reflexivity]
           end.
    simpl. repeat split; apply or_truthy; reflexivity.
Qed.


(** ** What the writing routes store *)

Lemma replaceFirst_cases {A} (p : A -> bool) (x y : A) (l : list A) :
  In y (Routes.replaceFirst p x l) -> y = x \/ In y l.
Proof.
  induction l as [|z rest IH]; simpl; [tauto|].
  destruct (p z); simpl; intuition.
Qed.


(** What a request does to the collection: nothing, or the first open
    conversation of the caller with that session gives way to a valid
    document with the same identifiers, or a valid document of the caller
    is added at the end. *)
Lemma handle_writes (castString : value -> option string)
    (castStrings : value -> option (list string)) (now : Date)
    (request : Routes.Request) (db : Db) :
  let after :=
    conversations (snd (Routes.handle castString castStrings now request db)) in
  after = conversations db
  \/ (exists sessionId old x,
        find (Routes.inProgressFor (More.callerOf request) sessionId)
          (conversations db) = Some old
        /\ after = Routes.replaceFirst
                     (Routes.inProgressFor (More.callerOf request) sessionId)
                     x (conversations db)
        /\ EC.valid x = true
        /\ EC.tenantId x = EC.tenantId old
        /\ EC.userId x = EC.userId old)
  \/ (exists x,
        after = conversations db ++ [x]
        /\ EC.valid x = true
        /\ More.ownedBy (More.callerOf request) x).
Proof.
  cbv zeta. destruct request as [uuid freshId caller body
                                |reply caller sessionId body
                                |r1 r2 analyticsId caller sessionId]; simpl.
  - unfold Routes.start.
    destruct (Routes.parseConversationType _); [|now left].
    destruct (Routes.isArrayOrAbsent _); [|now left].
    match goal with |- context [if ?b then _ else _] => destruct b eqn:E end;
      [|now left].
    apply andb_prop in E as [E _].
    right. right. eexists. split; [reflexivity|]. split; [exact E|].
    split; reflexivity.
  - unfold Routes.respond.
    match goal with |- context [if ?b then _ else _] => destruct b end;
      [now left|].
    destruct (find _ _) as [old|] eqn:Hfind; [|now left].
    destruct (Routes.castEmotionAnalysis _ _ _); [|now left].
    match goal with |- context [if ?b then _ else _] => destruct b eqn:E end;
      [|now left].
    right. left. exists sessionId, old. eexists.
    split; [exact Hfind|]. split; [reflexivity|]. split; [exact E|].
    split; reflexivity.
  - unfold Routes.complete.
    destruct (find _ _) as [old|] eqn:Hfind; [|now left].
    destruct (Routes.castOverallEmotion _ _); [|now left].
    destruct (Routes.castInsights _ _); [|now left].
    match goal with |- context [if ?b then _ else _] => destruct b eqn:E end;
      [|now left].
    right. left. exists sessionId, old. eexists.
    split; [exact Hfind|].
    split; [match goal with |- context [if ?b then _ else _] => destruct b end;
            reflexivity|].
    split; [exact E|]. split; reflexivity.
Qed.

Lemma between_within (lo hi : Z) (n : number) :
  EC.between lo hi n = true -> Spec.within (inject_Z lo) (inject_Z hi) n.
Proof.
  destruct n as [| |q|]; simpl; try discriminate.
  intros H. apply andb_prop in H as [H1 H2].
  apply Qle_bool_iff in H1, H2. now split.
Qed.

Lemma valid_scoresInBounds (c : EC.t) :
  EC.valid c = true -> More.scoresInBounds c.
Proof.
  unfold EC.valid. intros H.
  apply andb_prop in H as [H Ho]. apply andb_prop in H as [_ Hq].
  split.
  - intros q Hin. rewrite forallb_forall in Hq. specialize (Hq q Hin).
    unfold EC.validQuestion in Hq. apply andb_prop in Hq as [_ Hq].
    unfold EC.validEmotionAnalysis in Hq.
    apply andb_prop in Hq as [Hq H3]. apply andb_prop in Hq as [Hq H2].
    apply andb_prop in Hq as [_ H1].
    split; [exact (between_within 1 10 _ H1)|].
    split; [exact (between_within 0 1 _ H2)|].
    exact (between_within (-1) 1 _ H3).
  - intros o Eo. rewrite Eo in Ho. unfold EC.validOverallEmotion in Ho.
    apply andb_prop in Ho as [Ho H5]. apply andb_prop in Ho as [Ho H4].
    apply andb_prop in Ho as [Ho H3]. apply andb_prop in Ho as [H1 H2].
    split; [exact (between_within 1 10 _ H2)|].
    split; [exact (between_within 1 10 _ H3)|].
    split; [exact (between_within 1 10 _ H4)|].
    split; [exact (between_within 1 10 _ H5)|].
    exact (between_within 1 10 _ H1).
Qed.

(** X15.  Whatever requests are served and whatever the provider replies
    to them, every conversation in the collection passes the schema's
    validators as long as those there at the beginning did: every stored
    intensity, confidence, sentiment and summary score is a number within
    its bounds (a NaN never is), and no session identifier is empty. *)
Theorem stored_conversations_stay_valid
    (castString : value -> option string)
    (castStrings : value -> option (list string))
    (requests : list (Date * Routes.Request)) (db : Db) :
  (forall c, In c (conversations db) -> EC.valid c = true) ->
  forall c,
    In c (conversations (Routes.serve castString castStrings requests db)) ->
    EC.valid c = true /\ More.scoresInBounds c /\ EC.sessionId c <> "".
Proof.
  intros Hdb.
  assert (Hserve : forall c,
            In c (conversations
                    (Routes.serve castString castStrings requests db)) ->
            EC.valid c = true).
  { revert db Hdb.
    induction requests as [|[now request] rest IH]; intros db Hdb c Hin.
    - now apply Hdb.
    - simpl in Hin. apply (IH _) in Hin; [exact Hin|].
      clear c Hin. intros c Hin.
      destruct (handle_writes castString castStrings now request db)
        as [E|[(sid & old & x & _ & E & Hx & _)|(x & E & Hx & _)]];
        rewrite E in Hin.
      + now apply Hdb.
      + apply replaceFirst_cases in Hin as [->|Hin]; [exact Hx|now apply Hdb].
      + apply in_app_or in Hin as [Hin|[<-|[]]]; [now apply Hdb|exact Hx]. }
  intros c Hin. specialize (Hserve c Hin).
  split; [exact Hserve|]. split; [now apply valid_scoresInBounds|].
  unfold EC.valid in Hserve.
  apply andb_prop in Hserve as [H _]. apply andb_prop in H as [H _].
  apply negb_true_iff in H. intros E. rewrite E in H. discriminate H.
Qed.

Lemma stored_conversations_stay_valid_witness :
  let c :=
    nth 1
      (conversations
         (Routes.serve Examples.plainString Examples.plainStrings
            Examples.traffic Examples.dbOpen))
      Examples.openConversation in
  EC.valid c = true /\ More.scoresInBounds c /\ EC.sessionId c <> "".
Proof.
  apply (stored_conversations_stay_valid Examples.plainString
           Examples.plainStrings Examples.traffic Examples.dbOpen).
  - intros c [<-|[<-|[]]]; reflexivity.
  - right. left. reflexivity.
Defined.

Lemma handle_touches_own (castString : value -> option string)
    (castStrings : value -> option (list string)) (now : Date)
    (request : Routes.Request) (db : Db) (c : EC.t) :
  ~ More.ownedBy (More.callerOf request) c ->
  In c (conversations db)
  <-> In c (conversations
              (snd (Routes.handle castString castStrings now request db))).
Proof.
  intros Hother.
  destruct (handle_writes castString castStrings now request db)
    as [E|[(sid & old & x & Hfind & E & _ & Ht & Hu)|(x & E & _ & Hx)]];
    rewrite E.
  - tauto.
  - apply find_some in Hfind as [_ Hold].
    apply inProgressFor_true in Hold as (_ & Hto & Huo & _).
    split.
    + intros Hin. apply replaceFirst_keeps; [exact Hin|].
      destruct (Routes.inProgressFor _ _ c) eqn:Hsel; [|reflexivity].
      apply inProgressFor_true in Hsel as (_ & Htc & Huc & _).
      exfalso. apply Hother. now split.
    + intros Hin. apply replaceFirst_cases in Hin as [->|Hin]; [|exact Hin].
      exfalso. apply Hother. split; congruence.
  - split.
    + intros Hin. apply in_or_app. now left.
    + intros Hin. apply in_app_or in Hin as [Hin|[<-|[]]]; [exact Hin|].
      contradiction.
Qed.

(** X16.  The requests of some callers neither change, remove nor add a
    conversation of anybody else: a document that belongs to none of the
    callers is in the collection after the requests exactly when it was
    there before. *)
Theorem requests_touch_only_the_callers_own
    (castString : value -> option string)
    (castStrings : value -> option (list string))
    (requests : list (Date * Routes.Request)) (db : Db) (c : EC.t) :
  (forall now request,
     In (now, request) requests ->
     ~ More.ownedBy (More.callerOf request) c) ->
  In c (conversations db)
  <-> In c (conversations (Routes.serve castString castStrings requests db)).
Proof.
  revert db. induction requests as [|[now request] rest IH]; intros db Hother.
  - simpl. tauto.
  - simpl.
    rewrite <- (IH (snd (Routes.handle castString castStrings now request db))).
    + apply handle_touches_own. apply (Hother now). now left.
    + intros now' request' Hin. apply (Hother now'). now right.
Qed.

Lemma requests_touch_only_the_callers_own_witness :
  In Examples.earlier (conversations Examples.dbWithRecords)
  <-> In Examples.earlier
        (conversations
           (Routes.serve Examples.plainString Examples.plainStrings
              Examples.traffic Examples.dbWithRecords)).
Proof.
  apply (requests_touch_only_the_callers_own Examples.plainString
           Examples.plainStrings Examples.traffic Examples.dbWithRecords
           Examples.earlier).
  intros now request [H|[H|[H|[]]]] [Ht _];
    injection H as _ <-; discriminate Ht.
Defined.

(** ** A session from its start to its completion, as the reading route
    shows it *)

Lemma find_replaceFirst {A} (p g : A -> bool) (x c : A) (l : list A) :
  find p l = Some c -> g x = true ->
  (forall y, In y l -> g y = true -> p y = true) ->
  find g (Routes.replaceFirst p x l) = Some x.
Proof.
  intros Hfind Hx. induction l as [|z rest IH]; simpl in *; [discriminate|].
  intros Hg. destruct (p z) eqn:Hz; simpl.
  - now rewrite Hx.
  - destruct (g z) eqn:Hgz.
    + rewrite (Hg z (or_introl eq_refl) Hgz) in Hz. discriminate Hz.
    + apply IH; [exact Hfind|]. intros y Hy. apply Hg. now right.
Qed.

Lemma find_finer {A} (p g : A -> bool) (c : A) (l : list A) :
  find p l = Some c -> g c = true ->
  (forall y, In y l -> g y = true -> p y = true) ->
  find g l = Some c.
Proof.
  intros Hfind Hc. induction l as [|z rest IH]; simpl in *; [discriminate|].
  intros Hg. destruct (p z) eqn:Hz.
  - injection Hfind as ->. now rewrite Hc.
  - destruct (g z) eqn:Hgz.
    + rewrite (Hg z (or_introl eq_refl) Hgz) in Hz. discriminate Hz.
    + apply IH; [exact Hfind|]. intros y Hy. apply Hg. now right.
Qed.

Lemma find_app_fresh {A} (g : A -> bool) (x : A) (l : list A) :
  (forall y, In y l -> g y = false) -> g x = true ->
  find g (l ++ [x]) = Some x.
Proof.
  intros Hl Hx. induction l as [|z rest IH]; simpl.
  - now rewrite Hx.
  - rewrite (Hl z (or_introl eq_refl)). apply IH.
    intros y Hy. apply Hl. now right.
Qed.

(** With the unique index, the one document of a session that is open for
    the caller is also the one the reading route finds. *)
Lemma getConversation_after_save (caller : Routes.Caller) (sessionId : string)
    (old x : EC.t) (db : Db) :
  NoDup (map EC.sessionId (conversations db)) ->
  find (Routes.inProgressFor caller sessionId) (conversations db) = Some old ->
  EC.sessionId x = EC.sessionId old -> EC.tenantId x = EC.tenantId old ->
  EC.userId x = EC.userId old ->
  Routes.getConversation
    (Routes.withConversations
       (Routes.replaceFirst (Routes.inProgressFor caller sessionId) x
          (conversations db)) db)
    caller sessionId
  = Routes.Sent x.
Proof.
  intros Hnd Hfind Hs Ht Hu. unfold Routes.getConversation. simpl.
  pose proof (find_some _ _ Hfind) as [Hin Hold].
  pose proof (inProgressFor_true _ _ _ Hold) as (Hso & Hto & Huo & _).
  rewrite (find_replaceFirst _ _ x old _ Hfind); [reflexivity| |].
  - rewrite Hs, Ht, Hu, Hso, Hto, Huo.
    now rewrite String.eqb_refl, !N.eqb_refl.
  - intros y Hy Hg.
    apply andb_prop in Hg as [Hg _]. apply andb_prop in Hg as [Hg _].
    apply String.eqb_eq in Hg.
    assert (y = old)
      by (eapply NoDup_map_In; [exact Hnd|exact Hy|exact Hin|congruence]).
    now subst y.
Qed.

(** X17.  A start request that is answered 201 returns the session
    identifier it drew, and the conversation it stored is the one the
    caller then reads under that identifier: the caller's own, in
    progress, of the type asked for and without any question yet.  No
    session is started under an identifier some conversation already
    bears. *)
Theorem start_opens_a_session (now : Date) (uuid : string)
    (freshId : ObjectId) (caller : Routes.Caller) (body : Routes.StartBody)
    (db db' : Db) (sessionId : string) (id : ObjectId) :
  Routes.start now uuid freshId caller body db
  = (Routes.Started sessionId id, db') ->
  sessionId = uuid /\ id = freshId
  /\ (forall c, In c (conversations db) -> EC.sessionId c <> uuid)
  /\ exists c,
       Routes.getConversation db' caller uuid = Routes.Sent c
       /\ conversations db' = conversations db ++ [c]
       /\ More.ownedBy caller c
       /\ EC._id c = freshId
       /\ EC.status c = EC.in_progress
       /\ EC.questions c = []
       /\ Routes.parseConversationType (Routes.conversationType body)
          = Some (EC.conversationType c)
       /\ EC.createdAt c = now.
Proof.
  unfold Routes.start.
  destruct (Routes.parseConversationType _) as [type|]; [|discriminate].
  destruct (Routes.isArrayOrAbsent _); [|discriminate].
  match goal with |- context [if ?b then _ else _] => destruct b eqn:E end;
    [|discriminate].
  intros H. apply andb_prop in E as [_ E]. apply negb_true_iff in E.
  assert (Hfresh : forall c, In c (conversations db) ->
                             (EC.sessionId c =? uuid) = false).
  { intros c Hin. destruct (EC.sessionId c =? uuid) eqn:Hc; [|reflexivity].
    assert (Hex : existsb (fun c => EC.sessionId c =? uuid) (conversations db)
                  = true)
      by (apply existsb_exists; exists c; now split).
    rewrite Hex in E. discriminate E. }
  injection H as <- <- <-.
  split; [reflexivity|]. split; [reflexivity|]. split.
  - intros c Hin Hc. apply String.eqb_eq in Hc.
    rewrite (Hfresh c Hin) in Hc. discriminate Hc.
  - eexists. split; [|repeat split; reflexivity].
    unfold Routes.getConversation. simpl.
    rewrite find_app_fresh; [reflexivity| |].
    + intros y Hy. now rewrite (Hfresh y Hy).
    + simpl. now rewrite String.eqb_refl, !N.eqb_refl.
Qed.

Lemma start_opens_a_session_witness :
  "session-5" = "session-5" /\ 5%N = 5%N
  /\ (forall c, In c (conversations Examples.dbOpen) ->
                EC.sessionId c <> "session-5")
  /\ exists c,
       Routes.getConversation
         (snd (Routes.start (Examples.clock 6000 9) "session-5" 5%N
                 Examples.callerOfB
                 {| Routes.conversationType := "weekly";
                    Routes.questions := VUndefined |}
                 Examples.dbOpen))
         Examples.callerOfB "session-5"
       = Routes.Sent c
       /\ conversations
            (snd (Routes.start (Examples.clock 6000 9) "session-5" 5%N
                    Examples.callerOfB
                    {| Routes.conversationType := "weekly";
                       Routes.questions := VUndefined |}
                    Examples.dbOpen))
          = conversations Examples.dbOpen ++ [c]
       /\ More.ownedBy Examples.callerOfB c
       /\ EC._id c = 5%N
       /\ EC.status c = EC.in_progress
       /\ EC.questions c = []
       /\ Routes.parseConversationType "weekly" = Some (EC.conversationType c)
       /\ EC.createdAt c = Examples.clock 6000 9.
Proof.
  apply (start_opens_a_session (Examples.clock 6000 9) "session-5" 5%N
           Examples.callerOfB
           {| Routes.conversationType := "weekly";
              Routes.questions := VUndefined |}
           Examples.dbOpen).
  reflexivity.
Defined.

(** X18.  An answer that is recorded is scored by the scoring service and
    appended, with the request's texts and arrival time, as the last
    question of the caller's open conversation of that session: that is
    the conversation the caller then reads under the session, still in
    progress, and the count sent back is its number of questions.  (The
    session identifier has a unique index.) *)
Theorem respond_appends_the_answer
    (castString : value -> option string)
    (castStrings : value -> option (list string)) (now : Date)
    (reply : completion) (caller : Routes.Caller) (sessionId : string)
    (body : Routes.RespondBody) (db db' : Db)
    (analysis : AI.EmotionAnalysis) (n : nat) :
  NoDup (map EC.sessionId (conversations db)) ->
  Routes.respond castString castStrings now reply caller sessionId body db
  = (Routes.Recorded analysis n, db') ->
  analysis = AI.analyzeEmotion reply (Routes.userResponse body)
               (str "workplace")
  /\ exists before after stored,
       Routes.getConversation db caller sessionId = Routes.Sent before
       /\ Routes.getConversation db' caller sessionId = Routes.Sent after
       /\ Routes.castEmotionAnalysis castString castStrings analysis
          = Some stored
       /\ EC.questions after
          = EC.questions before
            ++ [ {| EC.questionId := Routes.questionId body;
                    EC.questionText := Routes.questionText body;
                    EC.userResponse := Routes.userResponse body;
                    EC.emotionAnalysis := stored;
                    EC.timestamp := now |} ]
       /\ n = List.length (EC.questions after)
       /\ EC.status after = EC.in_progress
       /\ EC._id after = EC._id before
       /\ List.length (conversations db') = List.length (conversations db)
       /\ emotionAnalytics db' = emotionAnalytics db.
Proof.
  intros Hnd. unfold Routes.respond.
  match goal with |- context [if ?b then _ else _] => destruct b end;
    [discriminate|].
  destruct (find _ _) as [old|] eqn:Hfind; [|discriminate].
  destruct (Routes.castEmotionAnalysis _ _ _) as [stored|] eqn:Hcast;
    [|discriminate].
  match goal with |- context [if ?b then _ else _] => destruct b end;
    [|discriminate].
  intros H. injection H as <- <- <-.
  split; [reflexivity|].
  pose proof (find_some _ _ Hfind) as [Hin Hold].
  pose proof (inProgressFor_true _ _ _ Hold) as (Hso & Hto & Huo & Hst).
  exists old. eexists. exists stored.
  split.
  { unfold Routes.getConversation.
    rewrite (find_finer _ _ old _ Hfind); [reflexivity| |].
    - rewrite Hso, Hto, Huo. now rewrite String.eqb_refl, !N.eqb_refl.
    - intros y Hy Hg.
      apply andb_prop in Hg as [Hg _]. apply andb_prop in Hg as [Hg _].
      apply String.eqb_eq in Hg.
      assert (y = old)
        by (eapply NoDup_map_In; [exact Hnd|exact Hy|exact Hin|congruence]).
      now subst y. }
  split.
  { apply (getConversation_after_save caller sessionId old); try assumption;
      reflexivity. }
  split; [exact Hcast|]. split; [reflexivity|]. split; [reflexivity|].
  split; [exact Hst|]. split; [reflexivity|]. split; [|reflexivity].
  simpl. rewrite <- (length_map EC.sessionId), map_replaceFirst.
  - now rewrite length_map.
  - intros y _ Hy. apply inProgressFor_true in Hy as [-> _]. simpl.
    now symmetry.
Qed.

Lemma respond_appends_the_answer_witness :
  let analysis := AI.emotionFallback (str "workplace") in
  let db' :=
    snd (Routes.respond Examples.plainString Examples.plainStrings
           (Examples.clock 7000 9) CallFailed Examples.callerOfB "session-4"
           Examples.answer Examples.dbOpen) in
  analysis = AI.analyzeEmotion CallFailed
               (Routes.userResponse Examples.answer) (str "workplace")
  /\ exists before after stored,
       Routes.getConversation Examples.dbOpen Examples.callerOfB "session-4"
       = Routes.Sent before
       /\ Routes.getConversation db' Examples.callerOfB "session-4"
          = Routes.Sent after
       /\ Routes.castEmotionAnalysis Examples.plainString
            Examples.plainStrings analysis
          = Some stored
       /\ EC.questions after
          = EC.questions before
            ++ [ {| EC.questionId := Routes.questionId Examples.answer;
                    EC.questionText := Routes.questionText Examples.answer;
                    EC.userResponse := Routes.userResponse Examples.answer;
                    EC.emotionAnalysis := stored;
                    EC.timestamp := Examples.clock 7000 9 |} ]
       /\ 1%nat = List.length (EC.questions after)
       /\ EC.status after = EC.in_progress
       /\ EC._id after = EC._id before
       /\ List.length (conversations db')
          = List.length (conversations Examples.dbOpen)
       /\ emotionAnalytics db' = emotionAnalytics Examples.dbOpen.
Proof.
  cbv zeta.
  apply (respond_appends_the_answer Examples.plainString
           Examples.plainStrings (Examples.clock 7000 9) CallFailed
           Examples.callerOfB "session-4" Examples.answer Examples.dbOpen).
  - repeat constructor; simpl; intuition discriminate.
  - reflexivity.
Defined.



(** ** The routes that read conversations *)

(** X20.  Reading a conversation by its session sends a document of the
    collection that bears that session and belongs to the caller, tenant
    and user both; it answers 404 only when no document of that session
    is the caller's. *)
Theorem getConversation_own_only (db : Db) (caller : Routes.Caller)
    (sessionId : string) :
  match Routes.getConversation db caller sessionId with
  | Routes.Sent c =>
      In c (conversations db) /\ More.ownedBy caller c
      /\ EC.sessionId c = sessionId
  | Routes.Refused httpStatus =>
      httpStatus = 404%nat
      /\ forall c, In c (conversations db) -> EC.sessionId c = sessionId ->
                   ~ More.ownedBy caller c
  end.
Proof.
  unfold Routes.getConversation.
  destruct (find _ _) as [c|] eqn:Hfind.
  - apply find_some in Hfind as [Hin H].
    apply andb_prop in H as [H Hu]. apply andb_prop in H as [Hs Ht].
    apply String.eqb_eq in Hs. apply N.eqb_eq in Ht, Hu.
    repeat split; assumption.
  - split; [reflexivity|]. intros c Hin Hs [Ht Hu].
    pose proof (find_none _ _ Hfind c Hin) as H. simpl in H.
    rewrite Hs, Ht, Hu in H.
    rewrite String.eqb_refl, !N.eqb_refl in H. discriminate H.
Qed.

Lemma completedOf_true (caller : Routes.Caller) (conversationType : string)
    (c : EC.t) :
  Routes.completedOf caller conversationType c = true ->
  More.ownedBy caller c /\ EC.status c = EC.completed.
Proof.
  unfold Routes.completedOf. intros H.
  apply andb_prop in H as [H _]. apply andb_prop in H as [H Hst].
  apply andb_prop in H as [Ht Hu]. apply N.eqb_eq in Ht, Hu.
  repeat split; try assumption.
  destruct (EC.status c); (reflexivity || discriminate Hst).
Qed.

(** X21.  A page of the history holds at most as many items as the limit
    asked for (when one is), newest first, each taken from a completed
    conversation of the caller in the collection; the total sent with it
    is the number of the caller's completed conversations of the type
    asked for, whatever the page. *)
Theorem history_page (db : Db) (caller : Routes.Caller)
    (pageNo limitNo : nat) (conversationType : string)
    (items : list Routes.HistoryItem) (pagination : Routes.Pagination) :
  Routes.history db caller pageNo limitNo conversationType
  = Routes.Sent (items, pagination) ->
  ((0 < limitNo)%nat -> (List.length items <= limitNo)%nat)
  /\ (forall item, In item items ->
        exists c, In c (conversations db) /\ item = Routes.select c
                  /\ More.ownedBy caller c /\ EC.status c = EC.completed)
  /\ More.descending (fun item => getTime (Routes.itemCreatedAt item)) items
  /\ Routes.total pagination
     = int (Z.of_nat
              (List.length
                 (filter (Routes.completedOf caller conversationType)
                    (conversations db)))).
Proof.
  unfold Routes.history.
  destruct ((pageNo =? 0)%nat && (0 <? limitNo)%nat); [discriminate|].
  cbv zeta. intros H. injection H as <- <-.
  set (matching := sortDesc _ _).
  set (found := if (limitNo =? 0)%nat then _ else _).
  assert (Hfound : forall c, In c found -> In c matching).
  { intros c Hc. unfold found in Hc.
    destruct (limitNo =? 0)%nat; [|apply firstn_In in Hc];
      now apply skipn_In in Hc. }
  split; [|split; [|split]].
  - intros Hpos. rewrite length_map. unfold found.
    destruct (limitNo =? 0)%nat eqn:E; [apply Nat.eqb_eq in E; lia|].
    apply firstn_le_length.
  - intros item Hin. apply in_map_iff in Hin as [c [<- Hc]].
    apply Hfound in Hc. unfold matching in Hc.
    apply In_sortDesc in Hc. apply filter_In in Hc as [Hc Hsel].
    apply completedOf_true in Hsel as [Hown Hst].
    exists c. repeat split; try assumption; apply Hown.
  - apply descending_map. simpl. unfold found.
    destruct (limitNo =? 0)%nat;
      [|apply descending_firstn]; apply descending_skipn;
      apply sortDesc_descending.
  - simpl. unfold matching. now rewrite sortDesc_length.
Qed.

Lemma history_page_witness :
  let items := [Routes.select Examples.later] in
  let pagination :=
    {| Routes.page := int 1; Routes.limit := int 1; Routes.total := int 2;
       Routes.pages := int 2 |} in
  ((0 < 1)%nat -> (List.length items <= 1)%nat)
  /\ (forall item, In item items ->
        exists c, In c (conversations Examples.dbWithRecords)
                  /\ item = Routes.select c
                  /\ More.ownedBy Examples.callerOfA c
                  /\ EC.status c = EC.completed)
  /\ More.descending (fun item => getTime (Routes.itemCreatedAt item)) items
  /\ Routes.total pagination
     = int (Z.of_nat
              (List.length
                 (filter (Routes.completedOf Examples.callerOfA "")
                    (conversations Examples.dbWithRecords)))).
Proof.
  cbv zeta.
  apply (history_page Examples.dbWithRecords Examples.callerOfA 1 1 "").
  reflexivity.
Defined.

(** The number of pages the route computes. *)
Lemma ceiling_bounds (count l : nat) :
  (0 < l)%nat ->
  exists n : nat,
    Qceiling (inject_Z (Z.of_nat count) / inject_Z (Z.of_nat l)) = Z.of_nat n
    /\ (count <= n * l)%nat
    /\ (n = 0%nat \/ ((n - 1) * l < count)%nat).
Proof.
  intros Hl.
  set (a := inject_Z (Z.of_nat count)). set (b := inject_Z (Z.of_nat l)).
  assert (Hb : 0 < b) by (unfold b; rewrite <- (Zlt_Qlt 0); lia).
  assert (Hnz : ~ b == 0) by lra.
  pose proof (Qle_ceiling (a / b)) as Hup.
  pose proof (Qceiling_lt (a / b)) as Hlo.
  set (c := Qceiling (a / b)) in *.
  assert (Hup' : a <= inject_Z c * b).
  { rewrite <- (Qmult_div_r a b Hnz) at 1. rewrite (Qmult_comm b).
    apply Qmult_le_compat_r; [exact Hup|lra]. }
  assert (Hlo' : inject_Z (c - 1) * b < a).
  { rewrite <- (Qmult_div_r a b Hnz) at 1. rewrite (Qmult_comm b).
    apply Qmult_lt_compat_r; assumption. }
  unfold a, b in Hup', Hlo'.
  rewrite <- inject_Z_mult in Hup', Hlo'.
  rewrite <- Zle_Qle in Hup'. rewrite <- Zlt_Qlt in Hlo'.
  assert (Hc : (0 <= c)%Z) by nia.
  exists (Z.to_nat c). split; [now rewrite Z2Nat.id|].
  split; [nia|].
  destruct (Z.eq_dec c 0) as [->|Hne]; [now left|right]. nia.
Qed.

Lemma firstn_add {A} (a b : nat) (m : list A) :
  firstn (a + b) m = firstn a m ++ firstn b (skipn a m).
Proof.
  revert m. induction a as [|a IH]; intros [|x m]; simpl; try reflexivity.
  - now rewrite firstn_nil.
  - now rewrite IH.
Qed.

Lemma pages_concat {A} (l : nat) (m : list A) (k : nat) :
  flat_map (fun p => firstn l (skipn ((p - 1) * l) m)) (seq 1 k)
  = firstn (k * l) m.
Proof.
  induction k as [|k IH]; [reflexivity|].
  rewrite seq_S, flat_map_app, IH. simpl flat_map. rewrite app_nil_r.
  rewrite Nat.sub_0_r.
  replace (S k * l)%nat with (k * l + l)%nat by lia.
  now rewrite firstn_add.
Qed.

Lemma flat_map_ext_seq {A} (f g : nat -> list A) (k : nat) :
  (forall p, (1 <= p)%nat -> f p = g p) ->
  flat_map f (seq 1 k) = flat_map g (seq 1 k).
Proof.
  intros H. induction k as [|k IH]; [reflexivity|].
  rewrite seq_S, !flat_map_app, IH. simpl. rewrite (H (S k)); [reflexivity|].
  lia.
Qed.

(** X22.  With a limit asked for, the pages of the history from the first
    to the last page announced, put end to end, list each of the caller's
    completed conversations once, newest first; every page announces the
    same number of pages, the last page announced is not empty, and the
    pages after it are. *)
Theorem history_pages_cover (db : Db) (caller : Routes.Caller)
    (limitNo : nat) (conversationType : string) :
  (0 < limitNo)%nat ->
  let itemsOf pageNo :=
    match Routes.history db caller pageNo limitNo conversationType with
    | Routes.Sent (items, _) => items
    | Routes.Refused _ => []
    end in
  let all :=
    map Routes.select
      (sortDesc (fun c => getTime (EC.createdAt c))
         (filter (Routes.completedOf caller conversationType)
            (conversations db))) in
  exists n : nat,
    (forall pageNo, (1 <= pageNo)%nat ->
       exists items pagination,
         Routes.history db caller pageNo limitNo conversationType
         = Routes.Sent (items, pagination)
         /\ Routes.pages pagination = int (Z.of_nat n))
    /\ flat_map itemsOf (seq 1 n) = all
    /\ (forall k, flat_map itemsOf (seq 1 k) = firstn (k * limitNo) all)
    /\ (n = 0%nat \/ itemsOf n <> [])
    /\ (forall pageNo, (n < pageNo)%nat -> itemsOf pageNo = []).
Proof.
  intros Hl itemsOf all.
  set (matching := sortDesc (fun c => getTime (EC.createdAt c))
                     (filter (Routes.completedOf caller conversationType)
                        (conversations db))) in *.
  destruct (ceiling_bounds (List.length matching) limitNo Hl)
    as (n & Hceil & Hup & Hlo).
  assert (Hlimit : (limitNo =? 0)%nat = false) by (apply Nat.eqb_neq; lia).
  assert (Hhist : forall pageNo, (1 <= pageNo)%nat ->
            Routes.history db caller pageNo limitNo conversationType
            = Routes.Sent
                (map Routes.select
                   (firstn limitNo (skipn ((pageNo - 1) * limitNo) matching)),
                 {| Routes.page := int (Z.of_nat pageNo);
                    Routes.limit := int (Z.of_nat limitNo);
                    Routes.total := int (Z.of_nat (List.length matching));
                    Routes.pages := int (Z.of_nat n) |})).
  { intros pageNo Hp. unfold Routes.history.
    replace (pageNo =? 0)%nat with false by (symmetry; apply Nat.eqb_neq; lia).
    cbv zeta. simpl andb. cbv iota. rewrite Hlimit. fold matching.
    do 3 f_equal. destruct limitNo as [|m]; [lia|].
    unfold divn, int, ceil. now rewrite Hceil. }
  assert (Hitems : forall pageNo, (1 <= pageNo)%nat ->
            itemsOf pageNo
            = firstn limitNo (skipn ((pageNo - 1) * limitNo) all)).
  { intros pageNo Hp. unfold itemsOf. rewrite (Hhist pageNo Hp).
    unfold all. now rewrite skipn_map, firstn_map. }
  assert (Hcat : forall k, flat_map itemsOf (seq 1 k)
                           = firstn (k * limitNo) all).
  { intros k. rewrite (flat_map_ext_seq _ _ k Hitems). apply pages_concat. }
  assert (Hlen : List.length all = List.length matching)
    by (unfold all; apply length_map).
  exists n. split; [|split; [|split; [|split]]].
  - intros pageNo Hp. rewrite (Hhist pageNo Hp). eauto.
  - rewrite Hcat. apply firstn_all2. lia.
  - exact Hcat.
  - destruct Hlo as [->|Hlo]; [now left|right].
    rewrite Hitems by lia. intros E.
    apply (f_equal (@List.length _)) in E.
    rewrite length_firstn, length_skipn in E. simpl in E. lia.
  - intros pageNo Hp. rewrite Hitems by lia.
    rewrite skipn_all2; [now rewrite firstn_nil|]. nia.
Qed.

Lemma history_pages_cover_witness :
  let itemsOf pageNo :=
    match Routes.history Examples.dbWithRecords Examples.callerOfA pageNo 1 ""
    with
    | Routes.Sent (items, _) => items
    | Routes.Refused _ => []
    end in
  let all :=
    map Routes.select
      (sortDesc (fun c => getTime (EC.createdAt c))
         (filter (Routes.completedOf Examples.callerOfA "")
            (conversations Examples.dbWithRecords))) in
  exists n : nat,
    (forall pageNo, (1 <= pageNo)%nat ->
       exists items pagination,
         Routes.history Examples.dbWithRecords Examples.callerOfA pageNo 1 ""
         = Routes.Sent (items, pagination)
         /\ Routes.pages pagination = int (Z.of_nat n))
    /\ flat_map itemsOf (seq 1 n) = all
    /\ (forall k, flat_map itemsOf (seq 1 k) = firstn (k * 1) all)
    /\ (n = 0%nat \/ itemsOf n <> [])
    /\ (forall pageNo, (n < pageNo)%nat -> itemsOf pageNo = []).
Proof.
  apply (history_pages_cover Examples.dbWithRecords Examples.callerOfA 1 "").
  lia.
Defined.

(** ** The patterns of a user *)

Lemma bump_positive (k : string) (counts : list (string * Z)) :
  Forall (fun e => (1 <= snd e)%Z) counts ->
  Forall (fun e => (1 <= snd e)%Z) (bump k 1 counts).
Proof.
  induction counts as [|[k0 c] rest IH]; simpl; intros H.
  - repeat constructor. simpl. lia.
  - inversion H as [|? ? Hc Hrest]; subst. simpl in Hc.
    destruct (k0 =? k); constructor; simpl; try lia; auto.
Qed.

Lemma tally_positive (names : list string) (counts : list (string * Z)) :
  Forall (fun e => (1 <= snd e)%Z) counts ->
  Forall (fun e => (1 <= snd e)%Z)
    (fold_left (fun acc n => bump n 1 acc) names counts).
Proof.
  revert counts. induction names as [|n names IH]; intros counts H; simpl.
  - assumption.
  - apply IH. now apply bump_positive.
Qed.

Lemma totalOf_firstn (n : nat) (l : list Z) :
  Forall (fun c => (1 <= c)%Z) l ->
  (More.totalOf (firstn n l) <= More.totalOf l)%Z.
Proof.
  unfold More.totalOf. revert n.
  induction l as [|c l IH]; intros [|n] H; simpl; try lia.
  - inversion H as [|? ? Hc Hl]; subst.
    specialize (IH 0%nat Hl). simpl in IH. lia.
  - inversion H as [|? ? Hc Hl]; subst. specialize (IH n Hl). lia.
Qed.

(** The five most frequent names of a list: at most five, none twice, the
    most frequent first, each a name of the list counted at least once,
    and the counts add up to no more than the length of the list. *)
Lemma topFive_tally (names : list string) :
  let top := Pat.topFive (Pat.tally names) in
  (List.length top <= 5)%nat
  /\ NoDup (map fst top)
  /\ More.descending snd top
  /\ (forall name count, In (name, count) top ->
        In name names /\ (1 <= count)%Z)
  /\ (More.totalOf (map snd top) <= Z.of_nat (List.length names))%Z.
Proof.
  intros top. unfold top, Pat.topFive, Pat.tally.
  set (counts := fold_left (fun acc n => bump n 1 acc) names []).
  assert (Hnd : NoDup (map fst counts))
    by (apply (fold_bump_NoDup (fun n => n) (fun _ => 1%Z)); constructor).
  assert (Hpos : Forall (fun e => (1 <= snd e)%Z) counts)
    by (apply tally_positive; constructor).
  assert (Hsorted : Forall (fun e => (1 <= snd e)%Z) (sortDesc snd counts)).
  { rewrite Forall_forall in *. intros e He. apply Hpos.
    now apply In_sortDesc in He. }
  destruct (ranking_shape 5 counts Hnd) as (Hlen & Hnd' & Hdesc & Hkeys).
  split; [exact Hlen|]. split; [exact Hnd'|]. split; [exact Hdesc|]. split.
  - intros name count Hin. split.
    + assert (Hname : In name (map fst counts))
        by (apply Hkeys; apply in_map_iff; now exists (name, count)).
      apply (fold_bump_keys (fun n => n) (fun _ => 1%Z)) in Hname.
      destruct Hname as [Hname|[]]. now rewrite map_id in Hname.
    + apply firstn_In in Hin. rewrite Forall_forall in Hsorted.
      exact (Hsorted _ Hin).
  - rewrite <- firstn_map.
    eapply Z.le_trans.
    + apply totalOf_firstn. rewrite Forall_forall in *.
      intros c Hc. apply in_map_iff in Hc as [e [<- He]]. now apply Hsorted.
    + rewrite (totalOf_perm _ (map snd counts))
        by (apply Permutation_map, sortDesc_perm).
      unfold counts.
      rewrite (fold_bump_total (fun n => n) (fun _ => 1%Z)).
      rewrite totalOf_ones. unfold More.totalOf. simpl. lia.
Qed.

Lemma findCompletedSince_In (userId : ObjectId) (since : Z) (db : Db)
    (c : EC.t) :
  In c (Pat.findCompletedSince userId since db)
  <-> In c (conversations db) /\ EC.userId c = userId
      /\ EC.status c = EC.completed
      /\ (since <= getTime (EC.createdAt c))%Z.
Proof.
  unfold Pat.findCompletedSince. split.
  - intros H. apply In_sortDesc in H. apply filter_In in H as [Hin H].
    apply andb_prop in H as [H Hst]. apply andb_prop in H as [Hu Hd].
    apply N.eqb_eq in Hu. apply Z.leb_le in Hd.
    repeat split; try assumption.
    destruct (EC.status c); (reflexivity || discriminate Hst).
  - intros (Hin & Hu & Hst & Hd).
    eapply Permutation_in; [symmetry; apply sortDesc_perm|].
    apply filter_In. split; [exact Hin|].
    rewrite Hu, Hst, N.eqb_refl. simpl. rewrite andb_true_r.
    now apply Z.leb_le.
Qed.

Lemma isDate_timeClip (t : Z) : isDate t = true -> timeClip t = Some t.
Proof.
  unfold isDate. destruct (timeClip t) as [t'|] eqn:E; [|discriminate].
  apply timeClip_Some in E. now subst t'.
Qed.

(** X23.  The patterns of a user over a number of days that leave the
    start date a date are drawn from the completed conversations of that
    user created in those days, and from no other: there is one trend
    point for each, oldest first, with its date and its well-being, stress
    and energy scores; the dominant emotions, the triggers and the needs
    are each a ranking of at most five names, none twice, the most
    frequent first, every name taken from such a conversation and counted
    at least once.  The tenant plays no part in the selection.  (The
    emotions, triggers and needs of these conversations are plain
    names.) *)
Theorem trackEmotionalPatterns_content (now : Date) (db : Db)
    (userId : ObjectId) (days : Z) :
  let since := (getTime now - days * (24 * 60 * 60 * 1000))%Z in
  let counted := More.countedSince db userId since in
  isDate since = true ->
  (forall c, counted c ->
     More.plainNames
       (Pat.dominantEmotionKey c
        :: flat_map
             (fun q => EC.triggers (EC.emotionAnalysis q)
                       ++ EC.needs (EC.emotionAnalysis q))
             (EC.questions c))) ->
  More.drawnFrom counted
    (List.length
       (filter
          (fun c =>
             (EC.userId c =? userId)%N
             && (since <=? getTime (EC.createdAt c))%Z
             && EC.Status_eqb (EC.status c) EC.completed)
          (conversations db)))
    (Pat.trackEmotionalPatterns now db (Some userId) (Some days)).
Proof.
  intros since counted Hdate _.
  set (p := Pat.trackEmotionalPatterns now db (Some userId) (Some days)).
  set (ranking := More.ranking counted).
  set (found := Pat.findCompletedSince userId since db).
  assert (Hp : p = {| Pat.dominantEmotions :=
                        Pat.topFive
                          (Pat.tally (map Pat.dominantEmotionKey found));
                      Pat.emotionalTrends :=
                        map (fun conv =>
                               {| Pat.pointDate := EC.createdAt conv;
                                  Pat.mood :=
                                    option_map EC.wellBeingScore
                                      (EC.overallEmotion conv);
                                  Pat.stress :=
                                    option_map EC.stressLevel
                                      (EC.overallEmotion conv);
                                  Pat.energy :=
                                    option_map EC.energyLevel
                                      (EC.overallEmotion conv) |})
                          found;
                      Pat.emotionalTriggers :=
                        Pat.topFive
                          (Pat.tally
                             (flat_map
                                (fun conv =>
                                   flat_map
                                     (fun q =>
                                        EC.triggers (EC.emotionAnalysis q))
                                     (EC.questions conv))
                                found));
                      Pat.emotionalNeeds :=
                        Pat.topFive
                          (Pat.tally
                             (flat_map
                                (fun conv =>
                                   flat_map
                                     (fun q => EC.needs (EC.emotionAnalysis q))
                                     (EC.questions conv))
                                found)) |}).
  { unfold p, Pat.trackEmotionalPatterns. fold since.
    rewrite (isDate_timeClip since Hdate). fold found.
    destruct found; reflexivity. }
  assert (Hfound : forall c, In c found <-> counted c)
    by (intros c; apply findCompletedSince_In).
  assert (Hrank : forall (names : EC.t -> list string),
            ranking (Pat.topFive (Pat.tally (flat_map names found))) names).
  { intros names.
    destruct (topFive_tally (flat_map names found))
      as (Hlen & Hnd & Hdesc & Hin & _).
    repeat split; try assumption.
    - now apply (Hin name count).
    - destruct (Hin name count H) as [Hname _].
      apply in_flat_map in Hname as [c [Hc Hname]].
      exists c. split; [now apply Hfound|exact Hname]. }
  unfold More.drawnFrom. fold ranking.
  rewrite Hp. cbn [Pat.emotionalTrends Pat.dominantEmotions
                   Pat.emotionalTriggers Pat.emotionalNeeds].
  split; [|split; [|split; [|split; [|split; [|split; [|split]]]]]].
  - intros point Hin. apply in_map_iff in Hin as [c [<- Hc]].
    exists c. split; [now apply Hfound|]. repeat split.
  - intros c Hc. rewrite map_map. simpl. apply in_map. now apply Hfound.
  - rewrite length_map. unfold found, Pat.findCompletedSince.
    apply sortDesc_length.
  - apply descending_map. simpl. unfold found, Pat.findCompletedSince.
    apply (sortDesc_descending (fun c => (- getTime (EC.createdAt c))%Z)).
  - specialize (Hrank (fun c => [Pat.dominantEmotionKey c])).
    replace (flat_map (fun c => [Pat.dominantEmotionKey c]) found)
      with (map Pat.dominantEmotionKey found) in Hrank; [exact Hrank|].
    clear. induction found as [|c l IH]; simpl; [reflexivity|].
    now rewrite IH.
  - destruct (topFive_tally (map Pat.dominantEmotionKey found))
      as (_ & _ & _ & _ & Htotal).
    now rewrite !length_map in *.
  - apply Hrank.
  - apply Hrank.
Qed.

Lemma trackEmotionalPatterns_content_witness :
  More.drawnFrom
    (More.countedSince Examples.dbOfA Examples.userOfA
       (getTime Examples.dayAfter - 30 * (24 * 60 * 60 * 1000)))
    2
    (Pat.trackEmotionalPatterns Examples.dayAfter Examples.dbOfA
       (Some Examples.userOfA) (Some 30%Z)).
Proof.
  apply (trackEmotionalPatterns_content Examples.dayAfter Examples.dbOfA
           Examples.userOfA 30).
  - reflexivity.
  - intros c [Hin _] name Hname. simpl in Hin.
    destruct Hin as [<-|[<-|[]]]; vm_compute in Hname;
      repeat (destruct Hname as [<-|Hname]; [reflexivity|]);
      destruct Hname.
Defined.

(** ** Who may read, and what an analysis on demand writes *)

(** X24.  A caller who is no admin and asks for another user, or for
    something that is no user identifier, is refused with 403 by the
    patterns route and by the user-analytics route alike, whatever the
    collections hold. *)
Theorem others_are_refused (now : Date) (db : Db) (caller : Routes.Caller)
    (role : string) (userId : option ObjectId) (days : option Z) :
  role <> "admin" ->
  userId <> Some (Routes.user caller) ->
  Routes.patterns now db caller role userId days = Routes.Refused 403
  /\ ARoutes.userAnalytics now db caller role userId days
     = Routes.Refused 403.
Proof.
  intros Hrole Hother.
  assert (Hr : (role =? "admin") = false) by now apply String.eqb_neq.
  unfold Routes.patterns, ARoutes.userAnalytics. rewrite Hr.
  destruct userId as [id|]; [|split; reflexivity].
  assert (Hid : (Routes.user caller =? id)%N = false).
  { apply N.eqb_neq. intros E. apply Hother. now rewrite E. }
  rewrite Hid. split; reflexivity.
Qed.

Lemma others_are_refused_witness :
  Routes.patterns Examples.dayAfter Examples.dbWithRecords Examples.callerOfA
    "employee" (Some Examples.userOfB) (Some 30%Z)
  = Routes.Refused 403
  /\ ARoutes.userAnalytics Examples.dayAfter Examples.dbWithRecords
       Examples.callerOfA "employee" (Some Examples.userOfB) (Some 30%Z)
     = Routes.Refused 403.
Proof.
  apply others_are_refused; discriminate.
Defined.

(** X25.  The analysis route either sends a new record and adds exactly
    that record to the analytics, filed under the caller's tenant and user
    and pointing at the conversation asked for, which exists; or it
    answers 500 and writes nothing.  It never changes a conversation. *)
Theorem analyze_writes_one_record_or_nothing (casts : CA.Casts)
    (w : Svc.World) (db : Db) (caller : Routes.Caller)
    (conversationId : option ObjectId) :
  match ARoutes.analyze casts w db caller conversationId with
  | (Routes.Sent r, db') =>
      (exists id c,
         conversationId = Some id /\ In c (conversations db)
         /\ EC._id c = id /\ CA.conversationId r = id
         /\ CA.conversationType r = EC.conversationType c)
      /\ CA._id r = Svc.freshId w
      /\ CA.tenantId r = Routes.tenant caller
      /\ CA.userId r = Routes.user caller
      /\ CA.date r = Svc.now w
      /\ conversationAnalytics db' = conversationAnalytics db ++ [r]
      /\ conversations db' = conversations db
      /\ emotionAnalytics db' = emotionAnalytics db
  | (Routes.Refused httpStatus, db') => httpStatus = 500%nat /\ db' = db
  end.
Proof.
  unfold ARoutes.analyze.
  destruct conversationId as [id|]; [|now split].
  destruct (Svc.analyzeConversation casts w db id (Routes.tenant caller)
              (Routes.user caller)) as [[r db']|] eqn:Hrun; [|now split].
  apply analyzeConversation_returned in Hrun
    as (c & Hfind & -> & _ & _ & _ & _ & _ & _ & _
        & Hid & Htenant & Huser & Hconv & Hdate & Htype).
  apply find_some in Hfind as [Hin Hc]. apply N.eqb_eq in Hc.
  split; [|repeat split; assumption].
  exists id, c. repeat split; assumption.
Qed.

(** ** The helpers of the interaction and context blocks *)

Lemma countAbove_le (k : Z) (responses : list Svc.Message) :
  (Svc.countAbove k responses <= List.length responses)%nat.
Proof. unfold Svc.countAbove. apply filter_length_le. Qed.

(** The share of a part in a whole that is not empty. *)
Lemma share_within (part whole : nat) :
  (part <= whole)%nat -> (0 < whole)%nat ->
  exists q, divn (Svc.ofNat part) whole = Fin q /\ 0 <= q /\ q <= 1.
Proof.
  intros Hle Hpos. destruct whole as [|w]; [lia|].
  exists (inject_Z (Z.of_nat part) / inject_Z (Z.of_nat (S w))).
  split; [reflexivity|].
  assert (Hw : 0 < inject_Z (Z.of_nat (S w)))
    by (change 0 with (inject_Z 0); rewrite <- Zlt_Qlt; lia).
  assert (Hp : 0 <= inject_Z (Z.of_nat part))
    by (change 0 with (inject_Z 0); rewrite <- Zle_Qle; lia).
  assert (Hpw : inject_Z (Z.of_nat part) <= inject_Z (Z.of_nat (S w)))
    by (rewrite <- Zle_Qle; lia).
  split.
  - apply Qle_shift_div_l; [assumption|]. lra.
  - apply Qle_shift_div_r; [assumption|]. lra.
Qed.

(** X26.  The scores of the interaction block are numbers within their
    scale whatever the conversation: the engagement score is between 5
    and 10, the emotional depth and the complexity score between 0 and
    10. *)
Theorem interaction_scores_within (conversationData : Svc.ConversationData)
    (responses : list Svc.Message) :
  Spec.within 5 10 (Svc.calculateEngagementScore conversationData)
  /\ Spec.within 0 10 (Svc.calculateEmotionalDepth responses)
  /\ Spec.within 0 10 (Svc.calculateComplexityScore responses).
Proof.
  split; [|split].
  - unfold Svc.calculateEngagementScore. cbv zeta.
    destruct (ltb _ (int 30)); destruct (5 <? _)%nat; destruct (gtb _ _);
      vm_compute; split; discriminate.
  - unfold Svc.calculateEmotionalDepth.
    destruct (List.length responses =? 0)%nat eqn:E;
      [vm_compute; split; discriminate|].
    apply Nat.eqb_neq in E.
    destruct (share_within (Svc.countAbove 5 responses)
                (List.length responses))
      as (q & -> & Hlo & Hhi); [apply countAbove_le|lia|].
    cbv zeta. simpl. change (inject_Z 10) with 10. split; lra.
  - unfold Svc.calculateComplexityScore.
    destruct (List.length responses =? 0)%nat eqn:E;
      [vm_compute; split; discriminate|].
    apply Nat.eqb_neq in E.
    destruct (share_within (Svc.countAbove 7 responses)
                (List.length responses))
      as (q & -> & Hlo & Hhi); [apply countAbove_le|lia|].
    unfold Svc.calculateAverageResponseLength.
    rewrite <- (map_map (fun r => String.length (Svc.content r)) Svc.ofNat).
    destruct (average_counts
                (map (fun r => String.length (Svc.content r)) responses))
      as (a & -> & Ha).
    cbv zeta.
    change (divn (Fin a) 50) with (Fin (a / inject_Z 50)).
    change (mul (Fin q) (int 5)) with (Fin (q * inject_Z 5)).
    change (add (Fin (a / inject_Z 50)) (Fin (q * inject_Z 5)))
      with (Fin (a / inject_Z 50 + q * inject_Z 5)).
    set (x := a / inject_Z 50 + q * inject_Z 5).
    assert (Hx : 0 <= x).
    { unfold x. change (inject_Z 5) with 5.
      assert (0 <= a / inject_Z 50)
        by (apply Qle_shift_div_l; [reflexivity|lra]).
      nra. }
    unfold min, int. destruct (ltb (Fin x) (Fin (inject_Z 10))) eqn:Hlt.
    + apply ltb_Fin in Hlt. change (inject_Z 10) with 10 in Hlt.
      simpl. split; lra.
    + simpl. change (inject_Z 10) with 10. split; lra.
Qed.

(** ** Themes that recur *)

Lemma bump_In (k : string) (n : Z) (counts : list (string * Z)) (k' : string)
    (c : Z) :
  NoDup (map fst counts) ->
  In (k', c) (bump k n counts)
  <-> (k' <> k /\ In (k', c) counts)
      \/ (k' = k
          /\ ((exists c0, In (k, c0) counts /\ c = (c0 + n)%Z)
              \/ (~ In k (map fst counts) /\ c = n))).
Proof.
  induction counts as [|[k0 c0] rest IH]; simpl; intros Hnd.
  - split.
    + intros [H|[]]. injection H as <- <-. right. split; [reflexivity|].
      right. tauto.
    + intros [[_ []]|[-> [[c1 [[] _]]|[_ ->]]]]. now left.
  - inversion Hnd as [|? ? Hnotin Hrest]; subst. specialize (IH Hrest).
    destruct (k0 =? k) eqn:E.
    + apply String.eqb_eq in E. subst k0. simpl. split.
      * intros [H|H].
        -- injection H as <- <-. right. split; [reflexivity|]. left.
           exists c0. split; [now left|reflexivity].
        -- left. split; [|now right].
           intros ->. apply Hnotin. apply in_map_iff. now exists (k, c).
      * intros [[Hne [H|H]]|[-> [[c1 [[H|H] ->]]|[Hno _]]]].
        -- injection H as -> _. congruence.
        -- now right.
        -- injection H as ->. now left.
        -- exfalso. apply Hnotin. apply in_map_iff. now exists (k, c1).
        -- exfalso. apply Hno. now left.
    + apply String.eqb_neq in E. simpl. rewrite IH. split.
      * intros [H|[[Hne H]|[-> [[c1 [H ->]]|[Hno ->]]]]].
        -- injection H as <- <-. left. split; [assumption|now left].
        -- left. split; [assumption|now right].
        -- right. split; [reflexivity|]. left. exists c1.
           split; [now right|reflexivity].
        -- right. split; [reflexivity|]. right. split; [|reflexivity].
           intros [H|H]; [congruence|contradiction].
      * intros [[Hne [H|H]]|[-> [[c1 [[H|H] ->]]|[Hno ->]]]].
        -- now left.
        -- right. left. now split.
        -- injection H as -> _. congruence.
        -- right. right. split; [reflexivity|]. left. now exists c1.
        -- right. right. split; [reflexivity|]. right. split; [|reflexivity].
           intros H. apply Hno. now right.
Qed.

(** A counter that holds, for each name seen so far, how often it was
    seen. *)
Lemma tally_counts (names seen : list string) (counts : list (string * Z)) :
  NoDup (map fst counts) ->
  (forall k c, In (k, c) counts
               <-> c = Z.of_nat (count_occ string_dec seen k) /\ (1 <= c)%Z) ->
  let result := fold_left (fun acc n => bump n 1 acc) names counts in
  NoDup (map fst result)
  /\ forall k c,
       In (k, c) result
       <-> c = Z.of_nat (count_occ string_dec (seen ++ names) k)
           /\ (1 <= c)%Z.
Proof.
  revert seen counts.
  induction names as [|n names IH]; intros seen counts Hnd Hinv; simpl.
  - rewrite app_nil_r. now split.
  - replace (seen ++ n :: names) with ((seen ++ [n]) ++ names)
      by (now rewrite <- app_assoc).
    apply IH; [now apply bump_NoDup|].
    intros k c. rewrite (bump_In n 1 counts k c Hnd).
    rewrite count_occ_app. simpl.
    assert (Hkeys : In n (map fst counts)
                    <-> (1 <= count_occ string_dec seen n)%nat).
    { split.
      - intros H. apply in_map_iff in H as [[k0 c0] [<- H]].
        apply Hinv in H. simpl. lia.
      - intros H. apply in_map_iff.
        exists (n, Z.of_nat (count_occ string_dec seen n)).
        split; [reflexivity|]. apply Hinv. split; [reflexivity|lia]. }
    destruct (string_dec n k) as [->|Hne].
    + split.
      * intros [[Hk _]|[_ [[c0 [H ->]]|[Hno ->]]]]; [congruence| |].
        -- apply Hinv in H. lia.
        -- rewrite Hkeys in Hno. lia.
      * intros [-> Hc]. right. split; [reflexivity|].
        destruct (count_occ string_dec seen k) as [|m] eqn:Hm.
        -- right. split; [|reflexivity]. rewrite Hkeys. lia.
        -- left. exists (Z.of_nat (S m)). split; [|lia].
           apply Hinv. rewrite Hm. split; [reflexivity|lia].
    + rewrite Nat.add_0_r. split.
      * intros [[_ H]|[-> _]]; [now apply Hinv|congruence].
      * intros H. left. split; [congruence|now apply Hinv].
Qed.

Lemma filter_keeps_names_distinct (keep : string * Z -> bool)
    (counts : list (string * Z)) :
  NoDup (map fst counts) -> NoDup (map fst (filter keep counts)).
Proof.
  intros Hnd. induction counts as [|[name count] rest IH]; [constructor|].
  simpl in Hnd. apply NoDup_cons_iff in Hnd as [Hfresh Hrest].
  simpl. destruct (keep (name, count)); [|now apply IH].
  simpl. apply NoDup_cons; [|now apply IH].
  intros Hin. apply Hfresh. apply in_map_iff in Hin as [e [He Hin]].
  apply filter_In in Hin as [Hin _]. apply in_map_iff. now exists e.
Qed.

(** X27.  When the key topics of the recent conversations have plain
    names, a theme recurs exactly when it stands at least twice among
    them, the repeats within one conversation included; no theme is
    listed twice. *)
Theorem identifyRecurringThemes_twice (recentConversations : list EC.t) :
  let mentioned :=
    flat_map
      (fun conv =>
         match EC.insights conv with
         | Some i => EC.keyTopics i
         | None => []
         end)
      recentConversations in
  More.plainNames mentioned ->
  NoDup (Svc.identifyRecurringThemes recentConversations)
  /\ forall theme,
       In theme (Svc.identifyRecurringThemes recentConversations)
       <-> (2 <= count_occ string_dec mentioned theme)%nat.
Proof.
  intros mentioned _. unfold Svc.identifyRecurringThemes.
  assert (Hfold : forall acc,
            fold_left
              (fun themes conv =>
                 match EC.insights conv with
                 | Some i =>
                     fold_left (fun themes t => bump t 1 themes)
                       (EC.keyTopics i) themes
                 | None => themes
                 end)
              recentConversations acc
            = fold_left (fun themes t => bump t 1 themes) mentioned acc).
  { unfold mentioned. clear.
    induction recentConversations as [|conv l IH]; intros acc; simpl;
      [reflexivity|].
    rewrite fold_left_app, IH. now destruct (EC.insights conv). }
  cbv zeta. rewrite Hfold.
  destruct (tally_counts mentioned [] []) as [Hnd Hcount];
    [constructor| |].
  { intros k c. simpl. split; [tauto|]. intros [-> H]. lia. }
  simpl in Hcount. split.
  - now apply filter_keeps_names_distinct.
  - intros theme. rewrite in_map_iff. split.
    + intros [[k c] [<- H]]. apply filter_In in H as [H Hc].
      apply Hcount in H as [-> _]. simpl in *. apply Z.ltb_lt in Hc. lia.
    + intros H.
      exists (theme, Z.of_nat (count_occ string_dec mentioned theme)).
      split; [reflexivity|]. apply filter_In. split.
      * apply Hcount. split; [reflexivity|lia].
      * simpl. apply Z.ltb_lt. lia.
Qed.

Lemma identifyRecurringThemes_twice_witness :
  let recentConversations :=
    [ Examples.withTopics Examples.later ["workload"; "sleep"];
      Examples.withTopics Examples.earlier ["workload"] ] in
  let mentioned :=
    flat_map
      (fun conv =>
         match EC.insights conv with
         | Some i => EC.keyTopics i
         | None => []
         end)
      recentConversations in
  NoDup (Svc.identifyRecurringThemes recentConversations)
  /\ forall theme,
       In theme (Svc.identifyRecurringThemes recentConversations)
       <-> (2 <= count_occ string_dec mentioned theme)%nat.
Proof.
  apply (identifyRecurringThemes_twice
           [ Examples.withTopics Examples.later ["workload"; "sleep"];
             Examples.withTopics Examples.earlier ["workload"] ]).
  intros name Hname. vm_compute in Hname.
  repeat (destruct Hname as [<-|Hname]; [reflexivity|]).
  destruct Hname.
Defined.

(** ** The surroundings of a conversation *)

(** X28.  The impact of the surroundings on the mood is a whole number
    between -2 and 2; it is negative only with the high workload listed
    among the stressors and positive only with some support listed.  For
    a conversation of the collection, which carries no such factors, the
    analysis files an impact of 0, a workload of 5, an unknown weather,
    location and device, and no stressor, support or external event. *)
Theorem environmental_impact_matches
    (contextualFactors : Svc.ContextualFactors) (now : Date) (c : EC.t) :
  (exists z : Z,
     Svc.calculateEnvironmentalImpact contextualFactors = int z
     /\ (-2 <= z <= 2)%Z
     /\ ((z < 0)%Z ->
         In "high_workload"
           (Svc.identifyEnvironmentalStressors contextualFactors))
     /\ ((0 < z)%Z ->
         Svc.identifyEnvironmentalSupports contextualFactors <> []))
  /\ (let filed := Svc.analyzeContextualFactors now c in
      CA.impactOnMood filed = int 0
      /\ CA.workload filed = int 5
      /\ CA.weather filed = "unknown"
      /\ CA.location filed = "unknown"
      /\ CA.device filed = "unknown"
      /\ CA.environmentalStressors filed = []
      /\ CA.environmentalSupports filed = []
      /\ CA.externalEvents filed = []).
Proof.
  split; [|repeat split].
  unfold Svc.calculateEnvironmentalImpact, Svc.identifyEnvironmentalStressors,
    Svc.identifyEnvironmentalSupports.
  destruct (Svc.highWorkload contextualFactors);
    destruct (Svc.equals (Svc.givenWeather contextualFactors) "sunny");
    destruct (Svc.equals (Svc.givenLocation contextualFactors) "home");
    cbv zeta; eexists;
    (split; [vm_compute; reflexivity|]);
    (split; [lia|]);
    (split; [intros H; try lia; now left|]);
    intros H; try lia; discriminate.
Qed.

(** ** The metrics of a stored conversation *)

Lemma fieldOr_within {A} (x : option A) (f : A -> number) (d : Q)
    (lo hi : Q) :
  lo <= d <= hi ->
  (forall a, x = Some a -> Spec.within lo hi (f a)) ->
  Spec.within lo hi (Svc.fieldOr x f (Fin d)).
Proof.
  intros Hd H. destruct x as [a|]; simpl; [|exact Hd].
  specialize (H a eq_refl). unfold number_or.
  destruct (truthy_number (f a)); [exact H|exact Hd].
Qed.

Lemma average_within (xs : list number) (d lo hi : Q) :
  lo <= d <= hi ->
  (forall x, In x xs -> Spec.within lo hi x) ->
  Spec.within lo hi (average xs (Fin d)).
Proof.
  intros Hd H. destruct xs as [|x l]; [exact Hd|].
  assert (Hne : x :: l <> []) by discriminate.
  exact (mean_within (fun x => x) lo hi (x :: l) Hne H).
Qed.

(** X29.  The metrics computed from a conversation that passes the
    schema's validators are within the scales of the scores: well-being,
    stress, energy, satisfaction and the mean intensity between 1 and 10,
    the mean sentiment between -1 and 1. *)
Theorem metrics_of_a_valid_conversation (c : EC.t) :
  EC.valid c = true ->
  let m := Svc.calculateMetrics (Svc.extractConversationData c) in
  Spec.within 1 10 (CA.wellBeingScore m)
  /\ Spec.within 1 10 (CA.stressLevel m)
  /\ Spec.within 1 10 (CA.energyLevel m)
  /\ Spec.within 1 10 (CA.satisfactionLevel m)
  /\ Spec.within (-1) 1 (CA.sentimentScore m)
  /\ Spec.within 1 10 (CA.emotionalIntensity m).
Proof.
  intros Hvalid m.
  destruct (valid_scoresInBounds c Hvalid) as [Hq Ho].
  assert (Hmsg : forall msg a,
            In msg (Svc.messages (Svc.extractConversationData c)) ->
            Svc.emotionAnalysis msg = Some a ->
            Spec.within 1 10 (EC.intensity a)
            /\ Spec.within (-1) 1 (EC.sentiment a)).
  { intros msg a Hin Ha. simpl in Hin.
    apply in_flat_map in Hin as [q [Hqin [<-|[<-|[]]]]]; simpl in Ha;
      [discriminate|].
    injection Ha as <-. destruct (Hq q Hqin) as (H1 & _ & H3). now split. }
  unfold m, Svc.calculateMetrics.
  cbn [CA.wellBeingScore CA.stressLevel CA.energyLevel CA.satisfactionLevel
       CA.sentimentScore CA.emotionalIntensity Svc.overallEmotion
       Svc.extractConversationData].
  split; [|split; [|split; [|split; [|split]]]].
  - apply (fieldOr_within _ _ 5 1 10); [lra|]. intros o Eo. now apply Ho.
  - apply (fieldOr_within _ _ 5 1 10); [lra|]. intros o Eo. now apply Ho.
  - apply (fieldOr_within _ _ 5 1 10); [lra|]. intros o Eo. now apply Ho.
  - apply (fieldOr_within _ _ 5 1 10); [lra|]. intros o Eo. now apply Ho.
  - apply (average_within _ 0 (-1) 1); [lra|].
    intros x Hx. apply filter_In in Hx as [Hx _].
    apply in_map_iff in Hx as [msg [<- Hin]].
    apply filter_In in Hin as [Hin _].
    apply (fieldOr_within _ _ 0 (-1) 1); [lra|].
    intros a Ha. now apply (Hmsg msg a Hin Ha).
  - apply (average_within _ 5 1 10); [lra|].
    intros x Hx. apply filter_In in Hx as [Hx _].
    apply in_map_iff in Hx as [msg [<- Hin]].
    apply filter_In in Hin as [Hin _].
    apply (fieldOr_within _ _ 5 1 10); [lra|].
    intros a Ha. now apply (Hmsg msg a Hin Ha).
Qed.

Lemma metrics_of_a_valid_conversation_witness :
  let m :=
    Svc.calculateMetrics
      (Svc.extractConversationData Examples.stressedWorker) in
  Spec.within 1 10 (CA.wellBeingScore m)
  /\ Spec.within 1 10 (CA.stressLevel m)
  /\ Spec.within 1 10 (CA.energyLevel m)
  /\ Spec.within 1 10 (CA.satisfactionLevel m)
  /\ Spec.within (-1) 1 (CA.sentimentScore m)
  /\ Spec.within 1 10 (CA.emotionalIntensity m).
Proof.
  apply (metrics_of_a_valid_conversation Examples.stressedWorker).
  reflexivity.
Defined.

(** ** The topics of a tenant *)

Lemma mergeTopic_keys (t : CA.Topic) (topics : list CA.Topic) (k : string) :
  In k (map CA.topic (Svc.mergeTopic t topics))
  <-> k = CA.topic t \/ In k (map CA.topic topics).
Proof.
  induction topics as [|e rest IH]; simpl.
  - intuition.
  - destruct (CA.topic e =? CA.topic t) eqn:E; simpl.
    + apply String.eqb_eq in E. rewrite <- E. intuition.
    + rewrite IH. intuition.
Qed.

Lemma mergeTopic_NoDup (t : CA.Topic) (topics : list CA.Topic) :
  NoDup (map CA.topic topics) ->
  NoDup (map CA.topic (Svc.mergeTopic t topics)).
Proof.
  induction topics as [|e rest IH]; simpl; intros H.
  - repeat constructor. simpl. tauto.
  - inversion H as [|? ? Hnotin Hrest]; subst.
    destruct (CA.topic e =? CA.topic t) eqn:E; simpl.
    + now constructor.
    + constructor; [|now apply IH].
      rewrite mergeTopic_keys. intros [Hk|Hin]; [|contradiction].
      rewrite Hk, String.eqb_refl in E. discriminate.
Qed.

Lemma mergeTopic_total (t : CA.Topic) (topics : list CA.Topic) :
  More.totalOf (map CA.frequency (Svc.mergeTopic t topics))
  = (More.totalOf (map CA.frequency topics) + CA.frequency t)%Z.
Proof.
  unfold More.totalOf.
  induction topics as [|e rest IH]; simpl; [lia|].
  destruct (CA.topic e =? CA.topic t); simpl; [lia|]. rewrite IH. lia.
Qed.

Lemma fold_mergeTopic (ts acc : list CA.Topic) :
  NoDup (map CA.topic acc) ->
  let merged := fold_left (fun topics t => Svc.mergeTopic t topics) ts acc in
  NoDup (map CA.topic merged)
  /\ (forall k, In k (map CA.topic merged)
                <-> In k (map CA.topic ts) \/ In k (map CA.topic acc))
  /\ More.totalOf (map CA.frequency merged)
     = (More.totalOf (map CA.frequency acc)
        + More.totalOf (map CA.frequency ts))%Z.
Proof.
  revert acc. induction ts as [|t ts IH]; intros acc Hnd; simpl.
  - split; [assumption|]. split; [tauto|]. unfold More.totalOf. simpl. lia.
  - destruct (IH (Svc.mergeTopic t acc) (mergeTopic_NoDup t acc Hnd))
      as (H1 & H2 & H3).
    split; [exact H1|]. split.
    + intros k. rewrite H2, mergeTopic_keys. intuition.
    + rewrite H3, mergeTopic_total. unfold More.totalOf. simpl. lia.
Qed.

(** X30.  When the topics of a set of analytics records have plain
    names, the topics listed for the set are at most ten, none twice, the
    most mentioned first, each a topic of one of the records; and when the
    records name no more than ten topics, every topic they name is listed
    and the mentions listed add up to the mentions of the records. *)
Theorem analyzeTopics_ranking (analytics : list CA.t) :
  let listed := Svc.analyzeTopics (inr analytics) in
  let given := flat_map CA.topics analytics in
  More.plainNames (map CA.topic given) ->
  (List.length listed <= 10)%nat
  /\ NoDup (map CA.topic listed)
  /\ More.descending CA.frequency listed
  /\ (forall name, In name (map CA.topic listed) ->
        In name (map CA.topic given))
  /\ ((List.length (nodup string_dec (map CA.topic given)) <= 10)%nat ->
      (forall name, In name (map CA.topic given) ->
         In name (map CA.topic listed))
      /\ More.totalOf (map CA.frequency listed)
         = More.totalOf (map CA.frequency given)).
Proof.
  intros listed given _. unfold listed, Svc.analyzeTopics.
  assert (Hfold : forall acc,
            fold_left
              (fun topics analyticsItem =>
                 match Svc.topicsOf analyticsItem with
                 | Some ts =>
                     fold_left (fun topics t => Svc.mergeTopic t topics) ts
                       topics
                 | None => topics
                 end)
              analytics acc
            = fold_left (fun topics t => Svc.mergeTopic t topics) given acc).
  { unfold given. clear.
    induction analytics as [|a l IH]; intros acc; simpl; [reflexivity|].
    now rewrite fold_left_app, IH. }
  cbv zeta. rewrite Hfold.
  destruct (fold_mergeTopic given [] (NoDup_nil _)) as (Hnd & Hkeys & Htotal).
  cbv zeta in Hnd, Hkeys, Htotal.
  set (merged := fold_left (fun topics t => Svc.mergeTopic t topics) given [])
    in *.
  set (averaged := if (0 <? List.length merged)%nat then _ else merged).
  assert (Htopic : map CA.topic averaged = map CA.topic merged).
  { unfold averaged. destruct (0 <? List.length merged)%nat; [|reflexivity].
    now rewrite map_map. }
  assert (Hfreq : map CA.frequency averaged = map CA.frequency merged).
  { unfold averaged. destruct (0 <? List.length merged)%nat; [|reflexivity].
    now rewrite map_map. }
  assert (Hperm : Permutation (sortDesc CA.frequency averaged) averaged)
    by apply sortDesc_perm.
  split; [apply firstn_le_length|]. split; [|split; [|split]].
  - rewrite <- firstn_map. apply NoDup_firstn.
    eapply Permutation_NoDup;
      [symmetry; apply Permutation_map; exact Hperm|].
    now rewrite Htopic.
  - apply descending_firstn, sortDesc_descending.
  - intros name H. rewrite <- firstn_map in H. apply firstn_In in H.
    apply (Permutation_in _ (Permutation_map CA.topic Hperm)) in H.
    rewrite Htopic in H. apply Hkeys in H as [H|[]]. exact H.
  - intros Hten.
    assert (Hlen : (List.length averaged <= 10)%nat).
    { rewrite <- (length_map CA.topic), Htopic.
      rewrite (Permutation_length
                 (l' := nodup string_dec (map CA.topic given)));
        [exact Hten|].
      apply NoDup_Permutation; [exact Hnd|apply NoDup_nodup|].
      intros k. rewrite nodup_In, Hkeys. simpl. tauto. }
    rewrite firstn_all2 by (rewrite sortDesc_length; exact Hlen).
    split.
    + intros name H.
      apply (Permutation_in _
               (Permutation_sym (Permutation_map CA.topic Hperm))).
      rewrite Htopic. apply Hkeys. now left.
    + rewrite (totalOf_perm _ _ (Permutation_map CA.frequency Hperm)).
      rewrite Hfreq, Htotal. unfold More.totalOf. simpl. lia.
Qed.

Lemma analyzeTopics_ranking_witness :
  let analytics := [Examples.recordOfB; Examples.recordOfA] in
  let listed := Svc.analyzeTopics (inr analytics) in
  let given := flat_map CA.topics analytics in
  (List.length listed <= 10)%nat
  /\ NoDup (map CA.topic listed)
  /\ More.descending CA.frequency listed
  /\ (forall name, In name (map CA.topic listed) ->
        In name (map CA.topic given))
  /\ ((List.length (nodup string_dec (map CA.topic given)) <= 10)%nat ->
      (forall name, In name (map CA.topic given) ->
         In name (map CA.topic listed))
      /\ More.totalOf (map CA.frequency listed)
         = More.totalOf (map CA.frequency given)).
Proof.
  apply (analyzeTopics_ranking [Examples.recordOfB; Examples.recordOfA]).
  intros name Hname. vm_compute in Hname.
  repeat (destruct Hname as [<-|Hname]; [reflexivity|]).
  destruct Hname.
Defined.
